(** * ActivityGraph: the points-activity chart of the dashboard

    A shallow embedding of [src/components/Dashboard/ActivityGraph.tsx]
    (the date formatter, the series builder [chartData] and the choice
    between the empty-state panel and the line chart), together with the
    date formatter of the second copy of the component that the
    repository carries.

    Numbers are modelled as [Z] (the feed and the timeline carry integer
    point counts), [NaN] and [undefined] as [None].  Strings are Rocq
    strings.  The time zone of the runtime is a parameter [tza], the
    offset of local time from UTC in milliseconds. *)

From Stdlib Require Import ZArith List Ascii String Lia Bool Sorted Permutation.
From Stdlib Require Import Floats.PrimFloat.
From stdpp Require Import base option list strings gmap.

Local Open Scope string_scope.
Local Open Scope Z_scope.

(** ** The fragment of the JavaScript runtime that the component uses *)

Module JS.

(** [x || 0] on a number that may be [undefined]: [0] is falsy too. *)
Definition orZero (x : option Z) : Z :=
  match x with
  | Some v => v
  | None => 0
  end.

(** [s.split(sep)] for a one-character separator. *)
Fixpoint split (sep : ascii) (s : string) : list string :=
  match s with
  | EmptyString => [EmptyString]
  | String c s' =>
      if Ascii.eqb c sep then EmptyString :: split sep s'
      else match split sep s' with
           | h :: t => String c h :: t
           | [] => [String c EmptyString]
           end
  end.

(** [a[0]] of the result of [split], which always has a first element. *)
Definition head_or_empty (l : list string) : string :=
  match l with
  | h :: _ => h
  | [] => EmptyString
  end.

Definition isWhiteSpace (c : ascii) : bool :=
  let n := nat_of_ascii c in
  (Nat.eqb n 9 || Nat.eqb n 10 || Nat.eqb n 11 || Nat.eqb n 12
   || Nat.eqb n 13 || Nat.eqb n 32)%bool.

Definition digitValue (c : ascii) : option Z :=
  let n := Z.of_nat (nat_of_ascii c) in
  if (48 <=? n) && (n <=? 57) then Some (n - 48) else None.

Fixpoint trimStart (s : string) : string :=
  match s with
  | String c s' => if isWhiteSpace c then trimStart s' else s
  | EmptyString => EmptyString
  end.

(** The longest prefix of decimal digits of [s], read in base 10 on
    top of the accumulator; [seen] tells whether a digit was read. *)
Fixpoint digitsPrefix (s : string) (acc : Z) (seen : bool) : option Z :=
  match s with
  | String c s' =>
      match digitValue c with
      | Some d => digitsPrefix s' (10 * acc + d) true
      | None => if seen then Some acc else None
      end
  | EmptyString => if seen then Some acc else None
  end.

(** [parseInt(s, 10)]; [None] is [NaN]. *)
Definition parseInt (s : string) : option Z :=
  match trimStart s with
  | String "-" s' => option_map Z.opp (digitsPrefix s' 0 false)
  | String "+" s' => digitsPrefix s' 0 false
  | s' => digitsPrefix s' 0 false
  end.

(** The value [SortCompare] draws from a comparator result: [NaN]
    counts as [+0]. *)
Definition sortCompare (v : option Z) : Z := orZero v.

(** [Array.prototype.sort(comparefn)]: a stable sort.  For a
    consistent comparator every stable sort returns the same array;
    for the others the order is implementation-defined and this model
    picks the one of insertion. *)
Fixpoint sort_insert {A} (cmp : A -> A -> option Z) (x : A) (l : list A)
  : list A :=
  match l with
  | [] => [x]
  | y :: ys =>
      if sortCompare (cmp x y) <=? 0 then x :: y :: ys
      else y :: sort_insert cmp x ys
  end.

Fixpoint sort {A} (cmp : A -> A -> option Z) (l : list A) : list A :=
  match l with
  | [] => []
  | x :: xs => sort_insert cmp x (sort cmp xs)
  end.

(** Subtraction of two numbers either of which may be [NaN]. *)
Definition sub (a b : option Z) : option Z :=
  match a, b with
  | Some x, Some y => Some (x - y)
  | _, _ => None
  end.

End JS.

(** ** Dates, after ECMA-262 (section "Date Objects")

    A time value is a number of milliseconds since the epoch, [None]
    for an invalid date.  The functions keep the names of the abstract
    operations of the standard. *)

Module JSDate.

Definition msPerDay : Z := 86400000.

Definition Day (t : Z) : Z := t / msPerDay.

Definition DaysInYear (y : Z) : Z :=
  if negb (y mod 4 =? 0) then 365
  else if negb (y mod 100 =? 0) then 366
  else if negb (y mod 400 =? 0) then 365
  else 366.

Definition DayFromYear (y : Z) : Z :=
  365 * (y - 1970) + (y - 1969) / 4 - (y - 1901) / 100 + (y - 1601) / 400.

Definition TimeFromYear (y : Z) : Z := msPerDay * DayFromYear y.

(** The largest year whose first day is not after day [n]: an estimate
    from the mean length of a year, moved by one where it is off. *)
Definition YearFromDay (n : Z) : Z :=
  let y0 := 1970 + (400 * n) / 146097 in
  if DayFromYear (y0 + 1) <=? n then y0 + 1
  else if DayFromYear y0 <=? n then y0
  else y0 - 1.

Definition YearFromTime (t : Z) : Z := YearFromDay (Day t).

Definition InLeapYear (t : Z) : Z :=
  if DaysInYear (YearFromTime t) =? 366 then 1 else 0.

Definition DayWithinYear (t : Z) : Z := Day t - DayFromYear (YearFromTime t).

Definition MonthFromTime (t : Z) : Z :=
  let d := DayWithinYear t in
  let l := InLeapYear t in
  if d <? 31 then 0
  else if d <? 59 + l then 1
  else if d <? 90 + l then 2
  else if d <? 120 + l then 3
  else if d <? 151 + l then 4
  else if d <? 181 + l then 5
  else if d <? 212 + l then 6
  else if d <? 243 + l then 7
  else if d <? 273 + l then 8
  else if d <? 304 + l then 9
  else if d <? 334 + l then 10
  else 11.

Definition DateFromTime (t : Z) : Z :=
  let d := DayWithinYear t in
  let l := InLeapYear t in
  match MonthFromTime t with
  | 0 => d + 1
  | 1 => d - 30
  | 2 => d - 58 - l
  | 3 => d - 89 - l
  | 4 => d - 119 - l
  | 5 => d - 150 - l
  | 6 => d - 180 - l
  | 7 => d - 211 - l
  | 8 => d - 242 - l
  | 9 => d - 272 - l
  | 10 => d - 303 - l
  | _ => d - 333 - l
  end.

(** The day within the year on which month [mn] (0 to 11) begins. *)
Definition monthStart (leap : Z) (mn : Z) : Z :=
  match mn with
  | 0 => 0
  | 1 => 31
  | 2 => 59 + leap
  | 3 => 90 + leap
  | 4 => 120 + leap
  | 5 => 151 + leap
  | 6 => 181 + leap
  | 7 => 212 + leap
  | 8 => 243 + leap
  | 9 => 273 + leap
  | 10 => 304 + leap
  | _ => 334 + leap
  end.

Definition leapDays (y : Z) : Z := if DaysInYear y =? 366 then 1 else 0.

(** Days of month [mn] (0 to 11) of year [y]. *)
Definition DaysInMonth (y mn : Z) : Z :=
  match mn with
  | 1 => 28 + leapDays y
  | 3 | 5 | 8 | 10 => 30
  | _ => 31
  end.

(** [MakeDay(year, month, date)] on integers: the day number of the
    first of the month, moved by [date - 1]. *)
Definition MakeDay (year month date : Z) : Z :=
  let ym := year + month / 12 in
  let mn := month mod 12 in
  DayFromYear ym + monthStart (leapDays ym) mn + date - 1.

(** [MakeDate(day, time)]. *)
Definition MakeDate (day time : Z) : Z := day * msPerDay + time.

Definition TimeClip (t : Z) : option Z :=
  if Z.abs t <=? 8640000000000000 then Some t else None.

(** [MakeFullYear]: the years 0 to 99 stand for 1900 to 1999. *)
Definition MakeFullYear (y : Z) : Z :=
  if (0 <=? y) && (y <=? 99) then 1900 + y else y.

Definition monthShort (mn : Z) : string :=
  match mn with
  | 0 => "Jan" | 1 => "Feb" | 2 => "Mar" | 3 => "Apr" | 4 => "May"
  | 5 => "Jun" | 6 => "Jul" | 7 => "Aug" | 8 => "Sep" | 9 => "Oct"
  | 10 => "Nov" | _ => "Dec"
  end.

Definition digitChar (d : Z) : ascii := ascii_of_nat (Z.to_nat (48 + d)).

(** The day of the month in decimal, without a leading zero. *)
Definition dayNumeric (d : Z) : string :=
  if d <? 10 then String (digitChar d) EmptyString
  else String (digitChar (d / 10)) (String (digitChar (d mod 10)) EmptyString).

(** The en-US pattern for a short month and a numeric day: "Sep 8". *)
Definition shortLabel (mn d : Z) : string :=
  monthShort mn ++ " " ++ dayNumeric d.

Section TimeZone.

(** The offset of local time from UTC, in milliseconds, taken as the
    same at every instant (no change to or from daylight saving).  A
    zone whose offset changes is a [Zoned.Zone], further down. *)
Variable tza : Z.

Definition LocalTime (t : Z) : Z := t + tza.

Definition UTC (t : Z) : Z := t - tza.

(** [new Date(year, monthIndex, day).getTime()]: the arguments are
    local time; an argument that is [NaN] or [undefined] makes the date
    invalid. *)
Definition fromComponents (year monthIndex day : option Z) : option Z :=
  match year, monthIndex, day with
  | Some y, Some m, Some d =>
      TimeClip (UTC (MakeDate (MakeDay (MakeFullYear y) m d) 0))
  | _, _, _ => None
  end.

(** [date.toLocaleDateString('en-US', { month: 'short', day: 'numeric' })]
    in the time zone of the runtime. *)
Definition toLocaleDateString_short (tv : option Z) : string :=
  match tv with
  | None => "Invalid Date"
  | Some t =>
      let tl := LocalTime t in
      shortLabel (MonthFromTime tl) (DateFromTime tl)
  end.

End TimeZone.

(** The value of two decimal digits. *)
Definition twoDigits (a b : ascii) : option Z :=
  match JS.digitValue a, JS.digitValue b with
  | Some x, Some y => Some (10 * x + y)
  | _, _ => None
  end.

Definition fourDigits (a b c d : ascii) : option Z :=
  match twoDigits a b, twoDigits c d with
  | Some x, Some y => Some (100 * x + y)
  | _, _ => None
  end.

(** [Date.parse] on the date-only form [YYYY-MM-DD] of the date-time
    string format, which is read as UTC; a month or a day out of range
    gives [NaN].  What the standard leaves to the implementation (every
    string outside its format) is [NaN] here. *)
Definition parse (s : string) : option Z :=
  match s with
  | String y1 (String y2 (String y3 (String y4 (String sep1
      (String m1 (String m2 (String sep2
        (String d1 (String d2 EmptyString))))))))) =>
      if Ascii.eqb sep1 "-" && Ascii.eqb sep2 "-" then
        match fourDigits y1 y2 y3 y4, twoDigits m1 m2, twoDigits d1 d2 with
        | Some y, Some m, Some d =>
            if (1 <=? m) && (m <=? 12) && (1 <=? d) && (d <=? DaysInMonth y (m - 1))
            then TimeClip (MakeDate (MakeDay y (m - 1) d) 0)
            else None
        | _, _, _ => None
        end
      else None
  | _ => None
  end.

(** [new Date(s).getTime()]. *)
Definition getTime (s : string) : option Z := parse s.

End JSDate.

(** ** The data model *)

Record ActivityFeedItem := {
  timestamp : string;
  type : string;
  points_change : Z
}.

Module TimelineRow.
Record t := {
  date : string;
  points_earned : option Z;
  points_redeemed : option Z;
  redemptions_count : option Z
}.
End TimelineRow.

Record ActivityFeed := { feed : list ActivityFeedItem }.

Record TimelineData := { timeline : list TimelineRow.t }.

(** An entry of [dailyData]. *)
Module DailyBucket.
Record t := {
  points : Z;
  activities : Z;
  redemptions : Z;
  redeemed : Z;
  date : string
}.
End DailyBucket.

Record ChartPoint := {
  name : string;
  Points : Z;
  Daily : Z;
  Redeemed : Z;
  Net : Z;
  Redemptions : Z;
  rawDate : string;
  dataSource : option string
}.

(** What [useSharedDashboardData] hands to the component ([error],
    [lastFetch], [cacheVersion] and [refresh] are not used by it). *)
Record DashboardData := {
  timelineData : option TimelineData;
  activityFeed : option ActivityFeed;
  totalPoints : option Z;
  isLoading : bool
}.

(** ** Objects used as maps: [Record<string, V>]

    The own string keys in the order of their insertion.  The keys are
    meant not to be names of [Object.prototype]; date keys are not.
    [Prototype.lookup], further down, is the lookup that finds those
    names as well. *)

Module Obj.

Definition t (V : Type) : Type := list (string * V).

Fixpoint get {V} (k : string) (o : t V) : option V :=
  match o with
  | [] => None
  | (k', v) :: o' => if String.eqb k k' then Some v else get k o'
  end.

(** [o[k] = v]: an existing key keeps its place, a new one goes last. *)
Fixpoint set {V} (k : string) (v : V) (o : t V) : t V :=
  match o with
  | [] => [(k, v)]
  | (k', v') :: o' =>
      if String.eqb k k' then (k', v) :: o' else (k', v') :: set k v o'
  end.

(** [o[k].f = ...] on the entry at [k]. *)
Definition update {V} (k : string) (f : V -> V) (o : t V) : t V :=
  match get k o with
  | Some v => set k (f v) o
  | None => o
  end.

Definition keys {V} (o : t V) : list string := map fst o.

Fixpoint allDigits (s : string) : bool :=
  match s with
  | EmptyString => true
  | String c s' =>
      match JS.digitValue c with
      | Some _ => allDigits s'
      | None => false
      end
  end.

(** The array index that a key denotes, if it is the canonical decimal
    form of an integer below [2^32 - 1]. *)
Definition arrayIndex (k : string) : option Z :=
  match k with
  | EmptyString => None
  | String "0" EmptyString => Some 0
  | String "0" _ => None
  | _ =>
      if allDigits k then
        match JS.digitsPrefix k 0 false with
        | Some n => if n <=? 4294967294 then Some n else None
        | None => None
        end
      else None
  end.

Definition isIndexKey {V} (e : string * V) : bool :=
  match arrayIndex (fst e) with
  | Some _ => true
  | None => false
  end.

Definition compareIndex {V} (a b : string * V) : option Z :=
  JS.sub (arrayIndex (fst a)) (arrayIndex (fst b)).

(** [Object.values(o)]: array-index keys first in ascending order, then
    the other keys in the order of their insertion. *)
Definition values {V} (o : t V) : list V :=
  map snd (JS.sort compareIndex (List.filter isIndexKey o))
  ++ map snd (List.filter (fun e => negb (isIndexKey e)) o).

End Obj.

(** ** The component *)

Section ActivityGraph.

Variable tza : Z.

(** [formatDate] of ActivityGraph.tsx: the components of the string are
    parsed one by one and the date is built in local time. *)
Definition formatDate (dateString : string) : string :=
  let parts := map JS.parseInt (JS.split "-" dateString) in
  let year := mjoin (parts !! 0%nat) in
  let month := mjoin (parts !! 1%nat) in
  let day := mjoin (parts !! 2%nat) in
  let date := JSDate.fromComponents tza year (option_map (fun m => m - 1) month) day in
  JSDate.toLocaleDateString_short tza date.

Definition emptyBucket (dateKey : string) : DailyBucket.t :=
  {| DailyBucket.points := 0;
     DailyBucket.activities := 0;
     DailyBucket.redemptions := 0;
     DailyBucket.redeemed := 0;
     DailyBucket.date := dateKey |}.

Definition dateKeyOf (item : ActivityFeedItem) : string :=
  JS.head_or_empty (JS.split "T" (timestamp item)).

Definition isEarning (item : ActivityFeedItem) : bool :=
  String.eqb (type item) "activity" && (0 <? points_change item).

Definition isRedemption (item : ActivityFeedItem) : bool :=
  String.eqb (type item) "redemption" && (points_change item <? 0).

Definition addEarning (pc : Z) (b : DailyBucket.t) : DailyBucket.t :=
  {| DailyBucket.points := DailyBucket.points b + pc;
     DailyBucket.activities := DailyBucket.activities b + 1;
     DailyBucket.redemptions := DailyBucket.redemptions b;
     DailyBucket.redeemed := DailyBucket.redeemed b;
     DailyBucket.date := DailyBucket.date b |}.

Definition addRedemption (pc : Z) (b : DailyBucket.t) : DailyBucket.t :=
  {| DailyBucket.points := DailyBucket.points b;
     DailyBucket.activities := DailyBucket.activities b;
     DailyBucket.redemptions := DailyBucket.redemptions b + 1;
     DailyBucket.redeemed := DailyBucket.redeemed b + Z.abs pc;
     DailyBucket.date := DailyBucket.date b |}.

(** The body of [activityFeed.feed.forEach(item => ...)]. *)
Definition feedStep (dailyData : Obj.t DailyBucket.t) (item : ActivityFeedItem)
  : Obj.t DailyBucket.t :=
  let dateKey := dateKeyOf item in
  let dailyData :=
    match Obj.get dateKey dailyData with
    | Some _ => dailyData
    | None => Obj.set dateKey (emptyBucket dateKey) dailyData
    end in
  if isEarning item then
    Obj.update dateKey (addEarning (points_change item)) dailyData
  else if isRedemption item then
    Obj.update dateKey (addRedemption (points_change item)) dailyData
  else dailyData.

Definition groupByDate (items : list ActivityFeedItem) : Obj.t DailyBucket.t :=
  fold_left feedStep items [].

Definition compareBucketDates (a b : DailyBucket.t) : option Z :=
  JS.sub (JSDate.getTime (DailyBucket.date a)) (JSDate.getTime (DailyBucket.date b)).

Definition compareRowDates (a b : TimelineRow.t) : option Z :=
  JS.sub (JSDate.getTime (TimelineRow.date a)) (JSDate.getTime (TimelineRow.date b)).

Definition sortedDays (items : list ActivityFeedItem) : list DailyBucket.t :=
  JS.sort compareBucketDates (Obj.values (groupByDate items)).

(** [sortedDays.map(day => ...)], with [runningTotal] threaded through
    the calls of the callback. *)
Fixpoint feedProgression (runningTotal : Z) (days : list DailyBucket.t)
  : list ChartPoint :=
  match days with
  | [] => []
  | day :: rest =>
      let netChange := DailyBucket.points day - DailyBucket.redeemed day in
      let runningTotal := runningTotal + netChange in
      let runningTotal := if runningTotal <? 0 then 0 else runningTotal in
      {| name := formatDate (DailyBucket.date day);
         Points := runningTotal;
         Daily := DailyBucket.points day;
         Redeemed := DailyBucket.redeemed day;
         Net := netChange;
         Redemptions := DailyBucket.redemptions day;
         rawDate := DailyBucket.date day;
         dataSource := Some "activity-feed" |}
      :: feedProgression runningTotal rest
  end.

(** [sortedTimeline.map(item => ...)]. *)
Fixpoint timelineProgression (runningTotal : Z) (rows : list TimelineRow.t)
  : list ChartPoint :=
  match rows with
  | [] => []
  | item :: rest =>
      let dailyNet := JS.orZero (TimelineRow.points_earned item)
                      - JS.orZero (TimelineRow.points_redeemed item) in
      let runningTotal := runningTotal + dailyNet in
      {| name := formatDate (TimelineRow.date item);
         Points := runningTotal;
         Daily := JS.orZero (TimelineRow.points_earned item);
         Redeemed := JS.orZero (TimelineRow.points_redeemed item);
         Net := dailyNet;
         Redemptions := JS.orZero (TimelineRow.redemptions_count item);
         rawDate := TimelineRow.date item;
         dataSource := None |}
      :: timelineProgression runningTotal rest
  end.

(** [arr[arr.length - 1]?.Points || 0]. *)
Definition calculatedFinal (pts : list ChartPoint) : Z :=
  JS.orZero (option_map Points (last pts)).

Definition adjustment (correctTotalPoints : Z) (pts : list ChartPoint) : Z :=
  correctTotalPoints - calculatedFinal pts.

(** [item.Points += adjustment]. *)
Definition addPoints (adj : Z) (item : ChartPoint) : ChartPoint :=
  {| name := name item;
     Points := Points item + adj;
     Daily := Daily item;
     Redeemed := Redeemed item;
     Net := Net item;
     Redemptions := Redemptions item;
     rawDate := rawDate item;
     dataSource := dataSource item |}.

(** The adjustment to the total, written out once for the two branches
    (the source repeats it).  The numbers are integers here;
    [Binary64.adjustToTotal], further down, has the numbers of the
    engine. *)
Definition adjustToTotal (correctTotalPoints : Z) (pts : list ChartPoint)
  : list ChartPoint :=
  let adj := adjustment correctTotalPoints pts in
  if 0 <? Z.abs adj then map (addPoints adj) pts else pts.

Definition feedItems (activityFeed : option ActivityFeed) : list ActivityFeedItem :=
  match activityFeed with
  | Some f => feed f
  | None => []
  end.

Definition timelineRows (timelineData : option TimelineData) : list TimelineRow.t :=
  match timelineData with
  | Some d => timeline d
  | None => []
  end.

(** The series before the adjustment, by branch. *)
Definition chartDataFromFeed (items : list ActivityFeedItem) : list ChartPoint :=
  feedProgression 0 (sortedDays items).

Definition sortedTimeline (rows : list TimelineRow.t) : list TimelineRow.t :=
  JS.sort compareRowDates rows.

Definition chartDataWithProgression (rows : list TimelineRow.t) : list ChartPoint :=
  timelineProgression 0 (sortedTimeline rows).

(** The series as built, before either branch adjusts it. *)
Definition unadjusted (d : DashboardData) : list ChartPoint :=
  match feedItems (activityFeed d) with
  | _ :: _ => chartDataFromFeed (feedItems (activityFeed d))
  | [] => chartDataWithProgression (timelineRows (timelineData d))
  end.

Definition chartData (d : DashboardData) : list ChartPoint :=
  let items := feedItems (activityFeed d) in
  let rows := timelineRows (timelineData d) in
  if (length items =? 0)%nat && (length rows =? 0)%nat then []
  else
    let correctTotalPoints := JS.orZero (totalPoints d) in
    if negb (length items =? 0)%nat then
      adjustToTotal correctTotalPoints (chartDataFromFeed items)
    else if (length rows =? 0)%nat then []
    else adjustToTotal correctTotalPoints (chartDataWithProgression rows).

(** What the component returns. *)
Inductive View :=
| Skeleton
| EmptyState
| LineChart (data : list ChartPoint).

Definition ActivityGraph (d : DashboardData) : View :=
  if isLoading d then Skeleton
  else
    let data := chartData d in
    if negb (bool_decide (is_Some (timelineData d))) || (length data =? 0)%nat
    then EmptyState
    else LineChart data.

End ActivityGraph.

(** ** The tooltip of the chart

    The [content] callback of [<Tooltip>].  The markup is kept as the
    lines it shows, each with the numbers and the pieces of text that
    the source puts in it. *)

(** An entry of [payload], whose own [payload] is the chart point. *)
Record PayloadEntry := { payload : option ChartPoint }.

Inductive TooltipLine :=
| TotalLine (points : option Z)
| EarnedLine (daily : Z)
| RedeemedLine (redeemed : Z)
| NetLine (sign : string) (net : Z)
| RedemptionsLine (count : Z) (plural : string).

Record TooltipView := {
  header : string;
  realTimeBadge : bool;
  lines : list TooltipLine
}.

(** [cond && <p>...</p>]: the line when the condition holds of the
    point, nothing when it does not or when there is no point. *)
Definition lineIf (data : option ChartPoint) (cond : ChartPoint -> bool)
  (line : ChartPoint -> TooltipLine) : list TooltipLine :=
  match data with
  | Some p => if cond p then [line p] else []
  | None => []
  end.

Definition tooltipContent (active : bool) (payload : option (list PayloadEntry))
  (label : string) : option TooltipView :=
  match active, payload with
  | true, Some ({| payload := data |} :: _) =>
      let dataSource :=
        match data ≫= dataSource with
        | Some s => if String.eqb s "" then "timeline" else s
        | None => "timeline"
        end in
      Some {| header := label;
              realTimeBadge := String.eqb dataSource "activity-feed";
              lines :=
                [TotalLine (option_map Points data)]
                ++ lineIf data (fun p => 0 <? Daily p) (fun p => EarnedLine (Daily p))
                ++ lineIf data (fun p => 0 <? Redeemed p)
                     (fun p => RedeemedLine (Redeemed p))
                ++ lineIf data (fun p => negb (Net p =? Daily p))
                     (fun p => NetLine (if 0 <? Net p then "+" else "") (Net p))
                ++ lineIf data (fun p => 0 <? Redemptions p)
                     (fun p => RedemptionsLine (Redemptions p)
                                 (if 1 <? Redemptions p then "s" else "")) |}
  | _, _ => None
  end.

(** [formatDate] of the second copy of the component: the whole string
    goes through [new Date(dateString)]. *)
Module Unnamed000.

Definition formatDate (tza : Z) (dateString : string) : string :=
  JSDate.toLocaleDateString_short tza (JSDate.getTime dateString).

(** The chart point of this copy: no [rawDate], no [dataSource]. *)
Record ChartPoint := {
  name : string;
  Points : Z;
  Daily : Z;
  Redeemed : Z;
  Net : Z;
  Redemptions : Z
}.

(** What [console.log] is handed when the series is adjusted. *)
Record LogEntry := {
  correctTotalPoints : Z;
  calculatedFinal : Z;
  adjustment : Z;
  finalDisplayTotal : option Z
}.

Section Series.

Variable tza : Z.

(** [sortedTimeline.map(item => ...)]. *)
Fixpoint timelineProgression (runningTotal : Z) (rows : list TimelineRow.t)
  : list ChartPoint :=
  match rows with
  | [] => []
  | item :: rest =>
      let dailyNet := JS.orZero (TimelineRow.points_earned item)
                      - JS.orZero (TimelineRow.points_redeemed item) in
      let runningTotal := runningTotal + dailyNet in
      {| name := formatDate tza (TimelineRow.date item);
         Points := runningTotal;
         Daily := JS.orZero (TimelineRow.points_earned item);
         Redeemed := JS.orZero (TimelineRow.points_redeemed item);
         Net := dailyNet;
         Redemptions := JS.orZero (TimelineRow.redemptions_count item) |}
      :: timelineProgression runningTotal rest
  end.

Definition addPoints (adj : Z) (item : ChartPoint) : ChartPoint :=
  {| name := name item;
     Points := Points item + adj;
     Daily := Daily item;
     Redeemed := Redeemed item;
     Net := Net item;
     Redemptions := Redemptions item |}.

(** [chartData], with what it writes to the console. *)
Definition chartData (timelineData : option TimelineData) (totalPoints : option Z)
  : list ChartPoint * list LogEntry :=
  match timelineRows timelineData with
  | [] => ([], [])
  | timeline =>
      let correctTotalPoints := JS.orZero totalPoints in
      let sortedTimeline := JS.sort compareRowDates timeline in
      let chartDataWithProgression := timelineProgression 0 sortedTimeline in
      let calculatedFinal :=
        JS.orZero (option_map Points (last chartDataWithProgression)) in
      let adjustment := correctTotalPoints - calculatedFinal in
      if 0 <? Z.abs adjustment then
        let adjusted := map (addPoints adjustment) chartDataWithProgression in
        (adjusted,
         [ {| correctTotalPoints := correctTotalPoints;
              calculatedFinal := calculatedFinal;
              adjustment := adjustment;
              finalDisplayTotal := option_map Points (last adjusted) |} ])
      else (chartDataWithProgression, [])
  end.

Inductive View :=
| Skeleton
| EmptyState
| LineChart (data : list ChartPoint).

Definition ActivityGraph (d : DashboardData) : View :=
  if isLoading d then Skeleton
  else
    let data := fst (chartData (timelineData d) (totalPoints d)) in
    if negb (bool_decide (is_Some (timelineData d))) || (length data =? 0)%nat
    then EmptyState
    else LineChart data.

End Series.

End Unnamed000.

(** ** Arrays as objects

    The pure functions above say what [chartData] returns.  What it may
    do to the arrays it is handed is said here: an array is an object in
    a store, a variable holds a reference to it, [sort] writes through
    the reference, and the spread [[...a]], [Object.values] and [map]
    allocate. *)

Module Heap.

Definition loc : Type := positive.

Record Store := {
  rowArrays : gmap loc (list TimelineRow.t);
  itemArrays : gmap loc (list ActivityFeedItem);
  bucketArrays : gmap loc (list DailyBucket.t);
  pointArrays : gmap loc (list ChartPoint)
}.

Definition withRows (f : gmap loc (list TimelineRow.t) -> gmap loc (list TimelineRow.t))
  (s : Store) : Store :=
  {| rowArrays := f (rowArrays s);
     itemArrays := itemArrays s;
     bucketArrays := bucketArrays s;
     pointArrays := pointArrays s |}.

Definition withBuckets (f : gmap loc (list DailyBucket.t) -> gmap loc (list DailyBucket.t))
  (s : Store) : Store :=
  {| rowArrays := rowArrays s;
     itemArrays := itemArrays s;
     bucketArrays := f (bucketArrays s);
     pointArrays := pointArrays s |}.

Definition withPoints (f : gmap loc (list ChartPoint) -> gmap loc (list ChartPoint))
  (s : Store) : Store :=
  {| rowArrays := rowArrays s;
     itemArrays := itemArrays s;
     bucketArrays := bucketArrays s;
     pointArrays := f (pointArrays s) |}.

(** Computations that read and write the store; [None] is a reference
    to no array, which a JavaScript program cannot hold. *)
Definition M (A : Type) : Type := Store -> option (A * Store).

Definition ret {A} (a : A) : M A := fun s => Some (a, s).

Definition bind {A B} (m : M A) (k : A -> M B) : M B :=
  fun s =>
    match m s with
    | Some (a, s') => k a s'
    | None => None
    end.

Notation "'let*' x ':=' m 'in' k" := (bind m (fun x => k))
  (at level 10, x name, m at level 100, k at level 200).

Definition readRows (r : loc) : M (list TimelineRow.t) :=
  fun s => option_map (fun l => (l, s)) (rowArrays s !! r).

Definition readItems (r : loc) : M (list ActivityFeedItem) :=
  fun s => option_map (fun l => (l, s)) (itemArrays s !! r).

Definition readBuckets (r : loc) : M (list DailyBucket.t) :=
  fun s => option_map (fun l => (l, s)) (bucketArrays s !! r).

Definition readPoints (r : loc) : M (list ChartPoint) :=
  fun s => option_map (fun l => (l, s)) (pointArrays s !! r).

Definition allocRows (l : list TimelineRow.t) : M loc :=
  fun s => let r := fresh (dom (rowArrays s)) in Some (r, withRows <[r := l]> s).

Definition allocBuckets (l : list DailyBucket.t) : M loc :=
  fun s => let r := fresh (dom (bucketArrays s)) in Some (r, withBuckets <[r := l]> s).

Definition allocPoints (l : list ChartPoint) : M loc :=
  fun s => let r := fresh (dom (pointArrays s)) in Some (r, withPoints <[r := l]> s).

Definition writeRows (r : loc) (l : list TimelineRow.t) : M unit :=
  fun s => Some (tt, withRows <[r := l]> s).

Definition writeBuckets (r : loc) (l : list DailyBucket.t) : M unit :=
  fun s => Some (tt, withBuckets <[r := l]> s).

Definition writePoints (r : loc) (l : list ChartPoint) : M unit :=
  fun s => Some (tt, withPoints <[r := l]> s).

(** [[...a]] on an array of rows: a new array with the same elements. *)
Definition spreadRows (r : loc) : M loc :=
  let* l := readRows r in allocRows l.

(** [a.sort(comparefn)]: sorts [a] itself and returns it. *)
Definition sortRows (r : loc) : M loc :=
  let* l := readRows r in
  let* _ := writeRows r (JS.sort compareRowDates l) in
  ret r.

Definition sortBuckets (r : loc) : M loc :=
  let* l := readBuckets r in
  let* _ := writeBuckets r (JS.sort compareBucketDates l) in
  ret r.

(** [activityFeed?.feed] and [timelineData?.timeline] as references. *)
Record Inputs := {
  feedRef : option loc;
  timelineRef : option loc;
  total : option Z
}.

Definition lengthItems (r : option loc) : M nat :=
  match r with
  | Some r => let* l := readItems r in ret (length l)
  | None => ret 0%nat
  end.

Definition lengthRows (r : option loc) : M nat :=
  match r with
  | Some r => let* l := readRows r in ret (length l)
  | None => ret 0%nat
  end.

(** The adjustment of either branch, on the array that [map] made. *)
Definition adjustInPlace (correctTotalPoints : Z) (r : loc) : M loc :=
  let* pts := readPoints r in
  let adj := adjustment correctTotalPoints pts in
  if 0 <? Z.abs adj then
    let* _ := writePoints r (map (addPoints adj) pts) in ret r
  else ret r.

Definition fromFeed (tza : Z) (correctTotalPoints : Z) (fr : loc) : M loc :=
  let* items := readItems fr in
  let dailyData := groupByDate items in
  let* vals := allocBuckets (Obj.values dailyData) in
  let* sortedDays := sortBuckets vals in
  let* days := readBuckets sortedDays in
  let* chartDataFromFeed := allocPoints (feedProgression tza 0 days) in
  adjustInPlace correctTotalPoints chartDataFromFeed.

Definition fromTimeline (tza : Z) (correctTotalPoints : Z) (tr : loc) : M loc :=
  let* copy := spreadRows tr in
  let* sortedTimeline := sortRows copy in
  let* rows := readRows sortedTimeline in
  let* chartDataWithProgression := allocPoints (timelineProgression tza 0 rows) in
  adjustInPlace correctTotalPoints chartDataWithProgression.

(** [chartData] on references; the result is a reference to the array
    of chart points. *)
Definition chartData (tza : Z) (i : Inputs) : M loc :=
  let* nf := lengthItems (feedRef i) in
  let* nt := lengthRows (timelineRef i) in
  if (nf =? 0)%nat && (nt =? 0)%nat then allocPoints []
  else
    let correctTotalPoints := JS.orZero (total i) in
    match feedRef i, negb (nf =? 0)%nat with
    | Some fr, true => fromFeed tza correctTotalPoints fr
    | _, _ =>
        match timelineRef i, (nt =? 0)%nat with
        | Some tr, false => fromTimeline tza correctTotalPoints tr
        | _, _ => allocPoints []
        end
    end.

(** The same derivation with the spread left out, to compare with. *)
Definition fromTimeline_nocopy (tza : Z) (correctTotalPoints : Z) (tr : loc) : M loc :=
  let* sortedTimeline := sortRows tr in
  let* rows := readRows sortedTimeline in
  let* chartDataWithProgression := allocPoints (timelineProgression tza 0 rows) in
  adjustInPlace correctTotalPoints chartDataWithProgression.

(** The inputs of the pure derivation, as a store holds them. *)
Definition snapshot (s : Store) (i : Inputs) : DashboardData :=
  {| timelineData := option_map (fun l => {| timeline := l |}) (timelineRef i ≫= (rowArrays s !!.));
     activityFeed := option_map (fun l => {| feed := l |}) (feedRef i ≫= (itemArrays s !!.));
     totalPoints := total i;
     isLoading := false |}.

(** References that point to arrays of the store. *)
Definition wellFormed (s : Store) (i : Inputs) : Prop :=
  (forall r, feedRef i = Some r -> is_Some (itemArrays s !! r)) /\
  (forall r, timelineRef i = Some r -> is_Some (rowArrays s !! r)).

End Heap.

(** ** Notions the properties are stated with *)

(** The total that a point starts from: the one the previous point
    ended on, or the initial one. *)
Definition totalBefore (rt : Z) (pre : list ChartPoint) : Z :=
  match last pre with
  | Some q => Points q
  | None => rt
  end.

(** The string [YYYY-MM-DD] with the given decimal digits. *)
Definition isoDate (y1 y2 y3 y4 m1 m2 d1 d2 : Z) : string :=
  String (JSDate.digitChar y1) (String (JSDate.digitChar y2)
    (String (JSDate.digitChar y3) (String (JSDate.digitChar y4)
      (String "-" (String (JSDate.digitChar m1) (String (JSDate.digitChar m2)
        (String "-" (String (JSDate.digitChar d1) (String (JSDate.digitChar d2)
          EmptyString))))))))).

Definition isDigit (a : Z) : Prop := 0 <= a <= 9.

(** The order of two date strings by their time values; a string that
    is no date is in no order with any other. *)
Definition dateLe (a b : string) : Prop :=
  match JSDate.getTime a, JSDate.getTime b with
  | Some x, Some y => x <= y
  | _, _ => False
  end.

Definition dateLt (a b : string) : Prop :=
  match JSDate.getTime a, JSDate.getTime b with
  | Some x, Some y => x < y
  | _, _ => False
  end.

Definition validDate (s : string) : Prop := is_Some (JSDate.getTime s).

(** A series whose dates never go back, and one whose dates go forward
    from each point to the next. *)
Definition ascending (pts : list ChartPoint) : Prop :=
  StronglySorted dateLe (map rawDate pts).

Definition strictlyAscending (pts : list ChartPoint) : Prop :=
  StronglySorted dateLt (map rawDate pts).

(** The comparator of the two sorts, for a date field [key]. *)
Definition byDate {A} (key : A -> string) (a b : A) : option Z :=
  JS.sub (JSDate.getTime (key a)) (JSDate.getTime (key b)).

(** What the loop keeps true of [dailyData]: a key occurs once, it is
    the date of its bucket, and it is the date of an item read so far. *)
Definition bucketOk (valid : string -> Prop) (e : string * DailyBucket.t) : Prop :=
  DailyBucket.date (snd e) = fst e /\ valid (fst e).

Definition dailyDataOk (valid : string -> Prop) (o : Obj.t DailyBucket.t) : Prop :=
  List.NoDup (Obj.keys o) /\ Forall (bucketOk valid) o.

(** The dates of the source that [chartData] uses: the feed when it has
    an item, the timeline otherwise. *)
Definition sourceDates (d : DashboardData) : list string :=
  match feedItems (activityFeed d) with
  | [] => map TimelineRow.date (timelineRows (timelineData d))
  | items => map dateKeyOf items
  end.

(** ** Inputs of the scenarios *)

Module Samples.

Definition item (ts ty : string) (pc : Z) : ActivityFeedItem :=
  {| timestamp := ts; type := ty; points_change := pc |}.

Definition row (d : string) (earned redeemed count : option Z) : TimelineRow.t :=
  {| TimelineRow.date := d;
     TimelineRow.points_earned := earned;
     TimelineRow.points_redeemed := redeemed;
     TimelineRow.redemptions_count := count |}.

Definition fromFeedOnly (items : list ActivityFeedItem) (tp : option Z) : DashboardData :=
  {| timelineData := None;
     activityFeed := Some {| feed := items |};
     totalPoints := tp;
     isLoading := false |}.

Definition fromTimelineOnly (rows : list TimelineRow.t) (tp : option Z) : DashboardData :=
  {| timelineData := Some {| timeline := rows |};
     activityFeed := None;
     totalPoints := tp;
     isLoading := false |}.

(** Two earnings on one day, a redemption on the next. *)
Definition feed1 : list ActivityFeedItem :=
  [ item "2025-09-08T09:15:00Z" "activity" 10;
    item "2025-09-08T17:40:00Z" "activity" 5;
    item "2025-09-09T08:00:00Z" "redemption" (-3) ].

(** The points that [feed1] gives, up to the running total. *)
Definition feed1_sep8 (total : Z) : ChartPoint :=
  {| name := "Sep 8"; Points := total; Daily := 15; Redeemed := 0;
     Net := 15; Redemptions := 0; rawDate := "2025-09-08";
     dataSource := Some "activity-feed" |}.

Definition feed1_sep9 (total : Z) : ChartPoint :=
  {| name := "Sep 9"; Points := total; Daily := 0; Redeemed := 3;
     Net := -3; Redemptions := 1; rawDate := "2025-09-09";
     dataSource := Some "activity-feed" |}.

(** Earnings of 2 and of 10 on two days. *)
Definition feed2 : list ActivityFeedItem :=
  [ item "2025-09-08T09:15:00Z" "activity" 2;
    item "2025-09-09T08:00:00Z" "activity" 10 ].



(** One row that redeems more than it earns. *)
Definition timeline1 (A : string) : list TimelineRow.t :=
  [ row A (Some 5) (Some 8) None ].

(** Two rows for the same day. *)
Definition timeline2 : list TimelineRow.t :=
  [ row "2025-09-08" (Some 5) None None;
    row "2025-09-08" (Some 7) None None ].

(** A row whose date is no date, between two that are out of order. *)
Definition timeline3 : list TimelineRow.t :=
  [ row "2025-09-09" (Some 1) None None;
    row "soon" (Some 1) None None;
    row "2025-09-08" (Some 1) None None ].

(** A store whose only array is a timeline that is not in order of
    date, and the inputs that refer to it. *)
Definition unsortedRows : list TimelineRow.t :=
  [ row "2025-09-09" (Some 1) None None;
    row "2025-09-08" (Some 2) None None ].

Definition store0 : Heap.Store :=
  {| Heap.rowArrays := {[ 1%positive := unsortedRows ]};
     Heap.itemArrays := ∅;
     Heap.bucketArrays := ∅;
     Heap.pointArrays := ∅ |}.

Definition inputs0 : Heap.Inputs :=
  {| Heap.feedRef := None;
     Heap.timelineRef := Some 1%positive;
     Heap.total := Some 3 |}.

(** Five hours behind UTC. *)
Definition utcMinus5 : Z := -18000000.

End Samples.

(** ** Further notions

    What the items of a feed add up to on one date, as the buckets are
    meant to hold it. *)

Definition onDate (k : string) (item : ActivityFeedItem) : bool :=
  String.eqb (dateKeyOf item) k.

Fixpoint earnedOn (k : string) (items : list ActivityFeedItem) : Z :=
  match items with
  | [] => 0
  | item :: rest =>
      (if onDate k item && isEarning item then points_change item else 0)
      + earnedOn k rest
  end.

Fixpoint activitiesOn (k : string) (items : list ActivityFeedItem) : Z :=
  match items with
  | [] => 0
  | item :: rest =>
      (if onDate k item && isEarning item then 1 else 0) + activitiesOn k rest
  end.

Fixpoint redeemedOn (k : string) (items : list ActivityFeedItem) : Z :=
  match items with
  | [] => 0
  | item :: rest =>
      (if onDate k item && isRedemption item
       then Z.abs (points_change item) else 0)
      + redeemedOn k rest
  end.

Fixpoint redemptionsOn (k : string) (items : list ActivityFeedItem) : Z :=
  match items with
  | [] => 0
  | item :: rest =>
      (if onDate k item && isRedemption item
       then 1 else 0)
      + redemptionsOn k rest
  end.

Definition bucketOf (k : string) (items : list ActivityFeedItem) : DailyBucket.t :=
  {| DailyBucket.points := earnedOn k items;
     DailyBucket.activities := activitiesOn k items;
     DailyBucket.redemptions := redemptionsOn k items;
     DailyBucket.redeemed := redeemedOn k items;
     DailyBucket.date := k |}.

(** The sum of the net changes of a run of points. *)
Fixpoint sumNet (pts : list ChartPoint) : Z :=
  match pts with
  | [] => 0
  | p :: rest => Net p + sumNet rest
  end.

(** What a row says of its day, and what a point says of it. *)
Definition rowSummary (r : TimelineRow.t) : string * Z * Z * Z :=
  (TimelineRow.date r,
   JS.orZero (TimelineRow.points_earned r),
   JS.orZero (TimelineRow.points_redeemed r),
   JS.orZero (TimelineRow.redemptions_count r)).

Definition pointSummary (p : ChartPoint) : string * Z * Z * Z :=
  (rawDate p, Daily p, Redeemed p, Redemptions p).

(** The numbers of a point, in either copy of the component. *)
Definition numbers (p : ChartPoint) : Z * Z * Z * Z * Z :=
  (Points p, Daily p, Redeemed p, Net p, Redemptions p).

Definition numbers000 (p : Unnamed000.ChartPoint) : Z * Z * Z * Z * Z :=
  (Unnamed000.Points p, Unnamed000.Daily p, Unnamed000.Redeemed p,
   Unnamed000.Net p, Unnamed000.Redemptions p).

(** A string in which the character does not occur. *)
Fixpoint lacks (c : ascii) (s : string) : Prop :=
  match s with
  | EmptyString => True
  | String c' s' => c' <> c /\ lacks c s'
  end.

(** The day before day [d] of month [mn] (0 to 11) of year [y]. *)
Definition dayBefore (y mn d : Z) : Z * Z * Z :=
  if 1 <? d then (y, mn, d - 1)
  else if 0 <? mn then (y, mn - 1, JSDate.DaysInMonth y (mn - 1))
  else (y - 1, 11, 31).

(** A date that some item of the feed has. *)
Definition inFeed (items : list ActivityFeedItem) (k : string) : Prop :=
  exists item, In item items /\ dateKeyOf item = k.

Module MoreSamples.

(** Items of one day in two orders, one of them taken by no predicate. *)
Definition feed4 : list ActivityFeedItem :=
  [ Samples.item "2025-09-09T08:00:00Z" "redemption" (-3);
    Samples.item "2025-09-08T09:15:00Z" "activity" 10;
    Samples.item "2025-09-09T10:00:00Z" "bonus" 7;
    Samples.item "2025-09-09T11:00:00Z" "redemption" (-4);
    Samples.item "2025-09-08T17:40:00Z" "activity" 5 ].

Definition feed4_sep9 (total : Z) : ChartPoint :=
  {| name := "Sep 9"; Points := total; Daily := 0; Redeemed := 7;
     Net := -7; Redemptions := 2; rawDate := "2025-09-09";
     dataSource := Some "activity-feed" |}.

Definition timeline4 : list TimelineRow.t :=
  [ Samples.row "2025-09-10" (Some 4) (Some 1) (Some 1);
    Samples.row "2025-09-08" (Some 5) (Some 8) None;
    Samples.row "2025-09-09" None None None ].

(** The series of [timeline4] for a total of 10, as computed. *)
Definition timeline4_series : list ChartPoint :=
  Eval vm_compute in chartData 0 (Samples.fromTimelineOnly timeline4 (Some 10)).

(** [feed1] in another order. *)
Definition feed1_shuffled : list ActivityFeedItem :=
  [ Samples.item "2025-09-09T08:00:00Z" "redemption" (-3);
    Samples.item "2025-09-08T17:40:00Z" "activity" 5;
    Samples.item "2025-09-08T09:15:00Z" "activity" 10 ].

Definition withBoth (items : list ActivityFeedItem) (rows : list TimelineRow.t)
  (tp : option Z) : DashboardData :=
  {| timelineData := Some {| timeline := rows |};
     activityFeed := Some {| feed := items |};
     totalPoints := tp;
     isLoading := false |}.

End MoreSamples.

(** ** The numbers of the engine

    The definitions above add and subtract in [Z].  The engine does so
    in binary64, which agrees with [Z] as long as every value is an
    integer of magnitude at most [2^53], and not beyond.  The series
    builder is given here a second time with the numbers of the engine,
    to see what it computes outside that range. *)

Module Binary64.

(** [x || 0]: [0], [-0] and [NaN] are falsy. *)
Definition orZero (x : option float) : float :=
  match x with
  | Some v => if PrimFloat.is_nan v || PrimFloat.eqb v 0%float then 0%float else v
  | None => 0%float
  end.

Record ActivityFeedItem := {
  timestamp : string;
  type : string;
  points_change : float
}.

Module TimelineRow.
Record t := {
  date : string;
  points_earned : option float;
  points_redeemed : option float;
  redemptions_count : option float
}.
End TimelineRow.

Module DailyBucket.
Record t := {
  points : float;
  activities : float;
  redemptions : float;
  redeemed : float;
  date : string
}.
End DailyBucket.

Record ChartPoint := {
  name : string;
  Points : float;
  Daily : float;
  Redeemed : float;
  Net : float;
  Redemptions : float;
  rawDate : string;
  dataSource : option string
}.

Record DashboardData := {
  timeline : list TimelineRow.t;
  feed : list ActivityFeedItem;
  totalPoints : option float
}.

Definition emptyBucket (dateKey : string) : DailyBucket.t :=
  {| DailyBucket.points := 0%float;
     DailyBucket.activities := 0%float;
     DailyBucket.redemptions := 0%float;
     DailyBucket.redeemed := 0%float;
     DailyBucket.date := dateKey |}.

Definition dateKeyOf (item : ActivityFeedItem) : string :=
  JS.head_or_empty (JS.split "T" (timestamp item)).

Definition isEarning (item : ActivityFeedItem) : bool :=
  String.eqb (type item) "activity" && PrimFloat.ltb 0%float (points_change item).

Definition isRedemption (item : ActivityFeedItem) : bool :=
  String.eqb (type item) "redemption" && PrimFloat.ltb (points_change item) 0%float.

Definition addEarning (pc : float) (b : DailyBucket.t) : DailyBucket.t :=
  {| DailyBucket.points := PrimFloat.add (DailyBucket.points b) pc;
     DailyBucket.activities := PrimFloat.add (DailyBucket.activities b) 1%float;
     DailyBucket.redemptions := DailyBucket.redemptions b;
     DailyBucket.redeemed := DailyBucket.redeemed b;
     DailyBucket.date := DailyBucket.date b |}.

Definition addRedemption (pc : float) (b : DailyBucket.t) : DailyBucket.t :=
  {| DailyBucket.points := DailyBucket.points b;
     DailyBucket.activities := DailyBucket.activities b;
     DailyBucket.redemptions := PrimFloat.add (DailyBucket.redemptions b) 1%float;
     DailyBucket.redeemed := PrimFloat.add (DailyBucket.redeemed b) (PrimFloat.abs pc);
     DailyBucket.date := DailyBucket.date b |}.

Definition feedStep (dailyData : Obj.t DailyBucket.t) (item : ActivityFeedItem)
  : Obj.t DailyBucket.t :=
  let dateKey := dateKeyOf item in
  let dailyData :=
    match Obj.get dateKey dailyData with
    | Some _ => dailyData
    | None => Obj.set dateKey (emptyBucket dateKey) dailyData
    end in
  if isEarning item then
    Obj.update dateKey (addEarning (points_change item)) dailyData
  else if isRedemption item then
    Obj.update dateKey (addRedemption (points_change item)) dailyData
  else dailyData.

Definition groupByDate (items : list ActivityFeedItem) : Obj.t DailyBucket.t :=
  fold_left feedStep items [].

Definition compareBucketDates (a b : DailyBucket.t) : option Z :=
  JS.sub (JSDate.getTime (DailyBucket.date a)) (JSDate.getTime (DailyBucket.date b)).

Definition compareRowDates (a b : TimelineRow.t) : option Z :=
  JS.sub (JSDate.getTime (TimelineRow.date a)) (JSDate.getTime (TimelineRow.date b)).

Definition sortedDays (items : list ActivityFeedItem) : list DailyBucket.t :=
  JS.sort compareBucketDates (Obj.values (groupByDate items)).

Section Series.

Variable tza : Z.

Fixpoint feedProgression (runningTotal : float) (days : list DailyBucket.t)
  : list ChartPoint :=
  match days with
  | [] => []
  | day :: rest =>
      let netChange := PrimFloat.sub (DailyBucket.points day) (DailyBucket.redeemed day) in
      let runningTotal := PrimFloat.add runningTotal netChange in
      let runningTotal :=
        if PrimFloat.ltb runningTotal 0%float then 0%float else runningTotal in
      {| name := formatDate tza (DailyBucket.date day);
         Points := runningTotal;
         Daily := DailyBucket.points day;
         Redeemed := DailyBucket.redeemed day;
         Net := netChange;
         Redemptions := DailyBucket.redemptions day;
         rawDate := DailyBucket.date day;
         dataSource := Some "activity-feed" |}
      :: feedProgression runningTotal rest
  end.

Fixpoint timelineProgression (runningTotal : float) (rows : list TimelineRow.t)
  : list ChartPoint :=
  match rows with
  | [] => []
  | item :: rest =>
      let dailyNet := PrimFloat.sub (orZero (TimelineRow.points_earned item))
                        (orZero (TimelineRow.points_redeemed item)) in
      let runningTotal := PrimFloat.add runningTotal dailyNet in
      {| name := formatDate tza (TimelineRow.date item);
         Points := runningTotal;
         Daily := orZero (TimelineRow.points_earned item);
         Redeemed := orZero (TimelineRow.points_redeemed item);
         Net := dailyNet;
         Redemptions := orZero (TimelineRow.redemptions_count item);
         rawDate := TimelineRow.date item;
         dataSource := None |}
      :: timelineProgression runningTotal rest
  end.

Definition calculatedFinal (pts : list ChartPoint) : float :=
  orZero (option_map Points (last pts)).

Definition adjustment (correctTotalPoints : float) (pts : list ChartPoint) : float :=
  PrimFloat.sub correctTotalPoints (calculatedFinal pts).

Definition addPoints (adj : float) (item : ChartPoint) : ChartPoint :=
  {| name := name item;
     Points := PrimFloat.add (Points item) adj;
     Daily := Daily item;
     Redeemed := Redeemed item;
     Net := Net item;
     Redemptions := Redemptions item;
     rawDate := rawDate item;
     dataSource := dataSource item |}.

Definition adjustToTotal (correctTotalPoints : float) (pts : list ChartPoint)
  : list ChartPoint :=
  let adj := adjustment correctTotalPoints pts in
  if PrimFloat.ltb 0%float (PrimFloat.abs adj) then map (addPoints adj) pts else pts.

Definition chartDataFromFeed (items : list ActivityFeedItem) : list ChartPoint :=
  feedProgression 0%float (sortedDays items).

Definition chartDataWithProgression (rows : list TimelineRow.t) : list ChartPoint :=
  timelineProgression 0%float (JS.sort compareRowDates rows).

(** The series before the adjustment. *)
Definition unadjusted (d : DashboardData) : list ChartPoint :=
  match feed d with
  | _ :: _ => chartDataFromFeed (feed d)
  | [] => chartDataWithProgression (timeline d)
  end.

Definition chartData (d : DashboardData) : list ChartPoint :=
  let items := feed d in
  let rows := timeline d in
  if (length items =? 0)%nat && (length rows =? 0)%nat then []
  else
    let correctTotalPoints := orZero (totalPoints d) in
    if negb (length items =? 0)%nat then
      adjustToTotal correctTotalPoints (chartDataFromFeed items)
    else if (length rows =? 0)%nat then []
    else adjustToTotal correctTotalPoints (chartDataWithProgression rows).

End Series.


Definition item (ts ty : string) (pc : float) : ActivityFeedItem :=
  {| timestamp := ts; type := ty; points_change := pc |}.

(** One earning of [2^53], and a total of -1. *)
Definition largeEarning : DashboardData :=
  {| timeline := [];
     feed := [ item "2025-09-08T09:15:00Z" "activity" 9007199254740992%float ];
     totalPoints := Some (-1)%float |}.

(** An earning of 12 and a total that is no integer (the double next
    to one tenth). *)
Definition fractionalTotal : DashboardData :=
  {| timeline := [];
     feed := [ item "2025-09-08T09:15:00Z" "activity" 12%float ];
     totalPoints := Some 0x1.999999999999ap-4%float |}.


(** The first scenario of the feed, in the numbers of the engine. *)
Definition feed1 (tp : float) : DashboardData :=
  {| timeline := [];
     feed := [ item "2025-09-08T09:15:00Z" "activity" 10%float;
               item "2025-09-08T17:40:00Z" "activity" 5%float;
               item "2025-09-09T08:00:00Z" "redemption" (-3)%float ];
     totalPoints := Some tp |}.

End Binary64.

(** ** Time zones whose offset changes

    [LocalTZA(t, isUTC)] of ECMA-262 in full: a zone gives the offset
    in force at a UTC instant, and the offset by which a local time
    value is read (for a local time that a transition skips or repeats,
    the offset before the transition). *)

Module Zoned.

Record Zone := {
  atUTC : Z -> Z;
  atLocal : Z -> Z
}.

Definition LocalTime (z : Zone) (t : Z) : Z := t + atUTC z t.

Definition UTC (z : Zone) (t : Z) : Z := t - atLocal z t.

Definition fromComponents (z : Zone) (year monthIndex day : option Z) : option Z :=
  match year, monthIndex, day with
  | Some y, Some m, Some d =>
      JSDate.TimeClip
        (UTC z (JSDate.MakeDate (JSDate.MakeDay (JSDate.MakeFullYear y) m d) 0))
  | _, _, _ => None
  end.

Definition toLocaleDateString_short (z : Zone) (tv : option Z) : string :=
  match tv with
  | None => "Invalid Date"
  | Some t =>
      let tl := LocalTime z t in
      JSDate.shortLabel (JSDate.MonthFromTime tl) (JSDate.DateFromTime tl)
  end.

(** [formatDate] of ActivityGraph.tsx in a zone. *)
Definition formatDate (z : Zone) (dateString : string) : string :=
  let parts := map JS.parseInt (JS.split "-" dateString) in
  let year := mjoin (parts !! 0%nat) in
  let month := mjoin (parts !! 1%nat) in
  let day := mjoin (parts !! 2%nat) in
  let date := fromComponents z year (option_map (fun m => m - 1) month) day in
  toLocaleDateString_short z date.

(** A zone that keeps one offset. *)
Definition fixed (tza : Z) : Zone :=
  {| atUTC := fun _ => tza; atLocal := fun _ => tza |}.

Definition hours (h : Z) : Z := h * 3600000.

(** A zone that moves from one offset to another at a UTC instant. *)
Definition transition (instant before after : Z) : Zone :=
  {| atUTC := fun t => if t <? instant then before else after;
     atLocal := fun tl => if tl <? instant + Z.max before after then before else after |}.

(** Pacific/Apia at the end of 2011: ten hours behind UTC until
    2011-12-30T10:00Z, fourteen ahead from then on, so that the local
    day 2011-12-30 does not exist. *)
Definition apia2011 : Zone := transition 1325239200000 (hours (-10)) (hours 14).

(** America/Sao_Paulo in 2018: the clocks go forward by an hour at
    local midnight of 2018-11-04 (03:00Z), so that this day begins at
    one o'clock. *)
Definition saoPaulo2018 : Zone := transition 1541300400000 (hours (-3)) (hours (-2)).

(** The local midnight that [formatDate] asks for, the instant it
    gets, and how far the offset in force at that instant is from the
    one the midnight was read with. *)
Definition localMidnight (y mn d : Z) : Z :=
  JSDate.MakeDate (JSDate.MakeDay (JSDate.MakeFullYear y) mn d) 0.

Definition offsetShift (z : Zone) (tl : Z) : Z :=
  atUTC z (UTC z tl) - atLocal z tl.

End Zoned.

(** ** The range in which the numbers are exact *)

(** The sum of the magnitudes of what a feed and a timeline hold. *)
Fixpoint feedMagnitude (items : list ActivityFeedItem) : Z :=
  match items with
  | [] => 0
  | item :: rest => Z.abs (points_change item) + feedMagnitude rest
  end.

Fixpoint timelineMagnitude (rows : list TimelineRow.t) : Z :=
  match rows with
  | [] => 0
  | r :: rest =>
      Z.abs (JS.orZero (TimelineRow.points_earned r))
      + Z.abs (JS.orZero (TimelineRow.points_redeemed r))
      + Z.abs (JS.orZero (TimelineRow.redemptions_count r))
      + timelineMagnitude rest
  end.

(** Integers small enough for every sum and difference that the
    derivation forms of them, the adjusted points included, to stay
    within [2^53] in magnitude: there binary64 is exact, and the
    arithmetic of [Z] is the arithmetic of the engine. *)
Definition exactRange (items : list ActivityFeedItem) (rows : list TimelineRow.t)
  (total : option Z) : Prop :=
  Z.abs (JS.orZero total) + 2 * (feedMagnitude items + timelineMagnitude rows)
  <= 2 ^ 53.

Definition withinExactRange (d : DashboardData) : Prop :=
  exactRange (feedItems (activityFeed d)) (timelineRows (timelineData d))
    (totalPoints d).

(** The magnitude of what the buckets hold. *)
Definition bucketMagnitude (b : DailyBucket.t) : Z :=
  Z.abs (DailyBucket.points b) + Z.abs (DailyBucket.redeemed b).

Fixpoint daysMagnitude (days : list DailyBucket.t) : Z :=
  match days with
  | [] => 0
  | day :: rest => bucketMagnitude day + daysMagnitude rest
  end.

(** The numbers of a point, each within a bound. *)
Definition pointWithin (bound : Z) (p : ChartPoint) : Prop :=
  Z.abs (Points p) <= bound /\ Z.abs (Daily p) <= bound /\
  Z.abs (Redeemed p) <= bound /\ Z.abs (Net p) <= bound.

(** ** Keys that an object inherits

    [dailyData] is made by [{}], so that [dailyData[k]] is also
    defined for the property names of [Object.prototype]; [Obj.get]
    stands for [dailyData[k]] on every other key. *)

Definition objectPrototypeNames : list string :=
  [ "constructor"; "__proto__"; "hasOwnProperty"; "isPrototypeOf";
    "propertyIsEnumerable"; "toLocaleString"; "toString"; "valueOf";
    "__defineGetter__"; "__defineSetter__"; "__lookupGetter__";
    "__lookupSetter__" ].

Definition isInherited (k : string) : bool :=
  existsb (String.eqb k) objectPrototypeNames.

(** A feed none of whose date keys is such a name. *)
Definition plainKeys (items : list ActivityFeedItem) : Prop :=
  Forall (fun item => isInherited (dateKeyOf item) = false) items.

(** ** The bucket object with its prototype

    [dailyData] is made by [{}], and its prototype is
    [Object.prototype]: [dailyData[dateKey]] at l.58 also finds the
    names that every object inherits.  Such a value is truthy, so no
    bucket is made for the key, and the updates of l.70-75 write to the
    inherited value, which [Object.values(dailyData)] does not list. *)

Module Prototype.

Inductive Found :=
| Own (bucket : DailyBucket.t)
| Inherited
| Missing.

(** [dailyData[dateKey]]. *)
Definition lookup (dateKey : string) (dailyData : Obj.t DailyBucket.t) : Found :=
  match Obj.get dateKey dailyData with
  | Some bucket => Own bucket
  | None => if isInherited dateKey then Inherited else Missing
  end.

(** The body of [activityFeed.feed.forEach(item => ...)]. *)
Definition feedStep (dailyData : Obj.t DailyBucket.t) (item : ActivityFeedItem)
  : Obj.t DailyBucket.t :=
  let dateKey := dateKeyOf item in
  let dailyData :=
    match lookup dateKey dailyData with
    | Missing => Obj.set dateKey (emptyBucket dateKey) dailyData
    | Own _ | Inherited => dailyData
    end in
  if isEarning item then
    Obj.update dateKey (addEarning (points_change item)) dailyData
  else if isRedemption item then
    Obj.update dateKey (addRedemption (points_change item)) dailyData
  else dailyData.

Definition groupByDate (items : list ActivityFeedItem) : Obj.t DailyBucket.t :=
  fold_left feedStep items [].

Definition sortedDays (items : list ActivityFeedItem) : list DailyBucket.t :=
  JS.sort compareBucketDates (Obj.values (groupByDate items)).

Section Series.

Variable tza : Z.

Definition chartDataFromFeed (items : list ActivityFeedItem) : list ChartPoint :=
  feedProgression tza 0 (sortedDays items).

Definition chartData (d : DashboardData) : list ChartPoint :=
  let items := feedItems (activityFeed d) in
  let rows := timelineRows (timelineData d) in
  if (length items =? 0)%nat && (length rows =? 0)%nat then []
  else
    let correctTotalPoints := JS.orZero (totalPoints d) in
    if negb (length items =? 0)%nat then
      adjustToTotal correctTotalPoints (chartDataFromFeed items)
    else if (length rows =? 0)%nat then []
    else adjustToTotal correctTotalPoints (chartDataWithProgression tza rows).

Definition ActivityGraph (d : DashboardData) : View :=
  if isLoading d then Skeleton
  else
    let data := chartData d in
    if negb (bool_decide (is_Some (timelineData d))) || (length data =? 0)%nat
    then EmptyState
    else LineChart data.

End Series.

(** The items whose date key is not an inherited name. *)
Definition plain (item : ActivityFeedItem) : bool :=
  negb (isInherited (dateKeyOf item)).

Definition plainItems (items : list ActivityFeedItem) : list ActivityFeedItem :=
  List.filter plain items.

(** An empty timeline and one earning stamped [constructor]; the same
    with an earning of the day before it. *)
Definition stampedConstructor : DashboardData :=
  {| timelineData := Some {| timeline := [] |};
     activityFeed := Some {| feed := [ Samples.item "constructor" "activity" 5 ] |};
     totalPoints := Some 5;
     isLoading := false |}.

Definition stampedConstructorAfter : DashboardData :=
  {| timelineData := Some {| timeline := [] |};
     activityFeed :=
       Some {| feed := [ Samples.item "2025-09-08T09:15:00Z" "activity" 10;
                         Samples.item "constructor" "activity" 5 ] |};
     totalPoints := Some 15;
     isLoading := false |}.

End Prototype.

(** * Properties *)

Local Open Scope list_scope.

(** ** The adjustment to the total *)

Section Adjustment.

Variable tza : Z.

Lemma last_map_addPoints adj pts :
  last (map (addPoints adj) pts) = option_map (addPoints adj) (last pts).
Proof.
  induction pts as [|p [|q pts] IH]; [reflexivity..|].
  exact IH.
Qed.

Lemma addPoints_zero p : addPoints 0 p = p.
Proof. destruct p; unfold addPoints; simpl; f_equal; lia. Qed.

Lemma map_addPoints_zero pts : map (addPoints 0) pts = pts.
Proof.
  induction pts as [|p pts IH]; simpl; [reflexivity|].
  now rewrite addPoints_zero, IH.
Qed.

(** Whether or not the guard [Math.abs(adjustment) > 0] lets the loop
    run, the result is the series moved by the adjustment. *)
Lemma adjustToTotal_map c pts :
  adjustToTotal c pts = map (addPoints (adjustment c pts)) pts.
Proof.
  unfold adjustToTotal.
  destruct (0 <? Z.abs (adjustment c pts)) eqn:E; [reflexivity|].
  apply Z.ltb_ge in E.
  assert (adjustment c pts = 0) as -> by lia.
  now rewrite map_addPoints_zero.
Qed.

Lemma adjustToTotal_last c pts p :
  last (adjustToTotal c pts) = Some p -> Points p = c.
Proof.
  rewrite adjustToTotal_map, last_map_addPoints.
  unfold adjustment, calculatedFinal.
  destruct (last pts) as [q|]; simpl; [|discriminate].
  intros [= <-]. simpl. lia.
Qed.

Lemma chartData_unadjusted d :
  chartData tza d
  = adjustToTotal (JS.orZero (totalPoints d)) (unadjusted tza d).
Proof.
  unfold chartData, unadjusted.
  destruct (feedItems (activityFeed d)) as [|i items]; simpl.
  - destruct (timelineRows (timelineData d)) as [|r rows]; [|reflexivity].
    rewrite adjustToTotal_map. reflexivity.
  - reflexivity.
Qed.

End Adjustment.

(** ** The running totals *)

Section RunningTotal.

Variable tza : Z.

Lemma feedProgression_nonneg rt days :
  Forall (fun p => 0 <= Points p) (feedProgression tza rt days).
Proof.
  revert rt. induction days as [|day days IH]; intros rt; simpl.
  - constructor.
  - constructor; [|apply IH].
    simpl. destruct (_ <? 0) eqn:E; [lia|].
    apply Z.ltb_ge in E. exact E.
Qed.

Lemma totalBefore_cons rt q pre :
  totalBefore rt (q :: pre) = totalBefore (Points q) pre.
Proof.
  unfold totalBefore. destruct pre as [|q' pre]; [reflexivity|].
  change (last (q :: q' :: pre)) with (last (q' :: pre)).
  destruct (last (q' :: pre)) eqn:E; [reflexivity|].
  now apply last_None in E.
Qed.


Lemma timelineProgression_step rt rows pre p post :
  timelineProgression tza rt rows = pre ++ p :: post ->
  Points p = totalBefore rt pre + Net p.
Proof.
  revert rt pre. induction rows as [|r rows IH]; intros rt pre; simpl.
  - destruct pre; discriminate.
  - destruct pre as [|q pre]; simpl.
    + intros [= <- _]. reflexivity.
    + intros [= <- H]. rewrite totalBefore_cons. simpl.
      apply (IH _ _ H).
Qed.


End RunningTotal.


(** ** The claims on the adjustment *)

(** C1, amended. When the values of the feed, of the timeline and the
    total are integers in the exact range (the magnitude of the total
    and twice the magnitudes of the values add up to at most [2^53], so
    that no sum or difference of the derivation is rounded), then
    whenever the derived series is not empty, from the feed or from the
    timeline, its last point has [Points] equal to [totalPoints], taken
    as 0 when it is undefined. *)
Theorem last_point_matches_total (tza : Z) (d : DashboardData) (p : ChartPoint) :
  withinExactRange d ->
  last (chartData tza d) = Some p ->
  Points p = JS.orZero (totalPoints d).
Proof.
  intros _. rewrite chartData_unadjusted. apply adjustToTotal_last.
Qed.

Lemma last_point_matches_total_witness :
  Points (Samples.feed1_sep9 20) = JS.orZero (Some 20).
Proof.
  refine (last_point_matches_total 0
            (Samples.fromFeedOnly Samples.feed1 (Some 20))
            (Samples.feed1_sep9 20) _ eq_refl).
  vm_compute. discriminate.
Defined.



(** ** The timeline branch does not clamp *)

(** C4. With an empty feed, the single row [{date A, points_earned: 5,
    points_redeemed: 8}] and [totalPoints = 0], the running total before
    the adjustment is -3, the adjustment is 3 and the single point of
    the output ends on 0; this for every date [A] and time zone. *)
Theorem timeline_scenario_negative_total (tza : Z) (A : string) :
  let d := Samples.fromTimelineOnly (Samples.timeline1 A) (Some 0) in
  map Points (unadjusted tza d) = [-3] /\
  map Net (unadjusted tza d) = [-3] /\
  adjustment (JS.orZero (totalPoints d)) (unadjusted tza d) = 3 /\
  map Points (chartData tza d) = [0] /\
  map rawDate (chartData tza d) = [A].
Proof.
  repeat split.
Qed.

(** The running total of the timeline branch is the plain sum: a point
    adds its net change to the total before it, negative or not. *)
Lemma timeline_running_total_unclamped (tza : Z) (rows : list TimelineRow.t)
  (pre : list ChartPoint) (p : ChartPoint) (post : list ChartPoint) :
  chartDataWithProgression tza rows = pre ++ p :: post ->
  Points p = totalBefore 0 pre + Net p.
Proof. apply timelineProgression_step. Qed.

(** ** Negative totals after the adjustment *)

(** C9. The full derivation does not keep [Points] non-negative: for a
    feed that earns 2 and then 10 with [totalPoints = 0], every running
    total before the adjustment is at least 0, and after it the first
    point shows -10. *)
Theorem adjusted_points_may_be_negative :
  exists (d : DashboardData),
    feedItems (activityFeed d) <> [] /\
    Forall (fun p => 0 <= Points p) (unadjusted 0 d) /\
    map Points (unadjusted 0 d) = [2; 12] /\
    map Points (chartData 0 d) = [-10; 0] /\
    Exists (fun p => Points p < 0) (chartData 0 d).
Proof.
  exists (Samples.fromFeedOnly Samples.feed2 (Some 0)).
  split; [discriminate|].
  split; [apply feedProgression_nonneg|].
  split; [reflexivity|].
  split; [reflexivity|].
  apply Exists_cons_hd. reflexivity.
Qed.

(** ** The choice between the placeholder and the chart *)

(** When the data is loaded, the placeholder is shown exactly when
    [timelineData] is missing or the series is empty. *)
Lemma ActivityGraph_EmptyState (tza : Z) (d : DashboardData) :
  isLoading d = false ->
  (ActivityGraph tza d = EmptyState <->
   timelineData d = None \/ chartData tza d = []).
Proof.
  intros Hl. unfold ActivityGraph. rewrite Hl.
  destruct (timelineData d) as [t|]; simpl.
  - destruct (chartData tza d) as [|p pts]; simpl.
    + split; [now right|reflexivity].
    + split; [discriminate|]. intros [H|H]; discriminate.
  - split; [now left|reflexivity].
Qed.

(** C3, at the input that breaks it: a feed gives a series of two
    points while [timelineData] is absent, and the component shows the
    placeholder, not the chart. *)
Theorem placeholder_despite_feed_series :
  let d := Samples.fromFeedOnly Samples.feed1 (Some 12) in
  isLoading d = false /\
  timelineData d = None /\
  chartData 0 d = [Samples.feed1_sep8 15; Samples.feed1_sep9 12] /\
  ActivityGraph 0 d = EmptyState.
Proof.
  repeat split.
Qed.

(** ** The buckets of the activity feed *)

Lemma Obj_get_set_same {V} (k : string) (v : V) (o : Obj.t V) :
  Obj.get k (Obj.set k v o) = Some v.
Proof.
  induction o as [|[k' v'] o IH]; simpl.
  - now rewrite String.eqb_refl.
  - destruct (String.eqb k k') eqn:E; simpl; rewrite E; [reflexivity|exact IH].
Qed.

Lemma Obj_get_set_other {V} (k k' : string) (v : V) (o : Obj.t V) :
  k' <> k -> Obj.get k' (Obj.set k v o) = Obj.get k' o.
Proof.
  intros Hne. induction o as [|[k0 v0] o IH]; simpl.
  - apply String.eqb_neq in Hne. now rewrite Hne.
  - destruct (String.eqb k k0) eqn:E; simpl.
    + apply String.eqb_eq in E. subst k0.
      apply String.eqb_neq in Hne. now rewrite Hne.
    + destruct (String.eqb k' k0); [reflexivity|exact IH].
Qed.

Lemma Obj_get_update_is_Some {V} (k k' : string) (f : V -> V) (o : Obj.t V) :
  is_Some (Obj.get k' o) -> is_Some (Obj.get k' (Obj.update k f o)).
Proof.
  unfold Obj.update. destruct (Obj.get k o) as [v|] eqn:E; [|easy].
  intros H. destruct (String.eqb_spec k' k) as [->|Hne].
  - rewrite Obj_get_set_same. eauto.
  - now rewrite Obj_get_set_other.
Qed.

Lemma feedStep_keeps_keys dailyData item k :
  is_Some (Obj.get k dailyData) -> is_Some (Obj.get k (feedStep dailyData item)).
Proof.
  intros H. unfold feedStep.
  set (dd := match Obj.get (dateKeyOf item) dailyData with
             | Some _ => dailyData
             | None => _
             end).
  assert (Hdd : is_Some (Obj.get k dd)).
  { unfold dd. destruct (Obj.get (dateKeyOf item) dailyData) eqn:E; [exact H|].
    destruct (String.eqb_spec k (dateKeyOf item)) as [->|Hne].
    - rewrite Obj_get_set_same. eauto.
    - now rewrite Obj_get_set_other. }
  destruct (isEarning item); [now apply Obj_get_update_is_Some|].
  destruct (isRedemption item); [now apply Obj_get_update_is_Some|exact Hdd].
Qed.

Lemma feedStep_has_key dailyData item :
  is_Some (Obj.get (dateKeyOf item) (feedStep dailyData item)).
Proof.
  unfold feedStep.
  set (dd := match Obj.get (dateKeyOf item) dailyData with
             | Some _ => dailyData
             | None => _
             end).
  assert (Hdd : is_Some (Obj.get (dateKeyOf item) dd)).
  { unfold dd. destruct (Obj.get (dateKeyOf item) dailyData) eqn:E; [eauto|].
    rewrite Obj_get_set_same. eauto. }
  destruct (isEarning item); [now apply Obj_get_update_is_Some|].
  destruct (isRedemption item); [now apply Obj_get_update_is_Some|exact Hdd].
Qed.

Lemma fold_feedStep_keeps_keys items dailyData k :
  is_Some (Obj.get k dailyData) ->
  is_Some (Obj.get k (fold_left feedStep items dailyData)).
Proof.
  revert dailyData. induction items as [|it items IH]; intros dd H; simpl.
  - exact H.
  - apply IH. now apply feedStep_keeps_keys.
Qed.

Lemma groupByDate_has_key items item :
  In item items -> is_Some (Obj.get (dateKeyOf item) (groupByDate items)).
Proof.
  unfold groupByDate. generalize (@nil (string * DailyBucket.t)).
  induction items as [|it items IH]; intros dd; simpl; [easy|].
  intros [->|Hin].
  - apply fold_feedStep_keeps_keys, feedStep_has_key.
  - now apply IH.
Qed.





(** ** The calendar *)

Section Calendar.

Import JSDate.

Lemma DayFromYear_succ y : DayFromYear (y + 1) = DayFromYear y + DaysInYear y.
Proof.
  unfold DayFromYear, DaysInYear.
  destruct (Z.eqb_spec (y mod 4) 0), (Z.eqb_spec (y mod 100) 0),
    (Z.eqb_spec (y mod 400) 0); simpl; Z.div_mod_to_equations; lia.
Qed.

Lemma DayFromYear_mono y y' : y <= y' -> DayFromYear y <= DayFromYear y'.
Proof.
  unfold DayFromYear. intros H. Z.div_mod_to_equations; lia.
Qed.

(** [YearFromDay] is the year the standard asks for: the one whose
    days include day [n]. *)
Lemma YearFromDay_spec n :
  DayFromYear (YearFromDay n) <= n < DayFromYear (YearFromDay n + 1).
Proof.
  unfold YearFromDay.
  set (y0 := 1970 + 400 * n / 146097).
  assert (H : DayFromYear (y0 - 1) <= n < DayFromYear (y0 + 2)).
  { unfold y0, DayFromYear. Z.div_mod_to_equations; lia. }
  destruct (Z.leb_spec (DayFromYear (y0 + 1)) n).
  - replace (y0 + 1 + 1) with (y0 + 2) by lia. lia.
  - destruct (Z.leb_spec (DayFromYear y0) n).
    + lia.
    + replace (y0 - 1 + 1) with y0 by lia. lia.
Qed.

Lemma YearFromDay_unique y n :
  DayFromYear y <= n < DayFromYear (y + 1) -> YearFromDay n = y.
Proof.
  intros [Hlo Hhi].
  destruct (YearFromDay_spec n) as [Hlo' Hhi'].
  destruct (Z.lt_trichotomy (YearFromDay n) y) as [Hlt|[Heq|Hgt]]; [|exact Heq|].
  - pose proof (DayFromYear_mono (YearFromDay n + 1) y). lia.
  - pose proof (DayFromYear_mono (y + 1) (YearFromDay n)). lia.
Qed.

Lemma leapDays_range y : leapDays y = 0 \/ leapDays y = 1.
Proof. unfold leapDays. destruct (_ =? _); auto. Qed.

Lemma DaysInYear_leapDays y : DaysInYear y = 365 + leapDays y.
Proof.
  unfold leapDays, DaysInYear.
  repeat (destruct (negb _); simpl; try reflexivity).
Qed.

Ltac month_cases mn :=
  let H := fresh in
  assert (H : mn = 0 \/ mn = 1 \/ mn = 2 \/ mn = 3 \/ mn = 4 \/ mn = 5 \/
              mn = 6 \/ mn = 7 \/ mn = 8 \/ mn = 9 \/ mn = 10 \/ mn = 11) by lia;
  destruct H as [->|[->|[->|[->|[->|[->|[->|[->|[->|[->|[->| ->]]]]]]]]]]].

Lemma MakeDay_within_year y mn d :
  0 <= mn <= 11 -> 1 <= d <= DaysInMonth y mn ->
  MakeDay y mn d = DayFromYear y + (monthStart (leapDays y) mn + d - 1) /\
  0 <= monthStart (leapDays y) mn + d - 1 < DaysInYear y.
Proof.
  intros Hmn Hd. unfold MakeDay.
  rewrite (Z.div_small mn 12), (Z.mod_small mn 12), Z.add_0_r by lia.
  split; [lia|].
  rewrite DaysInYear_leapDays.
  destruct (leapDays_range y) as [Hl|Hl]; revert Hd; rewrite ?Hl;
    month_cases mn; simpl; rewrite ?Hl; lia.
Qed.

(** A day built from a year, a month and a day of that month is read
    back as the same three. *)
Lemma civil_roundtrip y mn d t :
  0 <= mn <= 11 -> 1 <= d <= DaysInMonth y mn ->
  Day t = MakeDay y mn d ->
  YearFromTime t = y /\ MonthFromTime t = mn /\ DateFromTime t = d.
Proof.
  intros Hmn Hd Ht.
  destruct (MakeDay_within_year y mn d Hmn Hd) as [Hday Hwithin].
  assert (Hy : YearFromTime t = y).
  { unfold YearFromTime. rewrite Ht. apply YearFromDay_unique.
    rewrite DayFromYear_succ. lia. }
  assert (Hw : DayWithinYear t = monthStart (leapDays y) mn + d - 1).
  { unfold DayWithinYear. rewrite Hy, Ht. lia. }
  assert (Hl : InLeapYear t = leapDays y).
  { unfold InLeapYear, leapDays. now rewrite Hy. }
  assert (Hm : MonthFromTime t = mn).
  { unfold MonthFromTime. rewrite Hw, Hl. clear Hday Hwithin Hw Hl Ht Hy.
    destruct (leapDays_range y) as [Hl|Hl]; revert Hd; rewrite ?Hl;
      month_cases mn; simpl; rewrite ?Hl; intros Hd;
      repeat match goal with
             | |- context [?a <? ?b] => destruct (Z.ltb_spec a b); try lia
             end; reflexivity. }
  split; [exact Hy|]. split; [exact Hm|].
  unfold DateFromTime. rewrite Hm, Hw, Hl. clear - Hmn.
  month_cases mn; simpl; lia.
Qed.

Lemma Day_MakeDate n s : 0 <= s < msPerDay -> Day (MakeDate n s) = n.
Proof.
  unfold Day, MakeDate, msPerDay. intros H. Z.div_mod_to_equations; lia.
Qed.

End Calendar.

(** ** Digits *)

Section Digits.

Import JSDate.

Ltac digit_cases a :=
  let H := fresh in
  assert (H : a = 0 \/ a = 1 \/ a = 2 \/ a = 3 \/ a = 4 \/ a = 5 \/
              a = 6 \/ a = 7 \/ a = 8 \/ a = 9) by lia;
  destruct H as [->|[->|[->|[->|[->|[->|[->|[->|[->| ->]]]]]]]]].

Lemma digitValue_digitChar a : 0 <= a <= 9 -> JS.digitValue (digitChar a) = Some a.
Proof. intros H. digit_cases a; reflexivity. Qed.

Lemma digitValue_range c v : JS.digitValue c = Some v -> 0 <= v <= 9.
Proof.
  unfold JS.digitValue.
  destruct (Z.leb_spec 48 (Z.of_nat (nat_of_ascii c))),
    (Z.leb_spec (Z.of_nat (nat_of_ascii c)) 57); simpl; intros [= <-]; lia.
Qed.

Lemma digitValue_digit c v : JS.digitValue c = Some v -> c = digitChar v.
Proof.
  unfold JS.digitValue, digitChar.
  destruct (Z.leb_spec 48 (Z.of_nat (nat_of_ascii c))),
    (Z.leb_spec (Z.of_nat (nat_of_ascii c)) 57); simpl; intros [= <-].
  replace (Z.to_nat (48 + (Z.of_nat (nat_of_ascii c) - 48))) with (nat_of_ascii c) by lia.
  symmetry. apply ascii_nat_embedding.
Qed.

Lemma split_dash_digit a s :
  0 <= a <= 9 ->
  JS.split "-" (String (digitChar a) s)
  = match JS.split "-" s with
    | h :: t => String (digitChar a) h :: t
    | [] => [String (digitChar a) EmptyString]
    end.
Proof. intros H. digit_cases a; reflexivity. Qed.

Lemma digitsPrefix_digit a s acc seen :
  0 <= a <= 9 ->
  JS.digitsPrefix (String (digitChar a) s) acc seen = JS.digitsPrefix s (10 * acc + a) true.
Proof.
  intros H. cbn [JS.digitsPrefix]. now rewrite digitValue_digitChar.
Qed.

Lemma parseInt_digit a s :
  0 <= a <= 9 ->
  JS.parseInt (String (digitChar a) s) = JS.digitsPrefix s a true.
Proof.
  intros H. rewrite <- (digitsPrefix_digit a s 0 false H) at 1.
  replace (10 * 0 + a) with a by lia.
  digit_cases a; reflexivity.
Qed.

End Digits.

(** ** The date formatters *)

Section Formatter.

Import JSDate.

Lemma digit_not_dash a : isDigit a -> Ascii.eqb (digitChar a) "-" = false.
Proof.
  intros H. apply Ascii.eqb_neq. intros E.
  apply (f_equal JS.digitValue) in E. rewrite digitValue_digitChar in E by exact H.
  discriminate E.
Qed.

Lemma split_isoDate y1 y2 y3 y4 m1 m2 d1 d2 :
  isDigit y1 -> isDigit y2 -> isDigit y3 -> isDigit y4 ->
  isDigit m1 -> isDigit m2 -> isDigit d1 -> isDigit d2 ->
  map JS.parseInt (JS.split "-" (isoDate y1 y2 y3 y4 m1 m2 d1 d2))
  = [Some (1000 * y1 + 100 * y2 + 10 * y3 + y4); Some (10 * m1 + m2); Some (10 * d1 + d2)].
Proof.
  unfold isoDate. intros.
  cbn [JS.split]. rewrite !digit_not_dash by assumption.
  cbn -[digitChar JS.parseInt Z.mul Z.add].
  rewrite !parseInt_digit by assumption.
  rewrite !digitsPrefix_digit by assumption.
  cbn [JS.digitsPrefix].
  repeat f_equal; lia.
Qed.

(** [formatDate] of ActivityGraph.tsx shows the month and the day of the
    string it is given, at every offset that a zone keeps.  The day has
    to exist in the year that [new Date(year, ...)] makes of the first
    component, which for the years 0 to 99 is 1900 to 1999. *)
Lemma formatDate_day_matches tza y1 y2 y3 y4 m1 m2 d1 d2 :
  isDigit y1 -> isDigit y2 -> isDigit y3 -> isDigit y4 ->
  isDigit m1 -> isDigit m2 -> isDigit d1 -> isDigit d2 ->
  let y := 1000 * y1 + 100 * y2 + 10 * y3 + y4 in
  let m := 10 * m1 + m2 in
  let d := 10 * d1 + d2 in
  1 <= m <= 12 ->
  1 <= d <= DaysInMonth (MakeFullYear y) (m - 1) ->
  - msPerDay <= tza <= msPerDay ->
  formatDate tza (isoDate y1 y2 y3 y4 m1 m2 d1 d2)
  = shortLabel (m - 1) d.
Proof.
  intros Hy1 Hy2 Hy3 Hy4 Hm1 Hm2 Hd1 Hd2 y m d Hm Hd Htz.
  unfold formatDate. rewrite split_isoDate by assumption.
  cbn [lookup list_lookup mjoin option_join option_map JSDate.fromComponents].
  fold y m d.
  set (Y := MakeFullYear y) in *.
  assert (HY : 0 <= Y <= 9999).
  { assert (Hyr : 0 <= y <= 9999) by (unfold y, isDigit in *; lia).
    unfold Y, MakeFullYear.
    destruct (Z.leb_spec 0 y), (Z.leb_spec y 99); simpl; lia. }
  assert (Hmn : 0 <= m - 1 <= 11) by lia.
  destruct (MakeDay_within_year Y (m - 1) d Hmn Hd) as [Hday Hwithin].
  assert (Hbound : -800000 <= MakeDay Y (m - 1) d <= 3000000).
  { rewrite Hday. rewrite DaysInYear_leapDays in Hwithin.
    destruct (leapDays_range Y); unfold DayFromYear;
      Z.div_mod_to_equations; lia. }
  unfold TimeClip, UTC, MakeDate.
  destruct (Z.leb_spec (Z.abs (MakeDay Y (m - 1) d * msPerDay + 0 - tza))
              8640000000000000) as [_|Hbig]; [|unfold msPerDay in *; lia].
  unfold toLocaleDateString_short, LocalTime.
  destruct (civil_roundtrip Y (m - 1) d
              (MakeDay Y (m - 1) d * msPerDay + 0 - tza + tza) Hmn Hd)
    as [_ [-> ->]]; [|reflexivity].
  replace (MakeDay Y (m - 1) d * msPerDay + 0 - tza + tza)
    with (MakeDate (MakeDay Y (m - 1) d) 0) by (unfold MakeDate; lia).
  apply Day_MakeDate. unfold msPerDay. lia.
Qed.

(** C8, where it breaks: the formatter of the second copy of the
    component hands the whole string to [new Date], which reads it as
    midnight UTC; in every time zone behind UTC, up to a day, the label
    of "2025-09-08" is the one of the day before. *)
Theorem formatDate_whole_string_shifts (tza : Z) :
  - msPerDay <= tza < 0 ->
  Unnamed000.formatDate tza "2025-09-08" = "Sep 7".
Proof.
  intros H. unfold Unnamed000.formatDate, JSDate.getTime.
  change (parse "2025-09-08") with (Some 1757289600000).
  unfold toLocaleDateString_short, LocalTime.
  assert (Hd : Day (1757289600000 + tza) = MakeDay 2025 8 7).
  { change (MakeDay 2025 8 7) with 20338. unfold Day, msPerDay in *.
    Z.div_mod_to_equations; lia. }
  destruct (civil_roundtrip 2025 8 7 (1757289600000 + tza)) as [_ [-> ->]];
    [lia|vm_compute; split; discriminate|exact Hd|reflexivity].
Qed.


End Formatter.

Lemma formatDate_whole_string_shifts_witness :
  Unnamed000.formatDate Samples.utcMinus5 "2025-09-08" = "Sep 7".
Proof.
  apply formatDate_whole_string_shifts.
  unfold Samples.utcMinus5, JSDate.msPerDay. lia.
Defined.

(** The same string through [formatDate] of ActivityGraph.tsx, five
    hours behind UTC and five hours ahead. *)
Example formatDate_sep8 :
  formatDate Samples.utcMinus5 "2025-09-08" = "Sep 8" /\
  formatDate 18000000 "2025-09-08" = "Sep 8" /\
  Unnamed000.formatDate 18000000 "2025-09-08" = "Sep 8".
Proof. repeat split. Qed.

(** ** Date strings and their time values *)

Section ParseDate.

Import JSDate.

Lemma twoDigits_inv a b v :
  twoDigits a b = Some v ->
  exists x y, isDigit x /\ isDigit y /\ v = 10 * x + y /\
              a = digitChar x /\ b = digitChar y.
Proof.
  unfold twoDigits.
  destruct (JS.digitValue a) as [x|] eqn:Ea; [|discriminate].
  destruct (JS.digitValue b) as [y|] eqn:Eb; [|discriminate].
  intros [= <-]. exists x, y.
  repeat split; eauto using digitValue_range, digitValue_digit;
    try (eapply digitValue_range; eassumption).
Qed.

Lemma twoDigits_inj a b a' b' v :
  twoDigits a b = Some v -> twoDigits a' b' = Some v -> a = a' /\ b = b'.
Proof.
  intros H H'.
  destruct (twoDigits_inv _ _ _ H) as (x & y & Hx & Hy & -> & -> & ->).
  destruct (twoDigits_inv _ _ _ H') as (x' & y' & Hx' & Hy' & E & -> & ->).
  unfold isDigit in *.
  assert (x = x') by lia. assert (y = y') by lia. now subst.
Qed.

Lemma twoDigits_range a b v : twoDigits a b = Some v -> 0 <= v <= 99.
Proof.
  intros H. destruct (twoDigits_inv _ _ _ H) as (x & y & Hx & Hy & -> & _).
  unfold isDigit in *. lia.
Qed.

Lemma fourDigits_inj a b c d a' b' c' d' v :
  fourDigits a b c d = Some v -> fourDigits a' b' c' d' = Some v ->
  a = a' /\ b = b' /\ c = c' /\ d = d'.
Proof.
  unfold fourDigits.
  destruct (twoDigits a b) as [x|] eqn:E1; [|discriminate].
  destruct (twoDigits c d) as [y|] eqn:E2; [|discriminate].
  destruct (twoDigits a' b') as [x'|] eqn:E1'; [|discriminate].
  destruct (twoDigits c' d') as [y'|] eqn:E2'; [|discriminate].
  intros [= <-] [= E].
  pose proof (twoDigits_range _ _ _ E1). pose proof (twoDigits_range _ _ _ E2).
  pose proof (twoDigits_range _ _ _ E1'). pose proof (twoDigits_range _ _ _ E2').
  assert (x = x') by lia. assert (y = y') by lia. subst.
  destruct (twoDigits_inj _ _ _ _ _ E1 E1'), (twoDigits_inj _ _ _ _ _ E2 E2').
  now subst.
Qed.

(** What a string that [parse] accepts looks like. *)
Lemma parse_inv s t :
  parse s = Some t ->
  exists y1 y2 y3 y4 m1 m2 d1 d2 y m d,
    s = String y1 (String y2 (String y3 (String y4 (String "-"
          (String m1 (String m2 (String "-"
            (String d1 (String d2 EmptyString))))))))) /\
    fourDigits y1 y2 y3 y4 = Some y /\ twoDigits m1 m2 = Some m /\
    twoDigits d1 d2 = Some d /\
    0 <= m - 1 <= 11 /\ 1 <= d <= DaysInMonth y (m - 1) /\
    t = MakeDate (MakeDay y (m - 1) d) 0.
Proof.
  unfold parse.
  do 10 (destruct s as [|? s]; [discriminate|]).
  destruct s; [|discriminate].
  destruct (Ascii.eqb_spec a3 "-") as [->|]; [|discriminate].
  destruct (Ascii.eqb_spec a6 "-") as [->|]; [|discriminate].
  simpl.
  destruct (fourDigits a a0 a1 a2) as [y|] eqn:Ey; [|discriminate].
  destruct (twoDigits a4 a5) as [m|] eqn:Em; [|discriminate].
  destruct (twoDigits a7 a8) as [d|] eqn:Ed; [|discriminate].
  destruct (Z.leb_spec 1 m), (Z.leb_spec m 12), (Z.leb_spec 1 d),
    (Z.leb_spec d (DaysInMonth y (m - 1))); simpl; try discriminate.
  unfold TimeClip. destruct (_ <=? _); [|discriminate].
  intros [= <-].
  exists a, a0, a1, a2, a4, a5, a7, a8, y, m, d.
  repeat split; try assumption; lia.
Qed.

(** Two date strings with the same time value are the same string. *)
Lemma getTime_inj s s' t :
  JSDate.getTime s = Some t -> JSDate.getTime s' = Some t -> s = s'.
Proof.
  unfold JSDate.getTime. intros H H'.
  destruct (parse_inv _ _ H)
    as (y1 & y2 & y3 & y4 & m1 & m2 & d1 & d2 & y & m & d
        & -> & Hy & Hm & Hd & Hmr & Hdr & Ht).
  destruct (parse_inv _ _ H')
    as (y1' & y2' & y3' & y4' & m1' & m2' & d1' & d2' & y' & m' & d'
        & -> & Hy' & Hm' & Hd' & Hmr' & Hdr' & Ht').
  assert (HD : Day t = MakeDay y (m - 1) d).
  { rewrite Ht. apply Day_MakeDate. unfold msPerDay. lia. }
  assert (HD' : Day t = MakeDay y' (m' - 1) d').
  { rewrite Ht'. apply Day_MakeDate. unfold msPerDay. lia. }
  destruct (civil_roundtrip _ _ _ _ Hmr Hdr HD) as (Ey & Em & Ed).
  destruct (civil_roundtrip _ _ _ _ Hmr' Hdr' HD') as (Ey' & Em' & Ed').
  assert (Hyy : y' = y) by congruence.
  assert (Hmm : m' = m) by lia.
  assert (Hdd : d' = d) by congruence.
  rewrite Hyy in Hy'. rewrite Hmm in Hm'. rewrite Hdd in Hd'.
  destruct (fourDigits_inj _ _ _ _ _ _ _ _ _ Hy Hy') as (-> & -> & -> & ->).
  destruct (twoDigits_inj _ _ _ _ _ Hm Hm') as (-> & ->).
  destruct (twoDigits_inj _ _ _ _ _ Hd Hd') as (-> & ->).
  reflexivity.
Qed.

End ParseDate.

(** ** Sorting *)

Section Sort.

Context {A : Type}.

Lemma sort_insert_Permutation (cmp : A -> A -> option Z) x l :
  Permutation (JS.sort_insert cmp x l) (x :: l).
Proof.
  induction l as [|y ys IH]; simpl; [reflexivity|].
  destruct (_ <=? 0); [reflexivity|].
  rewrite IH. apply perm_swap.
Qed.

Lemma sort_Permutation (cmp : A -> A -> option Z) l :
  Permutation (JS.sort cmp l) l.
Proof.
  induction l as [|x xs IH]; simpl; [reflexivity|].
  rewrite sort_insert_Permutation. now constructor.
Qed.

(** Sorting by the time value of a date field. *)
Variable key : A -> string.

Lemma dateLe_trans a b c : dateLe a b -> dateLe b c -> dateLe a c.
Proof.
  unfold dateLe.
  destruct (JSDate.getTime a), (JSDate.getTime b), (JSDate.getTime c);
    try easy. lia.
Qed.

Lemma byDate_le x y :
  validDate (key x) -> validDate (key y) ->
  JS.sortCompare (byDate key x y) <= 0 -> dateLe (key x) (key y).
Proof.
  unfold validDate, byDate, dateLe. intros [tx ->] [ty ->]. simpl. lia.
Qed.

Lemma byDate_gt x y :
  validDate (key x) -> validDate (key y) ->
  0 < JS.sortCompare (byDate key x y) -> dateLe (key y) (key x).
Proof.
  unfold validDate, byDate, dateLe. intros [tx ->] [ty ->]. simpl. lia.
Qed.

Lemma sort_insert_sorted x l :
  validDate (key x) -> Forall (fun a => validDate (key a)) l ->
  StronglySorted dateLe (map key l) ->
  StronglySorted dateLe (map key (JS.sort_insert (byDate key) x l)).
Proof.
  intros Hx. induction l as [|y ys IH]; intros Hv Hs; simpl.
  - repeat constructor.
  - inversion Hv as [|? ? Hy Hys]; subst.
    inversion Hs as [|? ? Hs' Hall]; subst.
    destruct (Z.leb_spec (JS.sortCompare (byDate key x y)) 0) as [Hle|Hgt]; simpl.
    + constructor; [exact Hs|].
      pose proof (byDate_le x y Hx Hy Hle) as Hxy.
      constructor; [exact Hxy|].
      eapply Forall_impl; [exact Hall|].
      intros z Hz. eapply dateLe_trans; eassumption.
    + constructor; [now apply IH|].
      assert (Hp : Permutation (map key (JS.sort_insert (byDate key) x ys)) (key x :: map key ys)).
      { change (key x :: map key ys) with (map key (x :: ys)).
        apply Permutation_map, sort_insert_Permutation. }
      rewrite Hp. constructor; [|exact Hall].
      now apply byDate_gt.
Qed.

Lemma sort_sorted l :
  Forall (fun a => validDate (key a)) l ->
  StronglySorted dateLe (map key (JS.sort (byDate key) l)).
Proof.
  induction l as [|x xs IH]; intros Hv; simpl; [constructor|].
  inversion Hv; subst.
  apply sort_insert_sorted; [assumption| |now apply IH].
  rewrite sort_Permutation. assumption.
Qed.

End Sort.

Lemma dateLe_neq_lt a b : dateLe a b -> a <> b -> dateLt a b.
Proof.
  unfold dateLe, dateLt.
  destruct (JSDate.getTime a) as [x|] eqn:Ea; [|easy].
  destruct (JSDate.getTime b) as [y|] eqn:Eb; [|easy].
  intros Hle Hne. destruct (Z.eq_dec x y) as [->|]; [|lia].
  destruct Hne. eapply getTime_inj; eassumption.
Qed.

Lemma sorted_NoDup_strict (l : list string) :
  StronglySorted dateLe l -> List.NoDup l -> StronglySorted dateLt l.
Proof.
  induction 1 as [|a l Hs IH Hall]; intros Hnd; [constructor|].
  apply List.NoDup_cons_iff in Hnd as [Hnotin Hnd].
  constructor; [now apply IH|].
  apply List.Forall_forall. intros b Hb.
  apply dateLe_neq_lt.
  - rewrite List.Forall_forall in Hall. now apply Hall.
  - intros E. apply Hnotin. now rewrite E.
Qed.

Lemma dateLt_irrefl a : ~ dateLt a a.
Proof. unfold dateLt. destruct (JSDate.getTime a); [lia|easy]. Qed.

Lemma strict_sorted_NoDup (l : list string) :
  StronglySorted dateLt l -> List.NoDup l.
Proof.
  induction 1 as [|a l Hs IH Hall]; constructor; [|exact IH].
  intros Hin. rewrite List.Forall_forall in Hall.
  exact (dateLt_irrefl a (Hall a Hin)).
Qed.

(** ** The buckets, one per date *)

Lemma Obj_get_None_keys {V} (k : string) (o : Obj.t V) :
  Obj.get k o = None -> ~ In k (Obj.keys o).
Proof.
  induction o as [|[k' v'] o IH]; simpl; [tauto|].
  destruct (String.eqb_spec k k') as [->|Hne]; [discriminate|].
  intros H [E|Hin]; [congruence|]. now apply IH.
Qed.

Lemma Obj_set_absent {V} (k : string) (v : V) (o : Obj.t V) :
  Obj.get k o = None -> Obj.set k v o = o ++ [(k, v)].
Proof.
  induction o as [|[k' v'] o IH]; simpl; [reflexivity|].
  destruct (String.eqb k k'); [discriminate|].
  intros H. now rewrite IH.
Qed.

Lemma Obj_keys_set_present {V} (k : string) (v : V) (o : Obj.t V) :
  is_Some (Obj.get k o) -> Obj.keys (Obj.set k v o) = Obj.keys o.
Proof.
  induction o as [|[k' v'] o IH]; simpl.
  - intros [? [=]].
  - destruct (String.eqb k k'); [reflexivity|].
    intros H. simpl. now rewrite IH.
Qed.

Lemma Obj_Forall_set {V} (P : string * V -> Prop) (k : string) (v : V) (o : Obj.t V) :
  Forall P o -> P (k, v) -> Forall P (Obj.set k v o).
Proof.
  intros Ho Hk. induction Ho as [|[k' v'] o Hp Ho IH]; simpl.
  - repeat constructor. exact Hk.
  - destruct (String.eqb_spec k k') as [->|Hne]; constructor; assumption.
Qed.

Lemma Obj_get_Forall {V} (P : string * V -> Prop) (k : string) (v : V) (o : Obj.t V) :
  Forall P o -> Obj.get k o = Some v -> P (k, v).
Proof.
  induction 1 as [|[k' v'] o Hp Ho IH]; simpl; [discriminate|].
  destruct (String.eqb_spec k k') as [->|Hne]; [|exact IH].
  now intros [= <-].
Qed.

Lemma update_dailyDataOk valid k f o :
  (forall b, DailyBucket.date (f b) = DailyBucket.date b) ->
  dailyDataOk valid o -> dailyDataOk valid (Obj.update k f o).
Proof.
  intros Hf [Hnd Hall]. unfold Obj.update.
  destruct (Obj.get k o) as [b|] eqn:E; [|now split].
  split.
  - rewrite Obj_keys_set_present; [exact Hnd|]. rewrite E. eauto.
  - apply Obj_Forall_set; [exact Hall|].
    destruct (Obj_get_Forall _ _ _ _ Hall E) as [Hd Hv].
    split; simpl in *; [|exact Hv]. now rewrite Hf.
Qed.

Lemma feedStep_dailyDataOk valid dailyData item :
  valid (dateKeyOf item) ->
  dailyDataOk valid dailyData -> dailyDataOk valid (feedStep dailyData item).
Proof.
  intros Hv Hok. unfold feedStep.
  set (dd := match Obj.get (dateKeyOf item) dailyData with
             | Some _ => dailyData
             | None => _
             end).
  assert (Hdd : dailyDataOk valid dd).
  { unfold dd. destruct (Obj.get (dateKeyOf item) dailyData) eqn:E; [exact Hok|].
    destruct Hok as [Hnd Hall]. rewrite (Obj_set_absent _ _ _ E). split.
    - unfold Obj.keys. rewrite map_app. simpl.
      apply List.NoDup_app.
      + exact Hnd.
      + repeat constructor. simpl. tauto.
      + intros k Hin [<-|[]]. exact (Obj_get_None_keys _ _ E Hin).
    - apply Forall_app. split; [exact Hall|].
      repeat constructor. exact Hv. }
  destruct (isEarning item); [now apply update_dailyDataOk|].
  destruct (isRedemption item); [now apply update_dailyDataOk|exact Hdd].
Qed.

Lemma groupByDate_dailyDataOk valid items :
  Forall (fun item => valid (dateKeyOf item)) items ->
  dailyDataOk valid (groupByDate items).
Proof.
  unfold groupByDate.
  assert (H0 : dailyDataOk valid []) by (split; constructor).
  revert H0. generalize (@nil (string * DailyBucket.t)).
  induction items as [|item items IH]; intros dd Hdd Hv; simpl; [exact Hdd|].
  inversion Hv; subst. apply IH; [|assumption].
  now apply feedStep_dailyDataOk.
Qed.

Lemma filter_partition_Permutation {A} (f : A -> bool) (l : list A) :
  Permutation (List.filter f l ++ List.filter (fun a => negb (f a)) l) l.
Proof.
  induction l as [|a l IH]; simpl; [reflexivity|].
  destruct (f a); simpl.
  - now constructor.
  - rewrite <- Permutation_middle. now constructor.
Qed.

Lemma Obj_values_Permutation {V} (o : Obj.t V) :
  Permutation (Obj.values o) (map snd o).
Proof.
  unfold Obj.values.
  rewrite (sort_Permutation Obj.compareIndex).
  rewrite <- map_app. apply Permutation_map, filter_partition_Permutation.
Qed.

(** ** The order of the series *)

Section Order.

Variable tza : Z.

Lemma rawDate_feedProgression rt days :
  map rawDate (feedProgression tza rt days) = map DailyBucket.date days.
Proof.
  revert rt. induction days as [|day days IH]; intros rt; simpl; [reflexivity|].
  now rewrite IH.
Qed.

Lemma rawDate_timelineProgression rt rows :
  map rawDate (timelineProgression tza rt rows) = map TimelineRow.date rows.
Proof.
  revert rt. induction rows as [|r rows IH]; intros rt; simpl; [reflexivity|].
  now rewrite IH.
Qed.

Lemma rawDate_adjustToTotal c pts :
  map rawDate (adjustToTotal c pts) = map rawDate pts.
Proof.
  rewrite adjustToTotal_map, map_map. reflexivity.
Qed.

Lemma rawDate_chartData_feed d :
  feedItems (activityFeed d) <> [] ->
  map rawDate (chartData tza d)
  = map DailyBucket.date (sortedDays (feedItems (activityFeed d))).
Proof.
  intros Hne. rewrite chartData_unadjusted, rawDate_adjustToTotal.
  unfold unadjusted. destruct (feedItems (activityFeed d)); [congruence|].
  apply rawDate_feedProgression.
Qed.

Lemma rawDate_chartData_timeline d :
  feedItems (activityFeed d) = [] ->
  map rawDate (chartData tza d)
  = map TimelineRow.date (sortedTimeline (timelineRows (timelineData d))).
Proof.
  intros He. rewrite chartData_unadjusted, rawDate_adjustToTotal.
  unfold unadjusted. rewrite He.
  apply rawDate_timelineProgression.
Qed.

Lemma bucket_dates_keys valid (o : Obj.t DailyBucket.t) :
  Forall (bucketOk valid) o -> map DailyBucket.date (map snd o) = Obj.keys o.
Proof.
  induction 1 as [|[k b] o [Hd _] Ho IH]; simpl; [reflexivity|].
  simpl in Hd. now rewrite Hd, IH.
Qed.

Lemma Forall_of_map {A B} (f : A -> B) (P : B -> Prop) (l : list A) :
  Forall P (map f l) -> Forall (fun a => P (f a)) l.
Proof.
  induction l as [|a l IH]; simpl; intros H; [constructor|].
  inversion H; subst. constructor; [assumption|now apply IH].
Qed.

Lemma sortedDays_dates items :
  Forall (fun item => validDate (dateKeyOf item)) items ->
  Forall validDate (map DailyBucket.date (sortedDays items)) /\
  List.NoDup (map DailyBucket.date (sortedDays items)) /\
  StronglySorted dateLe (map DailyBucket.date (sortedDays items)).
Proof.
  intros Hv.
  destruct (groupByDate_dailyDataOk validDate items Hv) as [Hnd Hall].
  assert (Hp : Permutation (map DailyBucket.date (Obj.values (groupByDate items)))
                 (Obj.keys (groupByDate items))).
  { rewrite <- (bucket_dates_keys _ _ Hall).
    apply Permutation_map, Obj_values_Permutation. }
  assert (Hvalid : Forall validDate (Obj.keys (groupByDate items))).
  { clear - Hall. induction Hall as [|[k b] o [_ Hk] Ho IH]; constructor; assumption. }
  assert (Hp' : Permutation (map DailyBucket.date (sortedDays items))
                  (Obj.keys (groupByDate items))).
  { rewrite <- Hp. apply Permutation_map, sort_Permutation. }
  split; [|split].
  - now rewrite Hp'.
  - now rewrite Hp'.
  - apply (sort_sorted DailyBucket.date).
    rewrite <- Hp in Hvalid. now apply Forall_of_map.
Qed.

(** C6, amended. When the dates of the source in use are calendar
    dates, the series is in ascending order of date.  From the feed it
    is strictly ascending.  From the timeline its dates are those of
    the rows, whatever their order, and it is strictly ascending
    exactly when no two rows have the same date. *)
Theorem chartData_dates_ascending (d : DashboardData) :
  Forall validDate (sourceDates d) ->
  ascending (chartData tza d) /\
  (feedItems (activityFeed d) <> [] -> strictlyAscending (chartData tza d)) /\
  (feedItems (activityFeed d) = [] ->
   Permutation (map rawDate (chartData tza d))
     (map TimelineRow.date (timelineRows (timelineData d))) /\
   (strictlyAscending (chartData tza d) <->
    List.NoDup (map TimelineRow.date (timelineRows (timelineData d))))).
Proof.
  intros Hv. unfold ascending, strictlyAscending, sourceDates in *.
  destruct (feedItems (activityFeed d)) as [|item items] eqn:Efeed.
  - rewrite (rawDate_chartData_timeline d Efeed).
    assert (Hp : Permutation
                   (map TimelineRow.date (sortedTimeline (timelineRows (timelineData d))))
                   (map TimelineRow.date (timelineRows (timelineData d)))).
    { apply Permutation_map, sort_Permutation. }
    assert (Hs : StronglySorted dateLe
                   (map TimelineRow.date (sortedTimeline (timelineRows (timelineData d))))).
    { apply (sort_sorted TimelineRow.date). now apply Forall_of_map. }
    split; [exact Hs|]. split; [congruence|]. intros _.
    split; [exact Hp|]. split.
    + intros Hst. rewrite <- Hp. now apply strict_sorted_NoDup.
    + intros Hnd. apply sorted_NoDup_strict; [exact Hs|]. now rewrite Hp.
  - assert (Hne : feedItems (activityFeed d) <> []) by (rewrite Efeed; discriminate).
    rewrite (rawDate_chartData_feed d Hne), Efeed.
    apply Forall_of_map in Hv.
    destruct (sortedDays_dates _ Hv) as (_ & Hnd & Hs).
    split; [exact Hs|]. split; [|discriminate].
    intros _. now apply sorted_NoDup_strict.
Qed.

End Order.

(** C6, at an input that breaks it: two rows of the timeline have the
    same date, the series has a point for each, and the second does not
    come after the first. *)
Lemma duplicate_dates_not_strict :
  Forall validDate (map TimelineRow.date Samples.timeline2) /\
  map rawDate (chartData 0 (Samples.fromTimelineOnly Samples.timeline2 (Some 12)))
  = ["2025-09-08"; "2025-09-08"] /\
  ~ strictlyAscending (chartData 0 (Samples.fromTimelineOnly Samples.timeline2 (Some 12))).
Proof.
  split; [|split].
  - repeat constructor; eexists; reflexivity.
  - reflexivity.
  - unfold strictlyAscending.
    change (map rawDate _) with ["2025-09-08"; "2025-09-08"].
    intros H. apply strict_sorted_NoDup in H.
    apply List.NoDup_cons_iff in H as [H _]. apply H. now left.
Qed.

Lemma chartData_dates_ascending_witness :
  strictlyAscending (chartData 0 (Samples.fromFeedOnly Samples.feed1 (Some 12))).
Proof.
  refine (proj1 (proj2 (chartData_dates_ascending 0
            (Samples.fromFeedOnly Samples.feed1 (Some 12)) _)) _).
  - repeat constructor; eexists; reflexivity.
  - discriminate.
Defined.

(** ** The input arrays *)

Section HeapProps.

Variable tza : Z.

Lemma lookup_alloc {V} (m : gmap Heap.loc V) (l : Heap.loc) (v w : V) :
  m !! l = Some v -> <[fresh (dom m) := w]> m !! l = Some v.
Proof.
  intros H. rewrite lookup_insert_ne; [exact H|].
  intros <-. apply (is_fresh (dom m)). apply elem_of_dom. eauto.
Qed.

Lemma adjustInPlace_run c r pts s :
  Heap.pointArrays s !! r = Some pts ->
  exists s',
    Heap.adjustInPlace c r s = Some (r, s') /\
    Heap.pointArrays s' !! r = Some (adjustToTotal c pts) /\
    Heap.rowArrays s' = Heap.rowArrays s /\
    Heap.itemArrays s' = Heap.itemArrays s.
Proof.
  intros Hr. unfold Heap.adjustInPlace, Heap.bind, Heap.readPoints, adjustToTotal.
  rewrite Hr. simpl.
  destruct (0 <? Z.abs (adjustment c pts)).
  - eexists. split; [reflexivity|]. simpl.
    rewrite lookup_insert_eq. repeat split.
  - exists s. repeat split. exact Hr.
Qed.

Lemma fromTimeline_run c tr rows s :
  Heap.rowArrays s !! tr = Some rows ->
  exists r s',
    Heap.fromTimeline tza c tr s = Some (r, s') /\
    Heap.pointArrays s' !! r
    = Some (adjustToTotal c (chartDataWithProgression tza rows)) /\
    Heap.itemArrays s' = Heap.itemArrays s /\
    (forall l old, Heap.rowArrays s !! l = Some old ->
                   Heap.rowArrays s' !! l = Some old).
Proof.
  intros Hr.
  unfold Heap.fromTimeline, Heap.bind, Heap.spreadRows, Heap.sortRows,
    Heap.bind, Heap.readRows, Heap.allocRows, Heap.writeRows, Heap.ret,
    Heap.allocPoints.
  rewrite Hr. simpl. rewrite lookup_insert_eq. simpl.
  rewrite lookup_insert_eq. simpl.
  match goal with
  | |- context [Heap.adjustInPlace c ?r ?s0] =>
      destruct (adjustInPlace_run c r (timelineProgression tza 0 (JS.sort compareRowDates rows)) s0)
        as (s' & Hrun & Hpts & Hrows & Hitems)
  end.
  { simpl. apply lookup_insert_eq. }
  eexists _, s'. split; [exact Hrun|]. split; [exact Hpts|].
  split; [rewrite Hitems; reflexivity|].
  intros l old Hl. rewrite Hrows. simpl.
  rewrite insert_insert_eq. now apply lookup_alloc.
Qed.

Lemma fromFeed_run c fr items s :
  Heap.itemArrays s !! fr = Some items ->
  exists r s',
    Heap.fromFeed tza c fr s = Some (r, s') /\
    Heap.pointArrays s' !! r
    = Some (adjustToTotal c (chartDataFromFeed tza items)) /\
    Heap.itemArrays s' = Heap.itemArrays s /\
    Heap.rowArrays s' = Heap.rowArrays s.
Proof.
  intros Hr.
  unfold Heap.fromFeed, Heap.bind, Heap.sortBuckets, Heap.bind,
    Heap.readItems, Heap.readBuckets, Heap.allocBuckets, Heap.writeBuckets,
    Heap.ret, Heap.allocPoints.
  rewrite Hr. simpl. rewrite lookup_insert_eq. simpl.
  rewrite lookup_insert_eq. simpl.
  match goal with
  | |- context [Heap.adjustInPlace c ?r ?s0] =>
      destruct (adjustInPlace_run c r
                  (feedProgression tza 0
                     (JS.sort compareBucketDates (Obj.values (groupByDate items)))) s0)
        as (s' & Hrun & Hpts & Hrows & Hitems)
  end.
  { simpl. apply lookup_insert_eq. }
  eexists _, s'. split; [exact Hrun|]. split; [exact Hpts|].
  split; [rewrite Hitems; reflexivity|rewrite Hrows; reflexivity].
Qed.

Lemma allocPoints_run pts s :
  exists r s',
    Heap.allocPoints pts s = Some (r, s') /\
    Heap.pointArrays s' !! r = Some pts /\
    Heap.itemArrays s' = Heap.itemArrays s /\
    Heap.rowArrays s' = Heap.rowArrays s.
Proof.
  eexists _, _. split; [reflexivity|]. simpl.
  rewrite lookup_insert_eq. repeat split.
Qed.

(** C10. The derivation leaves its inputs as they were.  Run on a
    store that holds the two input arrays, [chartData] returns the
    array of points that the pure derivation gives for their contents,
    no array of feed items changes, and every array of rows that the
    store held (the timeline among them: its sort works on a copy) has
    the elements it had, so the inputs read the same afterwards. *)
Theorem chartData_leaves_inputs (s : Heap.Store) (i : Heap.Inputs) :
  Heap.wellFormed s i ->
  exists r s',
    Heap.chartData tza i s = Some (r, s') /\
    Heap.pointArrays s' !! r = Some (chartData tza (Heap.snapshot s i)) /\
    Heap.itemArrays s' = Heap.itemArrays s /\
    (forall l rows, Heap.rowArrays s !! l = Some rows ->
                    Heap.rowArrays s' !! l = Some rows) /\
    Heap.snapshot s' i = Heap.snapshot s i.
Proof.
  intros [Hf Ht].
  assert (Hcore : exists r s',
    Heap.chartData tza i s = Some (r, s') /\
    Heap.pointArrays s' !! r = Some (chartData tza (Heap.snapshot s i)) /\
    Heap.itemArrays s' = Heap.itemArrays s /\
    (forall l rows, Heap.rowArrays s !! l = Some rows ->
                    Heap.rowArrays s' !! l = Some rows)).
  { destruct i as [fr tr tot]. simpl in *.
    unfold Heap.chartData, Heap.snapshot, chartData. simpl.
    assert (Hnf : exists items,
               Heap.lengthItems fr s = Some (length items, s) /\
               feedItems (option_map (fun l => {| feed := l |})
                            (fr ≫= (Heap.itemArrays s !!.))) = items /\
               (items <> [] -> exists f, fr = Some f /\ Heap.itemArrays s !! f = Some items)).
    { destruct fr as [f|]; simpl.
      - destruct (Hf f eq_refl) as [items Hitems]. exists items.
        unfold Heap.bind, Heap.readItems. rewrite Hitems. simpl.
        repeat split. eauto.
      - exists []. repeat split. congruence. }
    assert (Hnt : exists rows,
               Heap.lengthRows tr s = Some (length rows, s) /\
               timelineRows (option_map (fun l => {| timeline := l |})
                               (tr ≫= (Heap.rowArrays s !!.))) = rows /\
               (rows <> [] -> exists t, tr = Some t /\ Heap.rowArrays s !! t = Some rows)).
    { destruct tr as [t|]; simpl.
      - destruct (Ht t eq_refl) as [rows Hrows]. exists rows.
        unfold Heap.bind, Heap.readRows. rewrite Hrows. simpl.
        repeat split. eauto.
      - exists []. repeat split. congruence. }
    destruct Hnf as (items & Hlf & -> & Hfr).
    destruct Hnt as (rows & Hlt & -> & Htr).
    unfold Heap.bind at 1. rewrite Hlf. unfold Heap.bind at 1. rewrite Hlt.
    destruct items as [|it items]; simpl.
    - destruct rows as [|row rows]; simpl.
      + destruct (allocPoints_run [] s) as (r & s' & Hrun & Hp & Hi & Hr).
        exists r, s'. rewrite Hr. auto.
      + destruct (Htr ltac:(discriminate)) as (t & -> & Hrows).
        destruct (fromTimeline_run (JS.orZero tot) t _ s Hrows)
          as (r & s' & Hrun & Hp & Hi & Hr).
        exists r, s'. destruct fr; auto.
    - destruct (Hfr ltac:(discriminate)) as (f & -> & Hitems).
      destruct (fromFeed_run (JS.orZero tot) f _ s Hitems)
        as (r & s' & Hrun & Hp & Hi & Hr).
      exists r, s'. rewrite Hr. auto. }
  destruct Hcore as (r & s' & Hrun & Hp & Hi & Hr).
  exists r, s'. repeat split; try assumption.
  unfold Heap.snapshot. rewrite Hi. f_equal.
  destruct (Heap.timelineRef i) as [t|]; simpl; [|reflexivity].
  destruct (Ht t eq_refl) as [rows Hrows].
  now rewrite Hrows, (Hr _ _ Hrows).
Qed.

End HeapProps.

Lemma chartData_leaves_inputs_witness :
  exists r s',
    Heap.chartData 0 Samples.inputs0 Samples.store0 = Some (r, s') /\
    Heap.pointArrays s' !! r
    = Some (chartData 0 (Heap.snapshot Samples.store0 Samples.inputs0)) /\
    Heap.itemArrays s' = Heap.itemArrays Samples.store0 /\
    (forall l rows, Heap.rowArrays Samples.store0 !! l = Some rows ->
                    Heap.rowArrays s' !! l = Some rows) /\
    Heap.snapshot s' Samples.inputs0 = Heap.snapshot Samples.store0 Samples.inputs0.
Proof.
  apply (chartData_leaves_inputs 0 Samples.store0 Samples.inputs0).
  split.
  - intros r H. discriminate H.
  - intros r H. injection H as <-. exists Samples.unsortedRows. reflexivity.
Defined.

(** What the copy is for: sorting the timeline itself, without the
    spread, would leave the input array in another order. *)
Example sort_without_copy_reorders_input :
  exists r s',
    Heap.fromTimeline_nocopy 0 3 1%positive Samples.store0 = Some (r, s') /\
    Heap.rowArrays Samples.store0 !! 1%positive = Some Samples.unsortedRows /\
    Heap.rowArrays s' !! 1%positive = Some (rev Samples.unsortedRows).
Proof.
  eexists _, _. split; [vm_compute; reflexivity|]. split; vm_compute; reflexivity.
Qed.

(** ** The size of the series *)

Section Size.

Variable tza : Z.

Lemma length_feedProgression rt days :
  length (feedProgression tza rt days) = length days.
Proof.
  revert rt. induction days as [|day days IH]; intros rt; simpl; [reflexivity|].
  now rewrite IH.
Qed.

Lemma length_timelineProgression rt rows :
  length (timelineProgression tza rt rows) = length rows.
Proof.
  revert rt. induction rows as [|r rows IH]; intros rt; simpl; [reflexivity|].
  now rewrite IH.
Qed.

(** One point per date of the feed, or one per row of the timeline. *)
Lemma length_chartData d :
  length (chartData tza d)
  = match feedItems (activityFeed d) with
    | [] => length (timelineRows (timelineData d))
    | items => length (groupByDate items)
    end.
Proof.
  rewrite chartData_unadjusted, adjustToTotal_map, length_map.
  unfold unadjusted.
  destruct (feedItems (activityFeed d)) as [|item items].
  - unfold chartDataWithProgression, sortedTimeline.
    rewrite length_timelineProgression.
    apply Permutation_length, sort_Permutation.
  - unfold chartDataFromFeed, sortedDays.
    rewrite length_feedProgression.
    rewrite (Permutation_length (sort_Permutation _ _)).
    rewrite (Permutation_length (Obj_values_Permutation _)).
    apply length_map.
Qed.

End Size.

(** ** The scenarios *)

(** The feed of two earnings and a redemption, with a total that agrees
    and with one that is 8 ahead; no data at all. *)
Example scenario_feed_total_12 :
  chartData 0 (Samples.fromFeedOnly Samples.feed1 (Some 12))
  = [Samples.feed1_sep8 15; Samples.feed1_sep9 12].
Proof. reflexivity. Qed.

Example scenario_feed_total_20 :
  chartData 0 (Samples.fromFeedOnly Samples.feed1 (Some 20))
  = [Samples.feed1_sep8 23; Samples.feed1_sep9 20].
Proof. reflexivity. Qed.

Example scenario_no_data (tza : Z) (tp : option Z) :
  chartData tza (Samples.fromFeedOnly [] tp) = [] /\
  chartData tza (Samples.fromTimelineOnly [] tp) = [] /\
  ActivityGraph tza (Samples.fromTimelineOnly [] tp) = EmptyState.
Proof. repeat split. Qed.

(** Why the order of the series is stated for dates that are dates: a
    row whose date does not parse compares as equal to every other, and
    the rows around it stay out of order. *)
Example invalid_date_breaks_order :
  map rawDate (chartData 0 (Samples.fromTimelineOnly Samples.timeline3 None))
  = ["2025-09-09"; "soon"; "2025-09-08"] /\
  ~ ascending (chartData 0 (Samples.fromTimelineOnly Samples.timeline3 None)).
Proof.
  split; [reflexivity|].
  unfold ascending.
  change (map rawDate _) with ["2025-09-09"; "soon"; "2025-09-08"].
  intros H. inversion H as [|? ? _ Hall]; subst.
  inversion Hall as [|? ? Hle _]; subst.
  exact Hle.
Qed.

(** ** What the buckets hold *)

Lemma earning_not_redemption item : isEarning item = true -> isRedemption item = false.
Proof.
  unfold isEarning, isRedemption.
  destruct (String.eqb_spec (type item) "activity") as [->|]; [|discriminate].
  reflexivity.
Qed.

Lemma sums_snoc k items item :
  earnedOn k (items ++ [item])
  = earnedOn k items
    + (if onDate k item && isEarning item then points_change item else 0) /\
  activitiesOn k (items ++ [item])
  = activitiesOn k items + (if onDate k item && isEarning item then 1 else 0) /\
  redeemedOn k (items ++ [item])
  = redeemedOn k items
    + (if onDate k item && isRedemption item then Z.abs (points_change item) else 0) /\
  redemptionsOn k (items ++ [item])
  = redemptionsOn k items + (if onDate k item && isRedemption item then 1 else 0).
Proof.
  induction items as [|i items (IH1 & IH2 & IH3 & IH4)];
    cbn [app earnedOn activitiesOn redeemedOn redemptionsOn].
  - repeat split; lia.
  - rewrite IH1, IH2, IH3, IH4. repeat split; lia.
Qed.

Lemma bucketOf_snoc k items item :
  bucketOf k (items ++ [item])
  = if onDate k item then
      if isEarning item then addEarning (points_change item) (bucketOf k items)
      else if isRedemption item then addRedemption (points_change item) (bucketOf k items)
      else bucketOf k items
    else bucketOf k items.
Proof.
  unfold bucketOf.
  destruct (sums_snoc k items item) as (He & Ha & Hr & Hc).
  rewrite He, Ha, Hr, Hc.
  destruct (onDate k item); simpl; [|f_equal; lia].
  destruct (isEarning item) eqn:E.
  - rewrite (earning_not_redemption _ E). unfold addEarning. simpl. f_equal; lia.
  - destruct (isRedemption item); unfold addRedemption; simpl; f_equal; lia.
Qed.

Lemma bucketOf_absent k items :
  (forall item, In item items -> dateKeyOf item <> k) ->
  bucketOf k items = emptyBucket k.
Proof.
  intros H. unfold bucketOf, emptyBucket.
  assert (Hall : forall item, In item items -> onDate k item = false).
  { intros item Hin. apply String.eqb_neq. now apply H. }
  clear H. induction items as [|i items IH]; simpl; [reflexivity|].
  rewrite (Hall i (or_introl eq_refl)). simpl.
  injection (IH (fun item Hin => Hall item (or_intror Hin))) as -> -> -> ->.
  reflexivity.
Qed.

Lemma groupByDate_snoc items item :
  groupByDate (items ++ [item]) = feedStep (groupByDate items) item.
Proof. unfold groupByDate. now rewrite fold_left_app. Qed.

Lemma groupByDate_get_None k items :
  Obj.get k (groupByDate items) = None ->
  forall item, In item items -> dateKeyOf item <> k.
Proof.
  intros Hnone item Hin <-.
  destruct (groupByDate_has_key items item Hin) as [b Hb]. congruence.
Qed.

Lemma Obj_get_update {V} (k k' : string) (f : V -> V) (o : Obj.t V) :
  Obj.get k' (Obj.update k f o)
  = if String.eqb k' k then option_map f (Obj.get k o) else Obj.get k' o.
Proof.
  unfold Obj.update. destruct (String.eqb_spec k' k) as [->|Hne].
  - destruct (Obj.get k o) as [v|] eqn:E; simpl; [apply Obj_get_set_same|exact E].
  - destruct (Obj.get k o) as [v|] eqn:E; [|reflexivity].
    now apply Obj_get_set_other.
Qed.

(** Every bucket holds what the items of its date add up to. *)
Lemma groupByDate_get k items b :
  Obj.get k (groupByDate items) = Some b -> b = bucketOf k items.
Proof.
  revert b. induction items as [|item items IH] using rev_ind; intros b.
  - discriminate.
  - rewrite groupByDate_snoc, bucketOf_snoc. unfold feedStep, onDate.
    set (kx := dateKeyOf item). set (dd := groupByDate items) in *.
    set (dd1 := match Obj.get kx dd with
                | Some _ => dd
                | None => Obj.set kx (emptyBucket kx) dd
                end).
    assert (H1 : forall b1, Obj.get k dd1 = Some b1 -> b1 = bucketOf k items).
    { intros b1. unfold dd1. destruct (Obj.get kx dd) eqn:E; [apply IH|].
      destruct (String.eqb_spec k kx) as [->|Hne].
      - rewrite Obj_get_set_same. intros [= <-]. symmetry.
        apply bucketOf_absent. now apply groupByDate_get_None.
      - rewrite Obj_get_set_other by exact Hne. apply IH. }
    assert (Hsym : String.eqb kx k = String.eqb k kx) by apply String.eqb_sym.
    rewrite Hsym.
    destruct (isEarning item).
    + rewrite Obj_get_update.
      destruct (String.eqb k kx) eqn:Ek; [|apply H1].
      apply String.eqb_eq in Ek. subst k.
      destruct (Obj.get kx dd1) as [b1|] eqn:E1; simpl; [|discriminate].
      intros [= <-]. now rewrite (H1 b1 eq_refl).
    + destruct (isRedemption item).
      * rewrite Obj_get_update.
        destruct (String.eqb k kx) eqn:Ek; [|apply H1].
        apply String.eqb_eq in Ek. subst k.
        destruct (Obj.get kx dd1) as [b1|] eqn:E1; simpl; [|discriminate].
        intros [= <-]. now rewrite (H1 b1 eq_refl).
      * destruct (String.eqb k kx); apply H1.
Qed.

Lemma Obj_In_get {V} (k : string) (v : V) (o : Obj.t V) :
  List.NoDup (Obj.keys o) -> In (k, v) o -> Obj.get k o = Some v.
Proof.
  induction o as [|[k' v'] o IH]; simpl; [tauto|].
  intros Hnd [E|Hin].
  - injection E as -> ->. now rewrite String.eqb_refl.
  - apply List.NoDup_cons_iff in Hnd as [Hnotin Hnd].
    destruct (String.eqb_spec k k') as [->|Hne]; [|now apply IH].
    destruct Hnotin. unfold Obj.keys. apply in_map_iff. now exists (k', v).
Qed.

Lemma Obj_get_In_keys {V} (k : string) (o : Obj.t V) :
  is_Some (Obj.get k o) -> In k (Obj.keys o).
Proof.
  induction o as [|[k' v'] o IH]; simpl.
  - intros [? [=]].
  - destruct (String.eqb_spec k k') as [->|Hne]; [now left|].
    intros H. right. now apply IH.
Qed.

Lemma groupByDate_inFeed items :
  dailyDataOk (inFeed items) (groupByDate items).
Proof.
  apply groupByDate_dailyDataOk. apply List.Forall_forall.
  intros item Hin. now exists item.
Qed.

(** The days that are charted: each is a date of the feed, and holds
    what the items of that date add up to. *)
Lemma In_sortedDays items day :
  In day (sortedDays items) ->
  inFeed items (DailyBucket.date day) /\ day = bucketOf (DailyBucket.date day) items.
Proof.
  intros Hin. unfold sortedDays in Hin.
  apply (Permutation_in _ (sort_Permutation _ _)) in Hin.
  apply (Permutation_in _ (Obj_values_Permutation _)) in Hin.
  apply in_map_iff in Hin as [[k b] [E Hin]]. simpl in E. subst b.
  destruct (groupByDate_inFeed items) as [Hnd Hall].
  rewrite List.Forall_forall in Hall.
  destruct (Hall _ Hin) as [Hd Hv]. simpl in Hd, Hv. rewrite Hd.
  split; [exact Hv|].
  apply groupByDate_get. now apply Obj_In_get.
Qed.

Lemma sortedDays_keys items :
  Permutation (map DailyBucket.date (sortedDays items)) (Obj.keys (groupByDate items)).
Proof.
  destruct (groupByDate_inFeed items) as [_ Hall].
  rewrite <- (bucket_dates_keys _ _ Hall).
  apply Permutation_map. unfold sortedDays.
  rewrite sort_Permutation. apply Obj_values_Permutation.
Qed.

Section FeedPoints.

Variable tza : Z.

Lemma In_feedProgression rt days p :
  In p (feedProgression tza rt days) ->
  exists day,
    In day days /\
    name p = formatDate tza (DailyBucket.date day) /\
    Daily p = DailyBucket.points day /\
    Redeemed p = DailyBucket.redeemed day /\
    Net p = DailyBucket.points day - DailyBucket.redeemed day /\
    Redemptions p = DailyBucket.redemptions day /\
    rawDate p = DailyBucket.date day /\
    dataSource p = Some "activity-feed".
Proof.
  revert rt. induction days as [|day days IH]; intros rt; simpl; [tauto|].
  intros [<-|Hin].
  - exists day. simpl. repeat split. now left.
  - destruct (IH _ Hin) as (day' & Hin' & H). exists day'. split; [now right|exact H].
Qed.

Lemma In_timelineProgression rt rows p :
  In p (timelineProgression tza rt rows) ->
  exists item,
    In item rows /\
    name p = formatDate tza (TimelineRow.date item) /\
    Daily p = JS.orZero (TimelineRow.points_earned item) /\
    Redeemed p = JS.orZero (TimelineRow.points_redeemed item) /\
    Net p = Daily p - Redeemed p /\
    Redemptions p = JS.orZero (TimelineRow.redemptions_count item) /\
    rawDate p = TimelineRow.date item /\
    dataSource p = None.
Proof.
  revert rt. induction rows as [|item rows IH]; intros rt; simpl; [tauto|].
  intros [<-|Hin].
  - exists item. simpl. repeat split. now left.
  - destruct (IH _ Hin) as (item' & Hin' & H). exists item'. split; [now right|exact H].
Qed.

Lemma In_adjustToTotal c pts p :
  In p (adjustToTotal c pts) ->
  exists q, In q pts /\ p = addPoints (adjustment c pts) q.
Proof.
  rewrite adjustToTotal_map. intros Hin.
  apply in_map_iff in Hin as (q & <- & Hq). now exists q.
Qed.

(** A point of the series comes from a row or from a day of the feed. *)
Lemma In_chartData d p :
  In p (chartData tza d) ->
  exists q, In q (unadjusted tza d) /\
            p = addPoints (adjustment (JS.orZero (totalPoints d)) (unadjusted tza d)) q.
Proof. rewrite chartData_unadjusted. apply In_adjustToTotal. Qed.

(** A point of a series made from the feed shows a charted day. *)
Lemma In_chartData_feed d p :
  feedItems (activityFeed d) <> [] ->
  In p (chartData tza d) ->
  exists day,
    In day (sortedDays (feedItems (activityFeed d))) /\
    name p = formatDate tza (DailyBucket.date day) /\
    Daily p = DailyBucket.points day /\
    Redeemed p = DailyBucket.redeemed day /\
    Net p = DailyBucket.points day - DailyBucket.redeemed day /\
    Redemptions p = DailyBucket.redemptions day /\
    rawDate p = DailyBucket.date day /\
    dataSource p = Some "activity-feed".
Proof.
  intros Hne Hin.
  destruct (In_chartData d p Hin) as (q & Hq & ->).
  unfold unadjusted in Hq.
  destruct (feedItems (activityFeed d)) as [|i0 items0] eqn:Eitems; [congruence|].
  unfold chartDataFromFeed in Hq.
  apply In_feedProgression in Hq. exact Hq.
Qed.


End FeedPoints.

(** ** The signs of what a day of the feed holds *)

Lemma isEarning_positive item : isEarning item = true -> 0 < points_change item.
Proof.
  unfold isEarning. intros H. apply andb_prop in H as [_ H]. now apply Z.ltb_lt.
Qed.

Lemma isRedemption_negative item : isRedemption item = true -> points_change item < 0.
Proof.
  unfold isRedemption. intros H. apply andb_prop in H as [_ H]. now apply Z.ltb_lt.
Qed.

Lemma earnedOn_bounds k items :
  0 <= activitiesOn k items <= earnedOn k items.
Proof.
  induction items as [|item items IH]; simpl; [lia|].
  destruct (onDate k item); simpl; [|lia].
  destruct (isEarning item) eqn:E; [|lia].
  pose proof (isEarning_positive _ E). lia.
Qed.

Lemma redeemedOn_bounds k items :
  0 <= redemptionsOn k items <= redeemedOn k items.
Proof.
  induction items as [|item items IH]; simpl; [lia|].
  destruct (onDate k item); simpl; [|lia].
  destruct (isRedemption item) eqn:E; [|lia].
  pose proof (isRedemption_negative _ E). lia.
Qed.

Lemma redeemedOn_positive k items :
  0 < redeemedOn k items -> 0 < redemptionsOn k items.
Proof.
  induction items as [|item items IH]; simpl; [lia|].
  pose proof (redeemedOn_bounds k items).
  destruct (onDate k item && isRedemption item); lia.
Qed.

Section Tooltip.

Variable tza : Z.

(** The tooltip of a point made from a feed in the exact range: the
    total, the earned line when something was earned, and the redeemed,
    net and redemptions lines all three together when something was
    redeemed, none of them otherwise. *)
Theorem tooltip_of_feed_point (d : DashboardData) (p : ChartPoint)
  (rest : list PayloadEntry) (label : string) :
  withinExactRange d ->
  feedItems (activityFeed d) <> [] ->
  In p (chartData tza d) ->
  tooltipContent true (Some ({| payload := Some p |} :: rest)) label
  = Some {| header := label;
            realTimeBadge := true;
            lines :=
              TotalLine (Some (Points p))
              :: (if 0 <? Daily p then [EarnedLine (Daily p)] else [])
              ++ (if 0 <? Redeemed p
                  then [ RedeemedLine (Redeemed p);
                         NetLine (if 0 <? Net p then "+" else "") (Net p);
                         RedemptionsLine (Redemptions p)
                           (if 1 <? Redemptions p then "s" else "") ]
                  else []) |}.
Proof.
  intros _ Hne Hin.
  destruct (In_chartData_feed tza d p Hne Hin)
    as (day & Hday & _ & Hd & Hr & Hn & Hc & Hraw & Hs).
  destruct (In_sortedDays _ day Hday) as [_ Hsum].
  pose proof (redeemedOn_bounds (DailyBucket.date day) (feedItems (activityFeed d))) as Hb.
  pose proof (redeemedOn_positive (DailyBucket.date day) (feedItems (activityFeed d))) as Hp.
  rewrite Hsum in Hd, Hr, Hn, Hc. simpl in Hd, Hr, Hn, Hc.
  rewrite <- Hr, <- Hc in Hb, Hp. rewrite <- Hd, <- Hr in Hn.
  unfold tooltipContent, lineIf. simpl. rewrite Hs. simpl. do 2 f_equal.
  f_equal. f_equal.
  destruct (Z.ltb_spec 0 (Redeemed p)) as [Hpos|Hzero].
  - destruct (Z.eqb_spec (Net p) (Daily p)) as [E|_]; [lia|]. simpl.
    destruct (Z.ltb_spec 0 (Redemptions p)); [reflexivity|lia].
  - destruct (Z.eqb_spec (Net p) (Daily p)) as [_|E]; [|lia]. simpl.
    destruct (Z.ltb_spec 0 (Redemptions p)); [lia|reflexivity].
Qed.

End Tooltip.

(** ** The series of the timeline *)

Section TimelinePoints.

Variable tza : Z.

Lemma summary_timelineProgression rt rows :
  map pointSummary (timelineProgression tza rt rows) = map rowSummary rows.
Proof.
  revert rt. induction rows as [|r rows IH]; intros rt; simpl; [reflexivity|].
  now rewrite IH.
Qed.

Lemma summary_adjustToTotal c pts :
  map pointSummary (adjustToTotal c pts) = map pointSummary pts.
Proof. rewrite adjustToTotal_map, map_map. reflexivity. Qed.

(** A series made from the timeline shows every row once and nothing
    else: date, earned, redeemed and count of the points are those of
    the rows, a missing number being 0, and [Net] is earned minus
    redeemed. *)
Theorem timeline_points_are_rows (d : DashboardData) :
  feedItems (activityFeed d) = [] ->
  Permutation (map pointSummary (chartData tza d))
    (map rowSummary (timelineRows (timelineData d))) /\
  Forall (fun p => Net p = Daily p - Redeemed p /\ dataSource p = None)
    (chartData tza d).
Proof.
  intros He. split.
  - rewrite chartData_unadjusted, summary_adjustToTotal.
    unfold unadjusted. rewrite He.
    unfold chartDataWithProgression. rewrite summary_timelineProgression.
    apply Permutation_map, sort_Permutation.
  - apply List.Forall_forall. intros p Hin.
    destruct (In_chartData tza d p Hin) as (q & Hq & ->).
    unfold unadjusted in Hq. rewrite He in Hq.
    apply In_timelineProgression in Hq as (item & _ & _ & _ & _ & Hn & _ & _ & Hs).
    simpl. split; assumption.
Qed.

Lemma sumNet_map_addPoints adj pts : sumNet (map (addPoints adj) pts) = sumNet pts.
Proof. induction pts as [|p pts IH]; simpl; [reflexivity|now rewrite IH]. Qed.

Lemma totalBefore_snoc rt pre p : totalBefore rt (pre ++ [p]) = Points p.
Proof. unfold totalBefore. now rewrite last_snoc. Qed.

(** Where every point adds its net change to the total before it, the
    last total is any point's total plus the net changes after it. *)
Lemma final_total_from (u : list ChartPoint) :
  (forall pre p post, u = pre ++ p :: post -> Points p = totalBefore 0 pre + Net p) ->
  forall post pre p, u = pre ++ p :: post ->
    calculatedFinal u = Points p + sumNet post.
Proof.
  intros Hstep. induction post as [|q post IH]; intros pre p Hu.
  - subst u. unfold calculatedFinal. rewrite last_snoc. simpl. lia.
  - assert (Hu' : u = (pre ++ [p]) ++ q :: post) by (rewrite <- app_assoc; exact Hu).
    rewrite (IH _ _ Hu'). rewrite (Hstep _ _ _ Hu'), totalBefore_snoc. simpl. lia.
Qed.

(** In a series made from a timeline in the exact range every point is
    the total minus the net changes of the points after it: the curve
    is the history counted back from [totalPoints]. *)
Theorem timeline_points_count_back (d : DashboardData) (pre : list ChartPoint)
  (p : ChartPoint) (post : list ChartPoint) :
  withinExactRange d ->
  feedItems (activityFeed d) = [] ->
  chartData tza d = pre ++ p :: post ->
  Points p = JS.orZero (totalPoints d) - sumNet post.
Proof.
  intros _ He Hsplit.
  rewrite chartData_unadjusted, adjustToTotal_map in Hsplit.
  set (u := unadjusted tza d) in *.
  set (adj := adjustment (JS.orZero (totalPoints d)) u) in *.
  apply map_eq_app in Hsplit as (pre' & rest & Hu & <- & Hrest).
  destruct rest as [|p' post']; [discriminate|].
  injection Hrest as <- <-.
  assert (Hstep : forall pre p post, u = pre ++ p :: post ->
                  Points p = totalBefore 0 pre + Net p).
  { intros pre0 p0 post0 E. unfold u, unadjusted in E. rewrite He in E.
    exact (timelineProgression_step tza 0 _ _ _ _ E). }
  pose proof (final_total_from u Hstep post' pre' p' Hu) as Hfinal.
  rewrite sumNet_map_addPoints. simpl. unfold adj, adjustment. lia.
Qed.

End TimelinePoints.

(** A series that was adjusted to a total is left as it is by a second
    adjustment to the same total, when the total and the points are
    integers small enough for the first adjustment to be exact. *)
Theorem adjustToTotal_idempotent (c : Z) (pts : list ChartPoint) :
  Forall (fun p => 2 * Z.abs (Points p) + Z.abs c <= 2 ^ 53) pts ->
  adjustToTotal c (adjustToTotal c pts) = adjustToTotal c pts.
Proof.
  intros _.
  rewrite (adjustToTotal_map c (adjustToTotal c pts)).
  assert (H : adjustment c (adjustToTotal c pts) = 0 \/ adjustToTotal c pts = []).
  { destruct (last (adjustToTotal c pts)) as [p|] eqn:E.
    - left. unfold adjustment, calculatedFinal. rewrite E. simpl.
      rewrite (adjustToTotal_last c pts p E). lia.
    - right. now apply last_None in E. }
  destruct H as [-> | ->]; [apply map_addPoints_zero|reflexivity].
Qed.

(** ** The second copy of the component *)

Section SecondCopy.

Variables tza tza' : Z.

Lemma numbers_timelineProgression rt rows :
  map numbers (timelineProgression tza rt rows)
  = map numbers000 (Unnamed000.timelineProgression tza' rt rows).
Proof.
  revert rt. induction rows as [|r rows IH]; intros rt; simpl; [reflexivity|].
  now rewrite IH.
Qed.

Lemma numbers_addPoints adj pts pts' :
  map numbers pts = map numbers000 pts' ->
  map numbers (map (addPoints adj) pts)
  = map numbers000 (map (Unnamed000.addPoints adj) pts').
Proof.
  revert pts'. induction pts as [|p pts IH]; intros [|p' pts']; simpl;
    try discriminate; [reflexivity|].
  intros [= H1 H2 H3 H4 H5 Hrest].
  unfold numbers, numbers000. simpl. rewrite H1, H2, H3, H4, H5.
  f_equal. now apply IH.
Qed.

Lemma last_numbers pts pts' :
  map numbers pts = map numbers000 pts' ->
  option_map Points (last pts) = option_map Unnamed000.Points (last pts').
Proof.
  revert pts'. induction pts as [|p pts IH]; intros [|p' pts']; simpl;
    try discriminate; [reflexivity|].
  intros [= H1 _ _ _ _ Hrest].
  destruct pts as [|q pts], pts' as [|q' pts']; try discriminate.
  - simpl. now rewrite H1.
  - exact (IH (q' :: pts') Hrest).
Qed.

(** Without a feed the two copies of the component compute the same
    numbers from the same timeline and total, point by point, whatever
    their time zones. *)
Theorem second_copy_same_numbers (d : DashboardData) :
  feedItems (activityFeed d) = [] ->
  map numbers (chartData tza d)
  = map numbers000 (fst (Unnamed000.chartData tza' (timelineData d) (totalPoints d))).
Proof.
  intros He. rewrite chartData_unadjusted. unfold unadjusted. rewrite He.
  unfold Unnamed000.chartData, chartDataWithProgression, sortedTimeline.
  destruct (timelineRows (timelineData d)) as [|r rows] eqn:Et.
  - rewrite adjustToTotal_map. reflexivity.
  - set (sorted := JS.sort compareRowDates (r :: rows)).
    pose proof (numbers_timelineProgression 0 sorted) as Hn.
    pose proof (last_numbers _ _ Hn) as Hl.
    unfold adjustToTotal, adjustment, calculatedFinal. rewrite Hl.
    destruct (0 <? _); simpl; [|exact Hn].
    now apply numbers_addPoints.
Qed.

End SecondCopy.

Section SecondCopyLog.

Variable tza : Z.

Lemma last_map_addPoints000 adj pts :
  last (map (Unnamed000.addPoints adj) pts)
  = option_map (Unnamed000.addPoints adj) (last pts).
Proof.
  induction pts as [|p [|q pts] IH]; [reflexivity..|]. exact IH.
Qed.

(** For a timeline and a total in the exact range, the series of the
    second copy ends on the total; the console gets at most one entry,
    and one only when the series had to be moved: it then reports a
    nonzero adjustment, the total minus the computed final value, and a
    displayed final value equal to the total. *)
Theorem second_copy_total_and_log (timelineData : option TimelineData)
  (totalPoints : option Z) :
  exactRange [] (timelineRows timelineData) totalPoints ->
  let pts := fst (Unnamed000.chartData tza timelineData totalPoints) in
  let log := snd (Unnamed000.chartData tza timelineData totalPoints) in
  (forall p, last pts = Some p -> Unnamed000.Points p = JS.orZero totalPoints) /\
  (length log <= 1)%nat /\
  (forall e, In e log ->
     Unnamed000.adjustment e <> 0 /\
     Unnamed000.correctTotalPoints e = JS.orZero totalPoints /\
     Unnamed000.adjustment e
     = Unnamed000.correctTotalPoints e - Unnamed000.calculatedFinal e /\
     Unnamed000.finalDisplayTotal e = Some (JS.orZero totalPoints)) /\
  (log = [] ->
   pts = match timelineRows timelineData with
         | [] => []
         | rows => Unnamed000.timelineProgression tza 0 (JS.sort compareRowDates rows)
         end).
Proof.
  intros _. unfold Unnamed000.chartData.
  destruct (timelineRows timelineData) as [|r rows].
  { simpl. repeat split; try discriminate; try tauto. lia. }
  set (u := Unnamed000.timelineProgression tza 0 (JS.sort compareRowDates (r :: rows))).
  set (c := JS.orZero totalPoints).
  destruct (last u) as [q|] eqn:El; simpl.
  - destruct (Z.ltb_spec 0 (Z.abs (c - Unnamed000.Points q))) as [Hadj|Hadj]; simpl.
    + rewrite last_map_addPoints000, El. simpl.
      split; [intros p [= <-]; simpl; lia|].
      split; [lia|]. split; [|discriminate].
      intros e [<-|[]]. simpl. repeat split; try lia. f_equal. lia.
    + split; [intros p Hp; rewrite ?El in Hp; injection Hp as <-; lia|].
      split; [lia|]. split; [tauto|reflexivity].
  - destruct (Z.ltb_spec 0 (Z.abs (c - 0))) as [Hadj|Hadj]; simpl.
    + apply last_None in El. rewrite El. simpl.
      split; [discriminate|]. split; [lia|]. split; [|discriminate].
      subst u. destruct (JS.sort compareRowDates (r :: rows)) eqn:Es; [|discriminate El].
      apply (f_equal (@length _)) in Es.
      rewrite (Permutation_length (sort_Permutation _ _)) in Es. discriminate Es.
    + split; [intros p Hp; rewrite ?El in Hp; discriminate|].
      split; [lia|]. split; [tauto|reflexivity].
Qed.

(** What the second copy shows: the skeleton exactly while loading,
    the chart exactly when loading is over and the timeline has a
    row. *)
Theorem second_copy_shows_chart (d : DashboardData) :
  (Unnamed000.ActivityGraph tza d = Unnamed000.Skeleton <-> isLoading d = true) /\
  (Unnamed000.ActivityGraph tza d
   = Unnamed000.LineChart (fst (Unnamed000.chartData tza (timelineData d) (totalPoints d)))
   <-> isLoading d = false /\ timelineRows (timelineData d) <> []).
Proof.
  unfold Unnamed000.ActivityGraph.
  destruct (isLoading d).
  { split; [tauto|]. split; [discriminate|]. intros [H _]. discriminate H. }
  split; [split; [|discriminate]; destruct (_ || _); discriminate|].
  assert (Hlen : length (fst (Unnamed000.chartData tza (timelineData d) (totalPoints d)))
                 = length (timelineRows (timelineData d))).
  { unfold Unnamed000.chartData.
    destruct (timelineRows (timelineData d)) as [|r rows]; [reflexivity|].
    assert (Hl : forall rt rows0, length (Unnamed000.timelineProgression tza rt rows0)
                                  = length rows0).
    { intros rt rows0. revert rt. induction rows0 as [|x xs IH]; intros rt; simpl;
        [reflexivity|now rewrite IH]. }
    destruct (0 <? _); cbn [fst]; rewrite ?length_map, Hl;
      apply (Permutation_length (sort_Permutation compareRowDates (r :: rows))). }
  rewrite Hlen.
  destruct (timelineData d) as [t|]; simpl.
  - destruct (timeline t) as [|r rows]; simpl.
    + split; [discriminate|]. intros [_ H]. congruence.
    + split; [|reflexivity]. intros _. split; [reflexivity|discriminate].
  - split; [discriminate|]. intros [_ H]. congruence.
Qed.

End SecondCopyLog.

(** ** More on the two date formatters *)

Section MoreFormatter.

Import JSDate.

Ltac month_cases mn :=
  let H := fresh in
  assert (H : mn = 0 \/ mn = 1 \/ mn = 2 \/ mn = 3 \/ mn = 4 \/ mn = 5 \/
              mn = 6 \/ mn = 7 \/ mn = 8 \/ mn = 9 \/ mn = 10 \/ mn = 11) by lia;
  destruct H as [->|[->|[->|[->|[->|[->|[->|[->|[->|[->|[->| ->]]]]]]]]]]].

Lemma DaysInMonth_range y mn : 0 <= mn <= 11 -> 28 <= DaysInMonth y mn <= 31.
Proof.
  intros H. unfold DaysInMonth.
  destruct (leapDays_range y) as [Hl|Hl]; rewrite Hl; month_cases mn; simpl; lia.
Qed.

Lemma parse_isoDate y1 y2 y3 y4 m1 m2 d1 d2 :
  isDigit y1 -> isDigit y2 -> isDigit y3 -> isDigit y4 ->
  isDigit m1 -> isDigit m2 -> isDigit d1 -> isDigit d2 ->
  let y := 1000 * y1 + 100 * y2 + 10 * y3 + y4 in
  let m := 10 * m1 + m2 in
  let d := 10 * d1 + d2 in
  1 <= m <= 12 ->
  1 <= d <= DaysInMonth y (m - 1) ->
  parse (isoDate y1 y2 y3 y4 m1 m2 d1 d2) = Some (MakeDate (MakeDay y (m - 1) d) 0) /\
  -800000 <= MakeDay y (m - 1) d <= 3000000.
Proof.
  intros Hy1 Hy2 Hy3 Hy4 Hm1 Hm2 Hd1 Hd2 y m d Hm Hd.
  assert (Hyr : 0 <= y <= 9999) by (unfold y, isDigit in *; lia).
  assert (Hmn : 0 <= m - 1 <= 11) by lia.
  destruct (MakeDay_within_year y (m - 1) d Hmn Hd) as [Hday Hwithin].
  assert (Hbound : -800000 <= MakeDay y (m - 1) d <= 3000000).
  { rewrite Hday. rewrite DaysInYear_leapDays in Hwithin.
    destruct (leapDays_range y); unfold DayFromYear;
      Z.div_mod_to_equations; lia. }
  split; [|exact Hbound].
  unfold parse, isoDate, fourDigits, twoDigits.
  rewrite !digitValue_digitChar by assumption.
  cbn [Ascii.eqb Bool.eqb andb].
  replace (100 * (10 * y1 + y2) + (10 * y3 + y4)) with y by (unfold y; lia).
  fold m d.
  destruct (Z.leb_spec 1 m); [|lia]. destruct (Z.leb_spec m 12); [|lia].
  destruct (Z.leb_spec 1 d); [|lia].
  destruct (Z.leb_spec d (DaysInMonth y (m - 1))); [|lia].
  cbn [andb]. unfold TimeClip, MakeDate.
  destruct (Z.leb_spec (Z.abs (MakeDay y (m - 1) d * msPerDay + 0)) 8640000000000000);
    [reflexivity|unfold msPerDay in *; lia].
Qed.

(** At UTC and ahead of it, by less than a day, the formatter of the
    second copy labels every calendar date with its own month and
    day. *)
Theorem second_copy_formatDate_ahead_of_UTC tza y1 y2 y3 y4 m1 m2 d1 d2 :
  isDigit y1 -> isDigit y2 -> isDigit y3 -> isDigit y4 ->
  isDigit m1 -> isDigit m2 -> isDigit d1 -> isDigit d2 ->
  let y := 1000 * y1 + 100 * y2 + 10 * y3 + y4 in
  let m := 10 * m1 + m2 in
  let d := 10 * d1 + d2 in
  1 <= m <= 12 ->
  1 <= d <= DaysInMonth y (m - 1) ->
  0 <= tza < msPerDay ->
  Unnamed000.formatDate tza (isoDate y1 y2 y3 y4 m1 m2 d1 d2) = shortLabel (m - 1) d.
Proof.
  intros Hy1 Hy2 Hy3 Hy4 Hm1 Hm2 Hd1 Hd2 y m d Hm Hd Htz.
  destruct (parse_isoDate y1 y2 y3 y4 m1 m2 d1 d2) as [Hp _]; try assumption.
  unfold Unnamed000.formatDate, getTime. rewrite Hp. fold y m d.
  unfold toLocaleDateString_short, LocalTime.
  destruct (civil_roundtrip y (m - 1) d (MakeDate (MakeDay y (m - 1) d) 0 + tza))
    as [_ [-> ->]]; [lia|exact Hd| |reflexivity].
  replace (MakeDate (MakeDay y (m - 1) d) 0 + tza)
    with (MakeDate (MakeDay y (m - 1) d) tza) by (unfold MakeDate; lia).
  now apply Day_MakeDate.
Qed.

Lemma MakeDay_dayBefore y mn d :
  0 <= mn <= 11 -> 1 <= d <= DaysInMonth y mn ->
  let '(y', mn', d') := dayBefore y mn d in
  0 <= mn' <= 11 /\ 1 <= d' <= DaysInMonth y' mn' /\ d' <> d /\
  MakeDay y' mn' d' = MakeDay y mn d - 1.
Proof.
  intros Hmn Hd. unfold dayBefore.
  destruct (Z.ltb_spec 1 d) as [Hd1|Hd1].
  - repeat split; try lia.
    destruct (MakeDay_within_year y mn d Hmn Hd) as [-> _].
    destruct (MakeDay_within_year y mn (d - 1) Hmn) as [-> _]; lia.
  - assert (d = 1) as -> by lia.
    destruct (Z.ltb_spec 0 mn) as [Hm0|Hm0].
    + pose proof (DaysInMonth_range y (mn - 1) ltac:(lia)) as Hr.
      repeat split; try lia.
      destruct (MakeDay_within_year y mn 1 Hmn Hd) as [-> _].
      destruct (MakeDay_within_year y (mn - 1) (DaysInMonth y (mn - 1))) as [-> _];
        [lia|lia|].
      clear Hd Hr. unfold DaysInMonth.
      destruct (leapDays_range y) as [Hl|Hl]; rewrite Hl;
        month_cases mn; simpl; lia.
    + assert (mn = 0) as -> by lia.
      repeat split; try lia; [simpl; lia|].
      destruct (MakeDay_within_year y 0 1 Hmn Hd) as [-> _].
      destruct (MakeDay_within_year (y - 1) 11 31) as [-> _]; [lia|simpl; lia|].
      pose proof (DayFromYear_succ (y - 1)) as Hs.
      replace (y - 1 + 1) with y in Hs by lia.
      rewrite DaysInYear_leapDays in Hs. simpl. lia.
Qed.

(** Behind UTC, by up to a day, the formatter of the second copy labels
    every calendar date with the month and day of the day before, whose
    day of the month is never the one of the string. *)
Theorem second_copy_formatDate_behind_UTC tza y1 y2 y3 y4 m1 m2 d1 d2 :
  isDigit y1 -> isDigit y2 -> isDigit y3 -> isDigit y4 ->
  isDigit m1 -> isDigit m2 -> isDigit d1 -> isDigit d2 ->
  let y := 1000 * y1 + 100 * y2 + 10 * y3 + y4 in
  let m := 10 * m1 + m2 in
  let d := 10 * d1 + d2 in
  1 <= m <= 12 ->
  1 <= d <= DaysInMonth y (m - 1) ->
  - msPerDay <= tza < 0 ->
  let '(_, mn', d') := dayBefore y (m - 1) d in
  Unnamed000.formatDate tza (isoDate y1 y2 y3 y4 m1 m2 d1 d2) = shortLabel mn' d' /\
  d' <> d.
Proof.
  intros Hy1 Hy2 Hy3 Hy4 Hm1 Hm2 Hd1 Hd2 y m d Hm Hd Htz.
  destruct (parse_isoDate y1 y2 y3 y4 m1 m2 d1 d2) as [Hp _]; try assumption.
  fold y m d in Hp.
  assert (Hmn : 0 <= m - 1 <= 11) by lia.
  pose proof (MakeDay_dayBefore y (m - 1) d Hmn Hd) as Hb.
  destruct (dayBefore y (m - 1) d) as [[y' mn'] d'].
  destruct Hb as (Hmn' & Hd' & Hne & Hday).
  split; [|exact Hne].
  unfold Unnamed000.formatDate, getTime. rewrite Hp.
  unfold toLocaleDateString_short, LocalTime.
  destruct (civil_roundtrip y' mn' d' (MakeDate (MakeDay y (m - 1) d) 0 + tza))
    as [_ [-> ->]]; [exact Hmn'|exact Hd'| |reflexivity].
  rewrite Hday. unfold Day, MakeDate, msPerDay in *.
  Z.div_mod_to_equations; lia.
Qed.

(** [formatDate] of ActivityGraph.tsx answers "Invalid Date" as soon as
    one of the first three dash-separated parts of the string is
    missing or does not begin with a number. *)
Theorem formatDate_invalid (tza : Z) (s : string) (i : nat) :
  (i < 3)%nat ->
  mjoin (map JS.parseInt (JS.split "-" s) !! i) = None ->
  formatDate tza s = "Invalid Date".
Proof.
  intros Hi Hnone. unfold formatDate.
  destruct i as [|[|[|i]]]; [| | |lia]; rewrite Hnone.
  - reflexivity.
  - unfold fromComponents.
    destruct (mjoin (map JS.parseInt (JS.split "-" s) !! 0%nat)); reflexivity.
  - unfold fromComponents.
    destruct (mjoin (map JS.parseInt (JS.split "-" s) !! 0%nat)); [|reflexivity].
    destruct (option_map _ _); reflexivity.
Qed.

End MoreFormatter.

(** ** The date of a timestamp *)

Lemma split_before_separator (sep : ascii) (a b : string) :
  lacks sep a -> JS.split sep (a ++ String sep b)%string = a :: JS.split sep b.
Proof.
  induction a as [|c a IH]; simpl.
  - intros _. now rewrite Ascii.eqb_refl.
  - intros [Hc Ha]. apply Ascii.eqb_neq in Hc. rewrite Hc, (IH Ha). reflexivity.
Qed.

Lemma split_without_separator (sep : ascii) (a : string) :
  lacks sep a -> JS.split sep a = [a].
Proof.
  induction a as [|c a IH]; simpl; [reflexivity|].
  intros [Hc Ha]. apply Ascii.eqb_neq in Hc. rewrite Hc, (IH Ha). reflexivity.
Qed.

(** The key of an item is what its timestamp has before the first
    "T", the whole timestamp when it has none. *)
Theorem dateKeyOf_timestamp (item : ActivityFeedItem) (date time : string) :
  lacks "T" date ->
  (timestamp item = (date ++ String "T" time)%string \/ timestamp item = date) ->
  dateKeyOf item = date.
Proof.
  intros Hd [E|E]; unfold dateKeyOf; rewrite E.
  - now rewrite split_before_separator.
  - now rewrite split_without_separator.
Qed.

(** ** What the derivation allocates *)

Section Allocation.

Variable tza : Z.

Lemma fresh_lookup_None {V} (m : gmap Heap.loc V) : m !! fresh (dom m) = None.
Proof. apply not_elem_of_dom, is_fresh. Qed.

Lemma adjustInPlace_store c r pts s :
  Heap.pointArrays s !! r = Some pts ->
  exists s',
    Heap.adjustInPlace c r s = Some (r, s') /\
    Heap.pointArrays s' = <[r := adjustToTotal c pts]> (Heap.pointArrays s) /\
    Heap.rowArrays s' = Heap.rowArrays s /\
    Heap.itemArrays s' = Heap.itemArrays s /\
    Heap.bucketArrays s' = Heap.bucketArrays s.
Proof.
  intros Hr. unfold Heap.adjustInPlace, Heap.bind, Heap.readPoints, adjustToTotal.
  rewrite Hr. simpl.
  destruct (0 <? Z.abs (adjustment c pts)).
  - eexists. split; [reflexivity|]. repeat split.
  - exists s. repeat split. symmetry. now apply insert_id.
Qed.

Lemma fromTimeline_store c tr rows s :
  Heap.rowArrays s !! tr = Some rows ->
  exists s',
    Heap.fromTimeline tza c tr s = Some (fresh (dom (Heap.pointArrays s)), s') /\
    Heap.pointArrays s'
    = <[fresh (dom (Heap.pointArrays s))
        := adjustToTotal c (chartDataWithProgression tza rows)]> (Heap.pointArrays s) /\
    Heap.rowArrays s'
    = <[fresh (dom (Heap.rowArrays s)) := sortedTimeline rows]> (Heap.rowArrays s) /\
    Heap.itemArrays s' = Heap.itemArrays s /\
    Heap.bucketArrays s' = Heap.bucketArrays s.
Proof.
  intros Hr.
  unfold Heap.fromTimeline, Heap.bind, Heap.spreadRows, Heap.sortRows,
    Heap.bind, Heap.readRows, Heap.allocRows, Heap.writeRows, Heap.ret,
    Heap.allocPoints.
  rewrite Hr. simpl. rewrite lookup_insert_eq. simpl.
  rewrite lookup_insert_eq. simpl.
  match goal with
  | |- context [Heap.adjustInPlace c ?r ?s0] =>
      destruct (adjustInPlace_store c r
                  (timelineProgression tza 0 (JS.sort compareRowDates rows)) s0)
        as (s' & Hrun & Hpts & Hrows & Hitems & Hbuckets)
  end.
  { simpl. apply lookup_insert_eq. }
  exists s'. split; [exact Hrun|].
  rewrite Hpts, Hrows, Hitems, Hbuckets. simpl.
  rewrite !insert_insert_eq. repeat split.
Qed.

Lemma fromFeed_store c fr items s :
  Heap.itemArrays s !! fr = Some items ->
  exists s',
    Heap.fromFeed tza c fr s = Some (fresh (dom (Heap.pointArrays s)), s') /\
    Heap.pointArrays s'
    = <[fresh (dom (Heap.pointArrays s))
        := adjustToTotal c (chartDataFromFeed tza items)]> (Heap.pointArrays s) /\
    Heap.rowArrays s' = Heap.rowArrays s /\
    Heap.itemArrays s' = Heap.itemArrays s /\
    Heap.bucketArrays s'
    = <[fresh (dom (Heap.bucketArrays s)) := sortedDays items]> (Heap.bucketArrays s).
Proof.
  intros Hr.
  unfold Heap.fromFeed, Heap.bind, Heap.sortBuckets, Heap.bind,
    Heap.readItems, Heap.readBuckets, Heap.allocBuckets, Heap.writeBuckets,
    Heap.ret, Heap.allocPoints.
  rewrite Hr. simpl. rewrite lookup_insert_eq. simpl.
  rewrite lookup_insert_eq. simpl.
  match goal with
  | |- context [Heap.adjustInPlace c ?r ?s0] =>
      destruct (adjustInPlace_store c r
                  (feedProgression tza 0
                     (JS.sort compareBucketDates (Obj.values (groupByDate items)))) s0)
        as (s' & Hrun & Hpts & Hrows & Hitems & Hbuckets)
  end.
  { simpl. apply lookup_insert_eq. }
  exists s'. split; [exact Hrun|].
  rewrite Hpts, Hrows, Hitems, Hbuckets. simpl.
  rewrite !insert_insert_eq. repeat split.
Qed.

(** The whole run: the result is written to a new array of points, the
    sorts to new arrays of rows or of buckets, and that is all. *)
Lemma chartData_store (s : Heap.Store) (i : Heap.Inputs) :
  Heap.wellFormed s i ->
  exists s',
    Heap.chartData tza i s = Some (fresh (dom (Heap.pointArrays s)), s') /\
    Heap.pointArrays s'
    = <[fresh (dom (Heap.pointArrays s)) := chartData tza (Heap.snapshot s i)]>
        (Heap.pointArrays s) /\
    Heap.rowArrays s ⊆ Heap.rowArrays s' /\
    Heap.bucketArrays s ⊆ Heap.bucketArrays s' /\
    Heap.itemArrays s' = Heap.itemArrays s.
Proof.
  intros [Hf Ht]. destruct i as [fr tr tot]. simpl in *.
  unfold Heap.chartData, Heap.snapshot, chartData. simpl.
  assert (Hnf : exists items,
             Heap.lengthItems fr s = Some (length items, s) /\
             feedItems (option_map (fun l => {| feed := l |})
                          (fr ≫= (Heap.itemArrays s !!.))) = items /\
             (items <> [] -> exists f, fr = Some f /\ Heap.itemArrays s !! f = Some items)).
  { destruct fr as [f|]; simpl.
    - destruct (Hf f eq_refl) as [items Hitems]. exists items.
      unfold Heap.bind, Heap.readItems. rewrite Hitems. simpl.
      repeat split. eauto.
    - exists []. repeat split. congruence. }
  assert (Hnt : exists rows,
             Heap.lengthRows tr s = Some (length rows, s) /\
             timelineRows (option_map (fun l => {| timeline := l |})
                             (tr ≫= (Heap.rowArrays s !!.))) = rows /\
             (rows <> [] -> exists t, tr = Some t /\ Heap.rowArrays s !! t = Some rows)).
  { destruct tr as [t|]; simpl.
    - destruct (Ht t eq_refl) as [rows Hrows]. exists rows.
      unfold Heap.bind, Heap.readRows. rewrite Hrows. simpl.
      repeat split. eauto.
    - exists []. repeat split. congruence. }
  destruct Hnf as (items & Hlf & -> & Hfr).
  destruct Hnt as (rows & Hlt & -> & Htr).
  unfold Heap.bind at 1. rewrite Hlf. unfold Heap.bind at 1. rewrite Hlt.
  destruct items as [|it items]; simpl.
  - destruct rows as [|row rows]; simpl.
    + eexists. split; [reflexivity|]. simpl. repeat split; done.
    + destruct (Htr ltac:(discriminate)) as (t & -> & Hrows).
      destruct (fromTimeline_store (JS.orZero tot) t _ s Hrows)
        as (s' & Hrun & Hp & Hr & Hi & Hb).
      exists s'. split; [destruct fr; exact Hrun|].
      split; [exact Hp|]. rewrite Hr, Hb, Hi. repeat split; try done.
      apply insert_subseteq, fresh_lookup_None.
  - destruct (Hfr ltac:(discriminate)) as (f & -> & Hitems).
    destruct (fromFeed_store (JS.orZero tot) f _ s Hitems)
      as (s' & Hrun & Hp & Hr & Hi & Hb).
    exists s'. split; [exact Hrun|].
    split; [exact Hp|]. rewrite Hr, Hb, Hi. repeat split; try done.
    apply insert_subseteq, fresh_lookup_None.
Qed.

Lemma wellFormed_preserved s s' i :
  Heap.wellFormed s i ->
  Heap.rowArrays s ⊆ Heap.rowArrays s' ->
  Heap.itemArrays s' = Heap.itemArrays s ->
  Heap.wellFormed s' i /\ Heap.snapshot s' i = Heap.snapshot s i.
Proof.
  intros [Hf Ht] Hsub Hi. split.
  - split.
    + intros r Hr. rewrite Hi. now apply Hf.
    + intros r Hr. destruct (Ht r Hr) as [rows Hrows]. exists rows.
      eapply lookup_weaken; eassumption.
  - unfold Heap.snapshot. rewrite Hi. f_equal.
    destruct (Heap.timelineRef i) as [t|]; simpl; [|reflexivity].
    destruct (Ht t eq_refl) as [rows Hrows].
    now rewrite Hrows, (lookup_weaken _ _ _ _ Hrows Hsub).
Qed.

(** The array that [chartData] returns did not exist before the call,
    and the call changes no array of points, of buckets or of rows that
    did. *)
Theorem chartData_result_is_new (s : Heap.Store) (i : Heap.Inputs) :
  Heap.wellFormed s i ->
  exists r s',
    Heap.chartData tza i s = Some (r, s') /\
    Heap.pointArrays s !! r = None /\
    Heap.pointArrays s ⊆ Heap.pointArrays s' /\
    Heap.bucketArrays s ⊆ Heap.bucketArrays s' /\
    Heap.rowArrays s ⊆ Heap.rowArrays s'.
Proof.
  intros Hwf. destruct (chartData_store s i Hwf) as (s' & Hrun & Hp & Hr & Hb & Hi).
  exists (fresh (dom (Heap.pointArrays s))), s'.
  split; [exact Hrun|]. split; [apply fresh_lookup_None|].
  split; [|split; assumption].
  rewrite Hp. apply insert_subseteq, fresh_lookup_None.
Qed.

(** Run again on the store that the first run left, [chartData]
    returns another array with the same points, and the first array
    still holds them. *)
Theorem chartData_again (s : Heap.Store) (i : Heap.Inputs) :
  Heap.wellFormed s i ->
  exists r1 s1 r2 s2,
    Heap.chartData tza i s = Some (r1, s1) /\
    Heap.chartData tza i s1 = Some (r2, s2) /\
    r1 <> r2 /\
    Heap.pointArrays s2 !! r1 = Some (chartData tza (Heap.snapshot s i)) /\
    Heap.pointArrays s2 !! r2 = Some (chartData tza (Heap.snapshot s i)).
Proof.
  intros Hwf.
  destruct (chartData_store s i Hwf) as (s1 & Hrun1 & Hp1 & Hr1 & Hb1 & Hi1).
  destruct (wellFormed_preserved s s1 i Hwf Hr1 Hi1) as [Hwf1 Hsnap].
  destruct (chartData_store s1 i Hwf1) as (s2 & Hrun2 & Hp2 & Hr2 & Hb2 & Hi2).
  set (r1 := fresh (dom (Heap.pointArrays s))) in *.
  set (r2 := fresh (dom (Heap.pointArrays s1))) in *.
  assert (H1 : Heap.pointArrays s1 !! r1 = Some (chartData tza (Heap.snapshot s i))).
  { rewrite Hp1. apply lookup_insert_eq. }
  assert (Hne : r1 <> r2).
  { intros E. pose proof (fresh_lookup_None (Heap.pointArrays s1)) as Hn.
    fold r2 in Hn. rewrite <- E in Hn. congruence. }
  exists r1, s1, r2, s2. split; [exact Hrun1|]. split; [exact Hrun2|].
  split; [exact Hne|]. rewrite Hp2, Hsnap. split.
  - rewrite lookup_insert_ne by congruence. exact H1.
  - apply lookup_insert_eq.
Qed.

End Allocation.

(** ** The order of the input *)

Lemma dateLt_asym a b : dateLt a b -> dateLt b a -> False.
Proof.
  unfold dateLt. destruct (JSDate.getTime a), (JSDate.getTime b); try easy. lia.
Qed.

(** Two lists in strictly ascending order of date with the same
    elements are the same list. *)
Lemma strictly_sorted_unique {A} (key : A -> string) (l1 l2 : list A) :
  StronglySorted dateLt (map key l1) ->
  StronglySorted dateLt (map key l2) ->
  Permutation l1 l2 -> l1 = l2.
Proof.
  revert l2. induction l1 as [|x l1 IH]; intros l2 H1 H2 Hp.
  - apply Permutation_nil in Hp. now subst.
  - destruct l2 as [|y l2]; [now apply Permutation_sym, Permutation_nil in Hp|].
    simpl in H1, H2.
    inversion H1 as [|? ? Hs1 Hall1]; subst.
    inversion H2 as [|? ? Hs2 Hall2]; subst.
    rewrite List.Forall_forall in Hall1, Hall2.
    assert (x = y).
    { assert (Hx : In x (y :: l2)) by (apply (Permutation_in _ Hp); now left).
      assert (Hy : In y (x :: l1))
        by (apply (Permutation_in _ (Permutation_sym Hp)); now left).
      destruct Hx as [->|Hx]; [reflexivity|].
      destruct Hy as [->|Hy]; [reflexivity|].
      exfalso. apply (dateLt_asym (key x) (key y)).
      - apply Hall1. now apply in_map.
      - apply Hall2. now apply in_map. }
    subst y. f_equal. apply IH; try assumption.
    now apply Permutation_cons_inv in Hp.
Qed.

Lemma bucketOf_Permutation k items items' :
  Permutation items items' -> bucketOf k items = bucketOf k items'.
Proof.
  intros Hp. unfold bucketOf.
  assert (H : earnedOn k items = earnedOn k items' /\
              activitiesOn k items = activitiesOn k items' /\
              redeemedOn k items = redeemedOn k items' /\
              redemptionsOn k items = redemptionsOn k items').
  { induction Hp as [|x l l' Hp (I1 & I2 & I3 & I4)|x y l
                    |l l' l'' Hp1 (I1 & I2 & I3 & I4) Hp2 (J1 & J2 & J3 & J4)]; simpl.
    - repeat split.
    - rewrite I1, I2, I3, I4. repeat split.
    - repeat split; lia.
    - repeat split; congruence. }
  destruct H as (-> & -> & -> & ->). reflexivity.
Qed.

Lemma inFeed_Permutation k items items' :
  Permutation items items' -> inFeed items k -> inFeed items' k.
Proof.
  intros Hp (item & Hin & Hk). exists item. split; [|exact Hk].
  now apply (Permutation_in _ Hp).
Qed.

Lemma sortedDays_In items day :
  In day (sortedDays items) <->
  inFeed items (DailyBucket.date day) /\ day = bucketOf (DailyBucket.date day) items.
Proof.
  split; [apply In_sortedDays|].
  intros [(item & Hin & Hk) Hday].
  destruct (groupByDate_has_key items item Hin) as [b Hb].
  rewrite Hk in Hb.
  pose proof (groupByDate_get _ _ _ Hb) as Eb. rewrite <- Hday in Eb. subst b.
  unfold sortedDays.
  apply (Permutation_in _ (Permutation_sym (sort_Permutation _ _))).
  apply (Permutation_in _ (Permutation_sym (Obj_values_Permutation _))).
  apply in_map_iff. exists (DailyBucket.date day, day). split; [reflexivity|].
  clear - Hb. induction (groupByDate items) as [|[k' v'] o IH]; simpl in *; [discriminate|].
  destruct (String.eqb_spec (DailyBucket.date day) k') as [<-|Hne].
  - injection Hb as ->. now left.
  - right. now apply IH.
Qed.

Lemma sortedDays_NoDup items : List.NoDup (sortedDays items).
Proof.
  apply (NoDup_map_inv DailyBucket.date).
  rewrite sortedDays_keys. apply groupByDate_inFeed.
Qed.

Lemma sortedDays_Permutation items items' :
  Permutation items items' -> Permutation (sortedDays items) (sortedDays items').
Proof.
  intros Hp. apply Permutation.NoDup_Permutation; try apply sortedDays_NoDup.
  intros day. rewrite !sortedDays_In.
  rewrite (bucketOf_Permutation _ _ _ Hp).
  split; intros [Hf Hd]; (split; [|exact Hd]).
  - now apply (inFeed_Permutation _ _ _ Hp).
  - now apply (inFeed_Permutation _ _ _ (Permutation_sym Hp)).
Qed.

Section InputOrder.

Variable tza : Z.

(** When the dates of the feed are calendar dates and its point
    changes are integers whose magnitudes add up to at most [2^53] (so
    that the sums of a day are exact in whatever order they are
    formed), the series does not depend on the order of the items of
    the feed. *)
Theorem feed_order_irrelevant (items items' : list ActivityFeedItem)
  (timelineData : option TimelineData) (totalPoints : option Z) :
  Permutation items items' ->
  Forall (fun item => validDate (dateKeyOf item)) items ->
  feedMagnitude items <= 2 ^ 53 ->
  chartData tza {| timelineData := timelineData;
                   activityFeed := Some {| feed := items |};
                   totalPoints := totalPoints;
                   isLoading := false |}
  = chartData tza {| timelineData := timelineData;
                     activityFeed := Some {| feed := items' |};
                     totalPoints := totalPoints;
                     isLoading := false |}.
Proof.
  intros Hp Hv _.
  assert (Hv' : Forall (fun item => validDate (dateKeyOf item)) items').
  { now rewrite <- Hp. }
  assert (Hs : sortedDays items = sortedDays items').
  { apply (strictly_sorted_unique DailyBucket.date).
    - destruct (sortedDays_dates _ Hv) as (_ & Hnd & Hsorted).
      now apply sorted_NoDup_strict.
    - destruct (sortedDays_dates _ Hv') as (_ & Hnd & Hsorted).
      now apply sorted_NoDup_strict.
    - now apply sortedDays_Permutation. }
  unfold chartData. simpl.
  rewrite (Permutation_length Hp).
  unfold chartDataFromFeed. now rewrite Hs.
Qed.

(** When the rows of the timeline have calendar dates, no two the
    same, the series does not depend on the order of the rows. *)
Theorem timeline_order_irrelevant (rows rows' : list TimelineRow.t)
  (activityFeed : option ActivityFeed) (totalPoints : option Z) :
  Permutation rows rows' ->
  Forall (fun r => validDate (TimelineRow.date r)) rows ->
  List.NoDup (map TimelineRow.date rows) ->
  chartData tza {| timelineData := Some {| timeline := rows |};
                   activityFeed := activityFeed;
                   totalPoints := totalPoints;
                   isLoading := false |}
  = chartData tza {| timelineData := Some {| timeline := rows' |};
                     activityFeed := activityFeed;
                     totalPoints := totalPoints;
                     isLoading := false |}.
Proof.
  intros Hp Hv Hnd.
  assert (Hv' : Forall (fun r => validDate (TimelineRow.date r)) rows').
  { now rewrite <- Hp. }
  assert (Hs : sortedTimeline rows = sortedTimeline rows').
  { apply (strictly_sorted_unique TimelineRow.date).
    - apply sorted_NoDup_strict; [now apply (sort_sorted TimelineRow.date)|].
      unfold sortedTimeline. now rewrite sort_Permutation.
    - apply sorted_NoDup_strict; [now apply (sort_sorted TimelineRow.date)|].
      unfold sortedTimeline. now rewrite sort_Permutation, <- Hp.
    - unfold sortedTimeline. now rewrite !sort_Permutation. }
  unfold chartData. simpl.
  rewrite (Permutation_length Hp).
  unfold chartDataWithProgression. now rewrite Hs.
Qed.

End InputOrder.

(** ** The badge of the tooltip *)

(** The tooltip of a point of the series carries the label it is
    given and shows the real-time badge exactly when the series was
    made from the feed. *)
Theorem tooltip_badge_iff_feed (tza : Z) (d : DashboardData) (p : ChartPoint)
  (rest : list PayloadEntry) (label : string) (v : TooltipView) :
  In p (chartData tza d) ->
  tooltipContent true (Some ({| payload := Some p |} :: rest)) label = Some v ->
  header v = label /\
  (realTimeBadge v = true <-> feedItems (activityFeed d) <> []).
Proof.
  intros Hin Hv.
  assert (Hsrc : dataSource p
                 = match feedItems (activityFeed d) with
                   | [] => None
                   | _ => Some "activity-feed"
                   end).
  { destruct (feedItems (activityFeed d)) as [|i items] eqn:Ef.
    - destruct (In_chartData tza d p Hin) as (q & Hq & ->).
      unfold unadjusted in Hq. rewrite Ef in Hq.
      apply In_timelineProgression in Hq as (item & _ & _ & _ & _ & _ & _ & _ & Hs).
      exact Hs.
    - assert (Hne : feedItems (activityFeed d) <> []) by (rewrite Ef; discriminate).
      destruct (In_chartData_feed tza d p Hne Hin) as (day & _ & _ & _ & _ & _ & _ & _ & Hs).
      exact Hs. }
  unfold tooltipContent in Hv. simpl in Hv. rewrite Hsrc in Hv.
  injection Hv as <-. simpl. split; [reflexivity|].
  destruct (feedItems (activityFeed d)); simpl.
  - split; [discriminate|congruence].
  - split; [discriminate|reflexivity].
Qed.

(** ** The further properties at work *)

Lemma second_copy_formatDate_ahead_of_UTC_witness :
  Unnamed000.formatDate 18000000 (isoDate 2 0 2 5 0 9 0 8)
  = JSDate.shortLabel (10 * 0 + 9 - 1) (10 * 0 + 8).
Proof.
  apply (second_copy_formatDate_ahead_of_UTC 18000000 2 0 2 5 0 9 0 8);
    unfold isDigit; try lia.
  - vm_compute. split; discriminate.
  - unfold JSDate.msPerDay. lia.
Defined.

Lemma second_copy_formatDate_behind_UTC_witness :
  Unnamed000.formatDate Samples.utcMinus5 (isoDate 2 0 2 5 0 9 0 1)
  = JSDate.shortLabel 7 31 /\ 31 <> 10 * 0 + 1.
Proof.
  assert (D : forall a, 0 <= a <= 9 -> isDigit a) by (intros a H; exact H).
  refine (second_copy_formatDate_behind_UTC Samples.utcMinus5 2 0 2 5 0 9 0 1
            (D 2 _) (D 0 _) (D 2 _) (D 5 _) (D 0 _) (D 9 _) (D 0 _) (D 1 _) _ _ _);
    try lia.
  - vm_compute. split; discriminate.
  - unfold Samples.utcMinus5, JSDate.msPerDay. lia.
Defined.

Lemma formatDate_invalid_witness :
  formatDate 0 "2025-09" = "Invalid Date".
Proof.
  apply (formatDate_invalid 0 "2025-09" 2).
  - lia.
  - reflexivity.
Defined.

Lemma dateKeyOf_timestamp_witness :
  dateKeyOf (Samples.item "2025-09-08T09:15:00Z" "activity" 10) = "2025-09-08".
Proof.
  apply (dateKeyOf_timestamp _ "2025-09-08" "09:15:00Z").
  - simpl. repeat split; discriminate.
  - left. reflexivity.
Defined.


Lemma tooltip_of_feed_point_witness :
  tooltipContent true (Some [ {| payload := Some (MoreSamples.feed4_sep9 8) |} ]) "Sep 9"
  = Some {| header := "Sep 9";
            realTimeBadge := true;
            lines := [ TotalLine (Some 8); RedeemedLine 7; NetLine "" (-7);
                       RedemptionsLine 2 "s" ] |}.
Proof.
  refine (tooltip_of_feed_point 0
            (Samples.fromFeedOnly MoreSamples.feed4 (Some 8))
            (MoreSamples.feed4_sep9 8) [] "Sep 9" _ _ _).
  - vm_compute. discriminate.
  - discriminate.
  - vm_compute. right. left. reflexivity.
Defined.

Lemma tooltip_badge_iff_feed_witness :
  header {| header := "Sep 8"; realTimeBadge := false;
            lines := [ TotalLine (Some 7); EarnedLine 5; RedeemedLine 8;
                       NetLine "" (-3) ] |} = "Sep 8" /\
  (realTimeBadge {| header := "Sep 8"; realTimeBadge := false;
                    lines := [ TotalLine (Some 7); EarnedLine 5; RedeemedLine 8;
                               NetLine "" (-3) ] |} = true
   <-> feedItems (activityFeed (Samples.fromTimelineOnly MoreSamples.timeline4 (Some 10)))
       <> []).
Proof.
  refine (tooltip_badge_iff_feed 0
            (Samples.fromTimelineOnly MoreSamples.timeline4 (Some 10))
            (nth 0 MoreSamples.timeline4_series (Samples.feed1_sep8 0)) [] "Sep 8" _ _ _).
  - vm_compute. left. reflexivity.
  - reflexivity.
Defined.

Lemma timeline_points_are_rows_witness :
  Permutation
    (map pointSummary (chartData 0 (Samples.fromTimelineOnly MoreSamples.timeline4 (Some 10))))
    (map rowSummary MoreSamples.timeline4).
Proof.
  refine (proj1 (timeline_points_are_rows 0
            (Samples.fromTimelineOnly MoreSamples.timeline4 (Some 10)) _)).
  reflexivity.
Defined.

Lemma timeline_points_count_back_witness :
  Points (nth 1 MoreSamples.timeline4_series (Samples.feed1_sep8 0))
  = JS.orZero (Some 10) - sumNet (skipn 2 MoreSamples.timeline4_series).
Proof.
  refine (timeline_points_count_back 0
            (Samples.fromTimelineOnly MoreSamples.timeline4 (Some 10))
            (firstn 1 MoreSamples.timeline4_series) _ _ _ _ _).
  - vm_compute. discriminate.
  - reflexivity.
  - reflexivity.
Defined.

Lemma second_copy_same_numbers_witness :
  map numbers (chartData 0 (Samples.fromTimelineOnly MoreSamples.timeline4 (Some 10)))
  = map numbers000
      (fst (Unnamed000.chartData Samples.utcMinus5
              (Some {| timeline := MoreSamples.timeline4 |}) (Some 10))).
Proof.
  refine (second_copy_same_numbers 0 Samples.utcMinus5
            (Samples.fromTimelineOnly MoreSamples.timeline4 (Some 10)) _).
  reflexivity.
Defined.

Lemma second_copy_total_and_log_witness :
  Unnamed000.adjustment
    {| Unnamed000.correctTotalPoints := 10; Unnamed000.calculatedFinal := 0;
       Unnamed000.adjustment := 10; Unnamed000.finalDisplayTotal := Some 10 |} <> 0 /\
  Unnamed000.correctTotalPoints
    {| Unnamed000.correctTotalPoints := 10; Unnamed000.calculatedFinal := 0;
       Unnamed000.adjustment := 10; Unnamed000.finalDisplayTotal := Some 10 |}
  = JS.orZero (Some 10) /\
  Unnamed000.adjustment
    {| Unnamed000.correctTotalPoints := 10; Unnamed000.calculatedFinal := 0;
       Unnamed000.adjustment := 10; Unnamed000.finalDisplayTotal := Some 10 |}
  = Unnamed000.correctTotalPoints
      {| Unnamed000.correctTotalPoints := 10; Unnamed000.calculatedFinal := 0;
         Unnamed000.adjustment := 10; Unnamed000.finalDisplayTotal := Some 10 |}
    - Unnamed000.calculatedFinal
        {| Unnamed000.correctTotalPoints := 10; Unnamed000.calculatedFinal := 0;
           Unnamed000.adjustment := 10; Unnamed000.finalDisplayTotal := Some 10 |} /\
  Unnamed000.finalDisplayTotal
    {| Unnamed000.correctTotalPoints := 10; Unnamed000.calculatedFinal := 0;
       Unnamed000.adjustment := 10; Unnamed000.finalDisplayTotal := Some 10 |}
  = Some (JS.orZero (Some 10)).
Proof.
  refine (proj1 (proj2 (proj2 (second_copy_total_and_log 0
            (Some {| timeline := MoreSamples.timeline4 |}) (Some 10) _))) _ _).
  { vm_compute. discriminate. }
  vm_compute. left. reflexivity.
Defined.

Lemma chartData_result_is_new_witness :
  exists r s',
    Heap.chartData 0 Samples.inputs0 Samples.store0 = Some (r, s') /\
    Heap.pointArrays Samples.store0 !! r = None /\
    Heap.pointArrays Samples.store0 ⊆ Heap.pointArrays s' /\
    Heap.bucketArrays Samples.store0 ⊆ Heap.bucketArrays s' /\
    Heap.rowArrays Samples.store0 ⊆ Heap.rowArrays s'.
Proof.
  apply (chartData_result_is_new 0 Samples.store0 Samples.inputs0).
  split.
  - intros r H. discriminate H.
  - intros r H. injection H as <-. exists Samples.unsortedRows. reflexivity.
Defined.

Lemma chartData_again_witness :
  exists r1 s1 r2 s2,
    Heap.chartData 0 Samples.inputs0 Samples.store0 = Some (r1, s1) /\
    Heap.chartData 0 Samples.inputs0 s1 = Some (r2, s2) /\
    r1 <> r2 /\
    Heap.pointArrays s2 !! r1
    = Some (chartData 0 (Heap.snapshot Samples.store0 Samples.inputs0)) /\
    Heap.pointArrays s2 !! r2
    = Some (chartData 0 (Heap.snapshot Samples.store0 Samples.inputs0)).
Proof.
  apply (chartData_again 0 Samples.store0 Samples.inputs0).
  split.
  - intros r H. discriminate H.
  - intros r H. injection H as <-. exists Samples.unsortedRows. reflexivity.
Defined.

Lemma feed_order_irrelevant_witness :
  chartData 0 {| timelineData := None;
                 activityFeed := Some {| feed := Samples.feed1 |};
                 totalPoints := Some 20;
                 isLoading := false |}
  = chartData 0 {| timelineData := None;
                   activityFeed := Some {| feed := MoreSamples.feed1_shuffled |};
                   totalPoints := Some 20;
                   isLoading := false |}.
Proof.
  apply (feed_order_irrelevant 0 Samples.feed1 MoreSamples.feed1_shuffled).
  - exact (Permutation_rev Samples.feed1).
  - repeat constructor; eexists; reflexivity.
  - vm_compute. discriminate.
Defined.

Lemma timeline_order_irrelevant_witness :
  chartData 0 {| timelineData := Some {| timeline := Samples.unsortedRows |};
                 activityFeed := None;
                 totalPoints := Some 3;
                 isLoading := false |}
  = chartData 0 {| timelineData := Some {| timeline := rev Samples.unsortedRows |};
                   activityFeed := None;
                   totalPoints := Some 3;
                   isLoading := false |}.
Proof.
  apply (timeline_order_irrelevant 0 Samples.unsortedRows (rev Samples.unsortedRows)).
  - apply perm_swap.
  - repeat constructor; eexists; reflexivity.
  - repeat constructor; simpl; intuition discriminate.
Defined.

Lemma adjustToTotal_idempotent_witness :
  adjustToTotal 20 (adjustToTotal 20 [Samples.feed1_sep8 15; Samples.feed1_sep9 12])
  = adjustToTotal 20 [Samples.feed1_sep8 15; Samples.feed1_sep9 12].
Proof.
  apply adjustToTotal_idempotent.
  apply List.Forall_cons; [|apply List.Forall_cons; [|apply List.Forall_nil]];
    vm_compute; discriminate.
Defined.

(** * The range in which the integers are the numbers of the engine *)

(** ** The exact range *)

Lemma feedMagnitude_nonneg items : 0 <= feedMagnitude items.
Proof. induction items; simpl; lia. Qed.

Lemma timelineMagnitude_nonneg rows : 0 <= timelineMagnitude rows.
Proof. induction rows; simpl; lia. Qed.

Lemma daysMagnitude_nonneg days : 0 <= daysMagnitude days.
Proof. induction days; simpl; unfold bucketMagnitude in *; lia. Qed.

Lemma daysMagnitude_Permutation days days' :
  Permutation days days' -> daysMagnitude days = daysMagnitude days'.
Proof.
  induction 1; simpl; lia.
Qed.

Lemma timelineMagnitude_Permutation rows rows' :
  Permutation rows rows' -> timelineMagnitude rows = timelineMagnitude rows'.
Proof.
  induction 1; simpl; lia.
Qed.

Lemma daysMagnitude_set k b (o : Obj.t DailyBucket.t) :
  daysMagnitude (map snd (Obj.set k b o))
  = daysMagnitude (map snd o) + bucketMagnitude b
    - match Obj.get k o with
      | Some old => bucketMagnitude old
      | None => 0
      end.
Proof.
  induction o as [|[k' v'] o IH]; simpl; [lia|].
  destruct (String.eqb k k'); simpl; [lia|]. rewrite IH. lia.
Qed.

Lemma daysMagnitude_update k f (o : Obj.t DailyBucket.t) c :
  0 <= c ->
  (forall b, bucketMagnitude (f b) <= bucketMagnitude b + c) ->
  daysMagnitude (map snd (Obj.update k f o)) <= daysMagnitude (map snd o) + c.
Proof.
  intros Hc Hf. unfold Obj.update.
  destruct (Obj.get k o) as [v|] eqn:E; [|lia].
  rewrite daysMagnitude_set, E. pose proof (Hf v). lia.
Qed.

Lemma daysMagnitude_feedStep dailyData item :
  daysMagnitude (map snd (feedStep dailyData item))
  <= daysMagnitude (map snd dailyData) + Z.abs (points_change item).
Proof.
  unfold feedStep.
  set (dd := match Obj.get (dateKeyOf item) dailyData with
             | Some _ => dailyData
             | None => _
             end).
  assert (Hdd : daysMagnitude (map snd dd) = daysMagnitude (map snd dailyData)).
  { unfold dd. destruct (Obj.get (dateKeyOf item) dailyData) eqn:E; [reflexivity|].
    rewrite daysMagnitude_set, E. unfold bucketMagnitude. simpl. lia. }
  rewrite <- Hdd.
  destruct (isEarning item).
  - apply daysMagnitude_update; [lia|].
    intros b. unfold bucketMagnitude, addEarning. simpl. lia.
  - destruct (isRedemption item); [|lia].
    apply daysMagnitude_update; [lia|].
    intros b. unfold bucketMagnitude, addRedemption. simpl. lia.
Qed.

Lemma daysMagnitude_groupByDate items :
  daysMagnitude (map snd (groupByDate items)) <= feedMagnitude items.
Proof.
  unfold groupByDate.
  assert (H : forall dd,
             daysMagnitude (map snd (fold_left feedStep items dd))
             <= daysMagnitude (map snd dd) + feedMagnitude items).
  { induction items as [|item items IH]; intros dd; simpl; [lia|].
    pose proof (IH (feedStep dd item)). pose proof (daysMagnitude_feedStep dd item). lia. }
  exact (H []).
Qed.

Lemma daysMagnitude_sortedDays items :
  daysMagnitude (sortedDays items) <= feedMagnitude items.
Proof.
  unfold sortedDays.
  rewrite (daysMagnitude_Permutation _ _ (sort_Permutation _ _)).
  rewrite (daysMagnitude_Permutation _ _ (Obj_values_Permutation _)).
  apply daysMagnitude_groupByDate.
Qed.

Lemma pointWithin_le b b' p : b <= b' -> pointWithin b p -> pointWithin b' p.
Proof. unfold pointWithin. lia. Qed.

Section ExactRange.

Variable tza : Z.

Lemma feedProgression_within rt days :
  0 <= rt ->
  Forall (pointWithin (rt + daysMagnitude days)) (feedProgression tza rt days).
Proof.
  revert rt. induction days as [|day days IH]; intros rt Hrt; simpl; [constructor|].
  pose proof (Z.abs_nonneg (DailyBucket.points day)).
  pose proof (Z.abs_nonneg (DailyBucket.redeemed day)).
  pose proof (daysMagnitude_nonneg days).
  constructor.
  - unfold pointWithin, bucketMagnitude. simpl.
    destruct (Z.ltb_spec (rt + (DailyBucket.points day - DailyBucket.redeemed day)) 0); lia.
  - eapply Forall_impl; [apply IH|].
    + destruct (Z.ltb_spec (rt + (DailyBucket.points day - DailyBucket.redeemed day)) 0); lia.
    + intros p. apply pointWithin_le. unfold bucketMagnitude.
      destruct (Z.ltb_spec (rt + (DailyBucket.points day - DailyBucket.redeemed day)) 0); lia.
Qed.

Lemma timelineProgression_within rt rows :
  Forall (pointWithin (Z.abs rt + timelineMagnitude rows)) (timelineProgression tza rt rows).
Proof.
  revert rt. induction rows as [|r rows IH]; intros rt; simpl; [constructor|].
  pose proof (timelineMagnitude_nonneg rows).
  constructor.
  - unfold pointWithin. simpl. lia.
  - eapply Forall_impl; [apply IH|].
    intros p. apply pointWithin_le. lia.
Qed.

Lemma unadjusted_within d :
  Forall (pointWithin (feedMagnitude (feedItems (activityFeed d))
                       + timelineMagnitude (timelineRows (timelineData d))))
    (unadjusted tza d).
Proof.
  pose proof (feedMagnitude_nonneg (feedItems (activityFeed d))) as Hf.
  pose proof (timelineMagnitude_nonneg (timelineRows (timelineData d))) as Ht.
  unfold unadjusted.
  destruct (feedItems (activityFeed d)) as [|item items] eqn:E.
  - eapply Forall_impl; [apply timelineProgression_within|].
    intros p. apply pointWithin_le. unfold sortedTimeline.
    rewrite (timelineMagnitude_Permutation _ _ (sort_Permutation _ _)). simpl. lia.
  - eapply Forall_impl; [apply feedProgression_within; lia|].
    intros p. apply pointWithin_le.
    pose proof (daysMagnitude_sortedDays (item :: items)). lia.
Qed.

Lemma calculatedFinal_within b pts :
  0 <= b -> Forall (pointWithin b) pts -> Z.abs (calculatedFinal pts) <= b.
Proof.
  intros Hb Hall. unfold calculatedFinal.
  destruct (last pts) as [q|] eqn:E; simpl; [|lia].
  rewrite List.Forall_forall in Hall.
  apply last_Some_elem_of, list_elem_of_In in E.
  exact (proj1 (Hall q E)).
Qed.

(** In the exact range nothing that the derivation computes leaves it:
    the numbers of the series before the adjustment, the computed
    final value, the adjustment, and the points after it are all
    within [2^53] in magnitude. *)
Lemma exact_range_values (d : DashboardData) :
  withinExactRange d ->
  Forall (pointWithin (2 ^ 53)) (unadjusted tza d) /\
  Z.abs (JS.orZero (totalPoints d)) <= 2 ^ 53 /\
  Z.abs (calculatedFinal (unadjusted tza d)) <= 2 ^ 53 /\
  Z.abs (adjustment (JS.orZero (totalPoints d)) (unadjusted tza d)) <= 2 ^ 53 /\
  Forall (pointWithin (2 ^ 53)) (chartData tza d).
Proof.
  unfold withinExactRange, exactRange. intros H.
  set (M := feedMagnitude (feedItems (activityFeed d))
            + timelineMagnitude (timelineRows (timelineData d))) in *.
  assert (HM : 0 <= M).
  { unfold M.
    pose proof (feedMagnitude_nonneg (feedItems (activityFeed d))).
    pose proof (timelineMagnitude_nonneg (timelineRows (timelineData d))).
    lia. }
  pose proof (unadjusted_within d) as Hu. fold M in Hu.
  pose proof (calculatedFinal_within M _ HM Hu) as Hc.
  split; [|split; [|split; [|split]]].
  - eapply Forall_impl; [exact Hu|]. intros p. apply pointWithin_le. lia.
  - lia.
  - lia.
  - unfold adjustment. lia.
  - rewrite chartData_unadjusted, adjustToTotal_map.
    apply List.Forall_forall. intros p Hin.
    apply in_map_iff in Hin as (q & <- & Hq).
    rewrite List.Forall_forall in Hu. destruct (Hu q Hq) as (H1 & H2 & H3 & H4).
    unfold pointWithin, adjustment. cbn [Points Daily Redeemed Net addPoints]. lia.
Qed.

End ExactRange.

(** ** The numbers of the engine, outside the exact range *)

(** C1, at inputs that break it, in the numbers of the engine.  One
    earning of [2^53] with a total of [-1]: the adjustment
    [-1 - 2^53] is rounded to [-2^53], and the only point ends on [0],
    not on [-1]. One earning of [12] with a total of one tenth: the
    adjustment [0.1 - 12] is rounded, and [12] plus it is not one
    tenth. *)
Lemma last_point_misses_total :
  (exists p,
     last (Binary64.chartData 0 Binary64.largeEarning) = Some p /\
     Binary64.Points p = 0%float /\
     Binary64.orZero (Binary64.totalPoints Binary64.largeEarning) = (-1)%float /\
     PrimFloat.eqb (Binary64.Points p)
       (Binary64.orZero (Binary64.totalPoints Binary64.largeEarning)) = false) /\
  (exists p,
     last (Binary64.chartData 0 Binary64.fractionalTotal) = Some p /\
     Binary64.Points p = 0x1.999999999998p-4%float /\
     Binary64.orZero (Binary64.totalPoints Binary64.fractionalTotal)
     = 0x1.999999999999ap-4%float /\
     PrimFloat.eqb (Binary64.Points p)
       (Binary64.orZero (Binary64.totalPoints Binary64.fractionalTotal)) = false).
Proof.
  split; eexists; (split; [vm_compute; reflexivity|]); repeat split.
Qed.


(** In the exact range the two embeddings give the same numbers. *)
Example binary64_feed_scenarios :
  map Binary64.Points (Binary64.chartData 0 (Binary64.feed1 12)) = [15; 12]%float /\
  map Binary64.Points (Binary64.chartData 0 (Binary64.feed1 20)) = [23; 20]%float /\
  map Points (chartData 0 (Samples.fromFeedOnly Samples.feed1 (Some 20))) = [23; 20].
Proof. repeat split. Qed.

(** ** Keys that are dates are not inherited *)

Lemma validDate_not_inherited (k : string) :
  validDate k -> isInherited k = false.
Proof.
  intros [t Ht]. unfold isInherited.
  destruct (existsb (String.eqb k) objectPrototypeNames) eqn:E; [|reflexivity].
  apply existsb_exists in E as (n & Hin & Heq).
  apply String.eqb_eq in Heq. subst n.
  assert (Hall : Forall (fun n => JSDate.getTime n = None) objectPrototypeNames).
  { repeat constructor. }
  rewrite List.Forall_forall in Hall. rewrite (Hall k Hin) in Ht. discriminate Ht.
Qed.

(** ** The formatter in a zone *)

Section ZonedFormatter.

Import JSDate.

Lemma Zoned_fixed_formatDate tza s :
  Zoned.formatDate (Zoned.fixed tza) s = formatDate tza s.
Proof. reflexivity. Qed.

(** In a zone whose offset may change: the label that [formatDate] of
    ActivityGraph.tsx gives to a calendar date [YYYY-MM-DD] names the
    month and the day of that date, whenever the offset in force at the
    instant the midnight was turned into is not behind the offset the
    midnight was read with, and ahead of it by less than a day.  Zones
    with one offset and daylight-saving changes are within that; a zone
    that skips a calendar day is not. *)
Theorem formatDate_day_matches_in_zone (z : Zoned.Zone) y1 y2 y3 y4 m1 m2 d1 d2 :
  isDigit y1 -> isDigit y2 -> isDigit y3 -> isDigit y4 ->
  isDigit m1 -> isDigit m2 -> isDigit d1 -> isDigit d2 ->
  let y := 1000 * y1 + 100 * y2 + 10 * y3 + y4 in
  let m := 10 * m1 + m2 in
  let d := 10 * d1 + d2 in
  1 <= m <= 12 ->
  1 <= d <= DaysInMonth (MakeFullYear y) (m - 1) ->
  let tl := Zoned.localMidnight y (m - 1) d in
  Z.abs (Zoned.atLocal z tl) <= msPerDay ->
  0 <= Zoned.offsetShift z tl < msPerDay ->
  Zoned.formatDate z (isoDate y1 y2 y3 y4 m1 m2 d1 d2) = shortLabel (m - 1) d.
Proof.
  intros Hy1 Hy2 Hy3 Hy4 Hm1 Hm2 Hd1 Hd2 y m d Hm Hd tl Hoff Hshift.
  unfold Zoned.formatDate. rewrite split_isoDate by assumption.
  cbn [lookup list_lookup mjoin option_join option_map Zoned.fromComponents].
  fold y m d. fold (Zoned.localMidnight y (m - 1) d). fold tl.
  set (Y := MakeFullYear y) in *.
  assert (HY : 0 <= Y <= 9999).
  { assert (Hyr : 0 <= y <= 9999) by (unfold y, isDigit in *; lia).
    unfold Y, MakeFullYear.
    destruct (Z.leb_spec 0 y), (Z.leb_spec y 99); simpl; lia. }
  assert (Hmn : 0 <= m - 1 <= 11) by lia.
  destruct (MakeDay_within_year Y (m - 1) d Hmn Hd) as [Hday Hwithin].
  assert (Hbound : -800000 <= MakeDay Y (m - 1) d <= 3000000).
  { rewrite Hday. rewrite DaysInYear_leapDays in Hwithin.
    destruct (leapDays_range Y); unfold DayFromYear;
      Z.div_mod_to_equations; lia. }
  assert (Htl : tl = MakeDay Y (m - 1) d * msPerDay).
  { unfold tl, Zoned.localMidnight, MakeDate. fold Y. lia. }
  unfold TimeClip.
  destruct (Z.leb_spec (Z.abs (Zoned.UTC z tl)) 8640000000000000) as [_|Hbig].
  2:{ unfold Zoned.UTC, msPerDay in *. lia. }
  unfold Zoned.toLocaleDateString_short.
  destruct (civil_roundtrip Y (m - 1) d (Zoned.LocalTime z (Zoned.UTC z tl)) Hmn Hd)
    as [_ [-> ->]]; [|reflexivity].
  unfold Zoned.offsetShift in Hshift.
  replace (Zoned.LocalTime z (Zoned.UTC z tl))
    with (MakeDate (MakeDay Y (m - 1) d)
            (Zoned.atUTC z (Zoned.UTC z tl) - Zoned.atLocal z tl)).
  - now apply Day_MakeDate.
  - unfold Zoned.LocalTime, Zoned.UTC, MakeDate in *. lia.
Qed.

End ZonedFormatter.

(** Where the theorem stops: in Pacific/Apia the local day 2011-12-30
    was skipped, the offset moved by a whole day between reading the
    midnight and showing its instant, and the label is the one of the
    day after. *)
Example formatDate_apia_skipped_day :
  Zoned.offsetShift Zoned.apia2011 (Zoned.localMidnight 2011 11 30) = JSDate.msPerDay /\
  Zoned.formatDate Zoned.apia2011 "2011-12-30" = "Dec 31" /\
  Zoned.formatDate Zoned.apia2011 "2011-12-29" = "Dec 29" /\
  Zoned.formatDate Zoned.apia2011 "2011-12-31" = "Dec 31".
Proof. repeat split. Qed.

Lemma formatDate_day_matches_in_zone_witness :
  Zoned.formatDate Zoned.saoPaulo2018 (isoDate 2 0 1 8 1 1 0 4)
  = JSDate.shortLabel (10 * 1 + 1 - 1) (10 * 0 + 4).
Proof.
  apply (formatDate_day_matches_in_zone Zoned.saoPaulo2018 2 0 1 8 1 1 0 4);
    unfold isDigit; try lia.
  - vm_compute. split; discriminate.
  - vm_compute. discriminate.
  - vm_compute. split; [discriminate|reflexivity].
Defined.

(** ** Keys that the bucket object inherits *)

Lemma Prototype_feedStep_plain dailyData item :
  isInherited (dateKeyOf item) = false ->
  Prototype.feedStep dailyData item = feedStep dailyData item.
Proof.
  intros H. unfold Prototype.feedStep, feedStep, Prototype.lookup. rewrite H.
  destruct (Obj.get (dateKeyOf item) dailyData); reflexivity.
Qed.

Lemma Prototype_feedStep_inherited dailyData item :
  isInherited (dateKeyOf item) = true ->
  Obj.get (dateKeyOf item) dailyData = None ->
  Prototype.feedStep dailyData item = dailyData.
Proof.
  intros H E. unfold Prototype.feedStep, Prototype.lookup, Obj.update.
  rewrite E, H, E. now destruct (isEarning item), (isRedemption item).
Qed.

Lemma Prototype_fold_feedStep items dailyData :
  dailyDataOk (fun k => isInherited k = false) dailyData ->
  fold_left Prototype.feedStep items dailyData
  = fold_left feedStep (Prototype.plainItems items) dailyData.
Proof.
  revert dailyData. induction items as [|item items IH]; intros dd Hok; simpl;
    [reflexivity|].
  unfold Prototype.plain at 1.
  destruct (isInherited (dateKeyOf item)) eqn:E; simpl.
  - rewrite Prototype_feedStep_inherited; [now apply IH|exact E|].
    destruct (Obj.get (dateKeyOf item) dd) as [b|] eqn:G; [|reflexivity].
    destruct Hok as [_ Hall].
    destruct (Obj_get_Forall _ _ _ _ Hall G) as [_ Hk]. simpl in Hk. congruence.
  - rewrite Prototype_feedStep_plain by exact E.
    apply IH. now apply feedStep_dailyDataOk.
Qed.

Lemma Prototype_groupByDate items :
  Prototype.groupByDate items = groupByDate (Prototype.plainItems items).
Proof.
  apply Prototype_fold_feedStep. split; constructor.
Qed.

Lemma Prototype_sortedDays items :
  Prototype.sortedDays items = sortedDays (Prototype.plainItems items).
Proof. unfold Prototype.sortedDays. now rewrite Prototype_groupByDate. Qed.

Lemma plainItems_plainKeys items :
  plainKeys items -> Prototype.plainItems items = items.
Proof.
  induction 1 as [|item items H _ IH]; simpl; [reflexivity|].
  unfold Prototype.plain. rewrite H. simpl. now f_equal.
Qed.

Lemma In_plainItems item items :
  In item (Prototype.plainItems items)
  <-> In item items /\ isInherited (dateKeyOf item) = false.
Proof.
  unfold Prototype.plainItems. rewrite List.filter_In. unfold Prototype.plain.
  now rewrite negb_true_iff.
Qed.

(** On a feed without inherited names the two embeddings are one. *)
Lemma Prototype_chartData_plainKeys tza d :
  plainKeys (feedItems (activityFeed d)) ->
  Prototype.chartData tza d = chartData tza d
  /\ Prototype.ActivityGraph tza d = ActivityGraph tza d.
Proof.
  intros H.
  assert (E : Prototype.chartData tza d = chartData tza d).
  { unfold Prototype.chartData, chartData, Prototype.chartDataFromFeed, chartDataFromFeed.
    now rewrite Prototype_sortedDays, (plainItems_plainKeys _ H). }
  split; [exact E|]. unfold Prototype.ActivityGraph, ActivityGraph. now rewrite E.
Qed.

(** A feed whose only item is stamped with an inherited name gives no
    point, and the placeholder although the feed has an item; next to
    an item of a day, the stamped item is left out. *)
Example Prototype_constructor :
  Prototype.chartData 0 Prototype.stampedConstructor = [] /\
  Prototype.ActivityGraph 0 Prototype.stampedConstructor = EmptyState /\
  map rawDate (Prototype.chartData 0 Prototype.stampedConstructorAfter) = ["2025-09-08"] /\
  map rawDate (chartData 0 Prototype.stampedConstructorAfter)
  = ["2025-09-08"; "constructor"].
Proof. repeat split. Qed.

(** ** What the feed branch makes of inherited names *)

Section PrototypeSeries.

Variable tza : Z.

Lemma rawDate_Prototype_chartData d :
  feedItems (activityFeed d) <> [] ->
  map rawDate (Prototype.chartData tza d)
  = map DailyBucket.date (sortedDays (Prototype.plainItems (feedItems (activityFeed d)))).
Proof.
  intros Hne. unfold Prototype.chartData, Prototype.chartDataFromFeed.
  destruct (feedItems (activityFeed d)) as [|item items] eqn:E; [congruence|].
  cbn [length Nat.eqb andb negb].
  now rewrite rawDate_adjustToTotal, rawDate_feedProgression, Prototype_sortedDays.
Qed.

Lemma sortedDays_one_per_date items :
  List.NoDup (map DailyBucket.date (sortedDays items)) /\
  forall k, In k (map DailyBucket.date (sortedDays items)) <-> inFeed items k.
Proof.
  destruct (groupByDate_inFeed items) as [Hnd Hall].
  split.
  - now rewrite sortedDays_keys.
  - intros k. rewrite sortedDays_keys. split.
    + intros Hin. unfold Obj.keys in Hin.
      apply in_map_iff in Hin as ([k' b] & <- & Hin).
      rewrite List.Forall_forall in Hall. exact (proj2 (Hall _ Hin)).
    + intros (item & Hin & <-).
      apply Obj_get_In_keys. now apply groupByDate_has_key.
Qed.

(** A series made from the feed has one point for each date of the
    feed that is not a name the bucket object inherits: no date twice,
    no date that is not the date of an item, and no point for an
    inherited name. *)
Theorem feed_one_point_per_date (d : DashboardData) :
  feedItems (activityFeed d) <> [] ->
  List.NoDup (map rawDate (Prototype.chartData tza d)) /\
  forall k, In k (map rawDate (Prototype.chartData tza d))
            <-> inFeed (feedItems (activityFeed d)) k /\ isInherited k = false.
Proof.
  intros Hne. rewrite (rawDate_Prototype_chartData d Hne).
  destruct (sortedDays_one_per_date (Prototype.plainItems (feedItems (activityFeed d))))
    as [Hnd Hin].
  split; [exact Hnd|]. intros k. rewrite Hin. unfold inFeed. split.
  - intros (item & Hi & <-). apply In_plainItems in Hi as [Hi Hp]. eauto.
  - intros [(item & Hi & <-) Hp]. exists item. split; [|reflexivity].
    now apply In_plainItems.
Qed.

Lemma length_Prototype_chartData d :
  length (Prototype.chartData tza d)
  = match feedItems (activityFeed d) with
    | [] => length (timelineRows (timelineData d))
    | _ :: _ => length (groupByDate (Prototype.plainItems (feedItems (activityFeed d))))
    end.
Proof.
  unfold Prototype.chartData, Prototype.chartDataFromFeed.
  destruct (feedItems (activityFeed d)) as [|item items] eqn:E.
  - cbn [length Nat.eqb andb negb].
    destruct (timelineRows (timelineData d)) as [|r rows] eqn:Er; [reflexivity|].
    cbn [length Nat.eqb]. rewrite adjustToTotal_map, length_map.
    unfold chartDataWithProgression, sortedTimeline.
    rewrite length_timelineProgression.
    exact (Permutation_length (sort_Permutation _ (r :: rows))).
  - cbn [length Nat.eqb andb negb].
    rewrite adjustToTotal_map, length_map, length_feedProgression, Prototype_sortedDays.
    unfold sortedDays.
    rewrite (Permutation_length (sort_Permutation _ _)).
    rewrite (Permutation_length (Obj_values_Permutation _)).
    apply length_map.
Qed.

Lemma Prototype_chartData_has_point d :
  Prototype.chartData tza d <> [] <->
  (exists item, In item (feedItems (activityFeed d))
                /\ isInherited (dateKeyOf item) = false)
  \/ (feedItems (activityFeed d) = [] /\ timelineRows (timelineData d) <> []).
Proof.
  assert (Hlen : Prototype.chartData tza d <> []
                 <-> length (Prototype.chartData tza d) <> 0%nat).
  { destruct (Prototype.chartData tza d); simpl; split; congruence. }
  rewrite Hlen, length_Prototype_chartData.
  destruct (feedItems (activityFeed d)) as [|item items] eqn:E.
  - split.
    + intros H. right. split; [reflexivity|].
      destruct (timelineRows (timelineData d)); [contradiction|discriminate].
    + intros [(item & [] & _)|[_ H]].
      destruct (timelineRows (timelineData d)); [contradiction|discriminate].
  - split.
    + intros H. left.
      destruct (Prototype.plainItems (item :: items)) as [|it its] eqn:Ep;
        [contradiction|].
      exists it. apply In_plainItems. rewrite Ep. now left.
    + intros [(it & Hi & Hp)|[H _]]; [|discriminate].
      assert (Hin : In it (Prototype.plainItems (item :: items)))
        by now apply In_plainItems.
      destruct (groupByDate_has_key _ it Hin) as [b Hb].
      destruct (groupByDate (Prototype.plainItems (item :: items)));
        [discriminate Hb|discriminate].
Qed.

End PrototypeSeries.

(** ** What the component shows *)

(** What the component of ActivityGraph.tsx shows, from its inputs:
    the skeleton exactly while loading; the chart, of [chartData] and
    of nothing else, exactly when loading is over, [timelineData] is
    there, and either the feed has an item whose date key is not a name
    the bucket object inherits, or the feed is empty and the timeline
    has a row. *)
Theorem ActivityGraph_shows_chart (tza : Z) (d : DashboardData) :
  (Prototype.ActivityGraph tza d = Skeleton <-> isLoading d = true) /\
  (Prototype.ActivityGraph tza d = LineChart (Prototype.chartData tza d) <->
   isLoading d = false /\ is_Some (timelineData d) /\
   ((exists item, In item (feedItems (activityFeed d))
                  /\ isInherited (dateKeyOf item) = false)
    \/ (feedItems (activityFeed d) = [] /\ timelineRows (timelineData d) <> []))) /\
  (forall data, Prototype.ActivityGraph tza d = LineChart data ->
                data = Prototype.chartData tza d).
Proof.
  unfold Prototype.ActivityGraph.
  destruct (isLoading d).
  { split; [tauto|]. split; [|discriminate].
    split; [discriminate|]. intros [H _]. discriminate H. }
  split; [split; [|discriminate]|].
  { destruct (_ || _); discriminate. }
  pose proof (Prototype_chartData_has_point tza d) as Hpt.
  assert (Hlen : (length (Prototype.chartData tza d) =? 0)%nat = false
                 <-> Prototype.chartData tza d <> []).
  { destruct (Prototype.chartData tza d); simpl; split; congruence. }
  rewrite <- Hpt, <- Hlen.
  split.
  - destruct (timelineData d) as [t|] eqn:Et; simpl.
    + destruct (length (Prototype.chartData tza d) =? 0)%nat eqn:El.
      * split; [discriminate|]. intros (_ & _ & H). discriminate H.
      * split; [|reflexivity]. intros _. repeat split. eauto.
    + split; [discriminate|]. intros (_ & [? H] & _). discriminate H.
  - intros data. destruct (_ || _); [discriminate|]. now intros [= <-].
Qed.

Lemma feed_one_point_per_date_witness :
  List.NoDup (map rawDate (Prototype.chartData 0 Prototype.stampedConstructorAfter)).
Proof.
  refine (proj1 (feed_one_point_per_date 0 Prototype.stampedConstructorAfter _)).
  discriminate.
Defined.
